(** * Orders service: the Order aggregate, its response DTOs and use cases

    A shallow embedding of
    - [internal/domain/entities/orders.go]   (module [entities]),
    - [internal/domain/errors/orders.go]     (module [domainErrors]),
    - [internal/application/dto/orders.go]   (module [dto]),
    - the model conversions of the GORM repository (modules [order_repository]
      and [order_repository_lists]),
    - [internal/application/usecases/orders.go] (modules [usecases] and
      [usecases_orders]),
    - the request shapes and status queries (modules [dto_requests] and
      [entities_queries]),
    - [internal/adapters/http/handlers/orders_handler.go], as far as it does not
      decode a body (modules [strconv] and [handlers]),
    followed by the properties of the aggregate and of the layers around it.

    Conventions.  A Go method with a pointer receiver [func (o *Order) M(..) error]
    becomes a function [M .. o : Order * option error]: the order after the call
    and the returned error ([None] is Go's [nil]).  A call of [time.Now()] inside
    a method becomes an extra first argument [now].  A slice is the list of its
    elements. *)

From Stdlib Require Import ZArith PrimFloat Uint63 Ascii String Lia.
From stdpp Require Import base option list.

Open Scope Z_scope.

(** ** Go primitive types *)

Module Go.

(** [uint]: only ever compared for equality, never computed with. *)
Definition uint := N.

(** [int] on a 64-bit platform: two's complement, arithmetic wraps around. *)
Definition int := Z.
Definition MinInt : Z := - 2 ^ 63.
Definition MaxInt : Z := 2 ^ 63 - 1.
Definition wrap64 (z : Z) : int := (z + 2 ^ 63) mod 2 ^ 64 - 2 ^ 63.
Definition int_add (a b : int) : int := wrap64 (a + b).
Definition is_int (z : Z) : Prop := MinInt <= z <= MaxInt.

(** [float64]: IEEE 754 binary64, which is what Rocq's primitive floats are.
    Two floats are equal below when they are the same value (there is one NaN);
    the comparison [<=] of the code is [PrimFloat.leb]. *)
Definition float64 := PrimFloat.float.

(** The conversion [float64(n)] of an [int], rounding to nearest even.
    [of_uint63] covers [0 .. 2^63-1]; the sign and [MinInt] are handled here. *)
Definition float64_of_int (z : int) : float64 :=
  if z <? 0 then
    if z =? MinInt then (-0x1p63)%float
    else PrimFloat.opp (PrimFloat.of_uint63 (Uint63.of_Z (- z)))
  else PrimFloat.of_uint63 (Uint63.of_Z z).

(** [time.Time]: an instant; only stored and compared. *)
Definition Time := Z.

(** The two concrete [error] types of the service: the value of
    [errors.New(msg)] and a [*DomainError] of the errors package. *)
Inductive error : Type :=
  | errorString (msg : string)
  | DomainError (Code Message Field : string).

Definition errors_New (msg : string) : error := errorString msg.

(** A Go result pair [(value, error)] of which exactly one is set. *)
Inductive result (A : Type) : Type :=
  | Ok (a : A)
  | Err (e : error).
Arguments Ok {A} a.
Arguments Err {A} e.

(** *** [strings.TrimSpace]

    The standard library function: it removes every leading and trailing code
    point with Unicode's White_Space property.  Strings are byte strings in
    UTF-8; the table lists the encodings of the White_Space code points
    (U+0009..U+000D, U+0020, U+0085, U+00A0, U+1680, U+2000..U+200A, U+2028,
    U+2029, U+202F, U+205F, U+3000). *)

Definition bytes (l : list N) : list ascii := map ascii_of_N l.

Definition white_space : list (list ascii) :=
  map bytes
    [ [9]; [10]; [11]; [12]; [13]; [32];
      [194; 133]; [194; 160];
      [225; 154; 128];
      [226; 128; 128]; [226; 128; 129]; [226; 128; 130]; [226; 128; 131];
      [226; 128; 132]; [226; 128; 133]; [226; 128; 134]; [226; 128; 135];
      [226; 128; 136]; [226; 128; 137]; [226; 128; 138];
      [226; 128; 168]; [226; 128; 169]; [226; 128; 175];
      [226; 129; 159];
      [227; 128; 128] ]%N.

Fixpoint strip_prefix (p s : list ascii) : option (list ascii) :=
  match p, s with
  | [], _ => Some s
  | a :: p', b :: s' => if Ascii.eqb a b then strip_prefix p' s' else None
  | _ :: _, [] => None
  end.

Fixpoint strip_any (table : list (list ascii)) (s : list ascii) : option (list ascii) :=
  match table with
  | [] => None
  | p :: table' =>
      match strip_prefix p s with
      | Some rest => Some rest
      | None => strip_any table' s
      end
  end.

(** Drops leading entries of [table] from [s]; each round removes at least
    one byte, so [length s] rounds are enough. *)
Fixpoint trim_left (table : list (list ascii)) (fuel : nat) (s : list ascii) : list ascii :=
  match fuel with
  | O => s
  | S fuel' =>
      match strip_any table s with
      | Some rest => trim_left table fuel' rest
      | None => s
      end
  end.

Definition TrimSpace (s : string) : string :=
  let l := list_ascii_of_string s in
  let l1 := trim_left white_space (length l) l in
  let r := rev l1 in
  string_of_list_ascii (rev (trim_left (map (@rev ascii) white_space) (length r) r)).

End Go.

Import Go.

(** ** The domain entity: [internal/domain/entities/orders.go] *)

Module entities.

Definition OrderStatus := string.
Bind Scope string_scope with OrderStatus.

Definition OrderStatusPending : OrderStatus := "pending"%string.
Definition OrderStatusConfirmed : OrderStatus := "confirmed"%string.
Definition OrderStatusProcessing : OrderStatus := "processing"%string.
Definition OrderStatusShipped : OrderStatus := "shipped"%string.
Definition OrderStatusDelivered : OrderStatus := "delivered"%string.
Definition OrderStatusCancelled : OrderStatus := "cancelled"%string.
Definition OrderStatusRefunded : OrderStatus := "refunded"%string.

Record OrderItem : Type := mkOrderItem {
  ItemID : uint;
  ProductID : uint;
  ProductSKU : string;
  ProductName : string;
  Quantity : int;
  UnitPrice : float64;
  TotalPrice : float64
}.

Record Order : Type := mkOrder {
  ID : uint;
  CustomerID : uint;
  Items : list OrderItem;
  TotalAmount : float64;
  Status : OrderStatus;
  CreatedAt : Time;
  UpdatedAt : Time
}.

(** Field assignments [o.F = v]. *)
Definition set_Items (items : list OrderItem) (o : Order) : Order :=
  mkOrder (ID o) (CustomerID o) items (TotalAmount o) (Status o) (CreatedAt o) (UpdatedAt o).
Definition set_TotalAmount (t : float64) (o : Order) : Order :=
  mkOrder (ID o) (CustomerID o) (Items o) t (Status o) (CreatedAt o) (UpdatedAt o).
Definition set_Status (s : OrderStatus) (o : Order) : Order :=
  mkOrder (ID o) (CustomerID o) (Items o) (TotalAmount o) s (CreatedAt o) (UpdatedAt o).
Definition set_UpdatedAt (t : Time) (o : Order) : Order :=
  mkOrder (ID o) (CustomerID o) (Items o) (TotalAmount o) (Status o) (CreatedAt o) t.

Definition set_Quantity (q : int) (it : OrderItem) : OrderItem :=
  mkOrderItem (ItemID it) (ProductID it) (ProductSKU it) (ProductName it) q
              (UnitPrice it) (TotalPrice it).
Definition set_TotalPrice (p : float64) (it : OrderItem) : OrderItem :=
  mkOrderItem (ItemID it) (ProductID it) (ProductSKU it) (ProductName it) (Quantity it)
              (UnitPrice it) p.

(** The error values of the entity, one per [errors.New] in the file. *)
Definition errNotModifiable : error := errors_New "order cannot be modified in current status".
Definition errItemNotFound : error := errors_New "item not found in order".
Definition errQuantity : error := errors_New "quantity must be positive".
Definition errOnlyPending : error := errors_New "only pending orders can be confirmed".
Definition errEmptyOrder : error := errors_New "cannot confirm empty order".
Definition errCannotCancel : error := errors_New "order cannot be cancelled in current status".
Definition errOnlyConfirmed : error := errors_New "only confirmed orders can be moved to processing".
Definition errOnlyProcessing : error := errors_New "only processing orders can be shipped".
Definition errOnlyShipped : error := errors_New "only shipped orders can be delivered".
Definition errOnlyDelivered : error := errors_New "only delivered orders can be refunded".
Definition errGetItem : error := errors_New "item not found".
Definition errCustomerID : error := errors_New "customer ID is required".
Definition errProductID : error := errors_New "product ID is required".
Definition errProductSKU : error := errors_New "product SKU is required".
Definition errProductName : error := errors_New "product name is required".
Definition errUnitPrice : error := errors_New "unit price must be positive".
Definition errInvalidStatus : error := errors_New "invalid order status".

(** [isImmutable] *)
Definition isImmutable (o : Order) : bool :=
  String.eqb (Status o) OrderStatusCancelled
  || String.eqb (Status o) OrderStatusDelivered
  || String.eqb (Status o) OrderStatusRefunded.

(** [validateOrderItem] *)
Definition validateOrderItem (productID : uint) (productSKU productName : string)
    (quantity : int) (unitPrice : float64) : option error :=
  if (productID =? 0)%N then Some errProductID
  else if String.eqb (TrimSpace productSKU) "" then Some errProductSKU
  else if String.eqb (TrimSpace productName) "" then Some errProductName
  else if quantity <=? 0 then Some errQuantity
  else if PrimFloat.leb unitPrice 0%float then Some errUnitPrice
  else None.

(** [CalculateTotal]: the loop [total += item.TotalPrice] from [0.0], in slice
    order; returns the order with [TotalAmount] set, and the total. *)
Definition CalculateTotal (o : Order) : Order * float64 :=
  let total := fold_left (fun t item => PrimFloat.add t (TotalPrice item)) (Items o) 0%float in
  (set_TotalAmount total o, total).

(** The loops [for i := range o.Items { if o.Items[i].ProductID == productID ..]:
    the first index whose item has the product ID, with the item there. *)
Definition findProduct (productID : uint) (items : list OrderItem) : option (nat * OrderItem) :=
  list_find (fun item => ProductID item = productID) items.

(** [AddItem] *)
Definition AddItem (now : Time) (productID : uint) (productSKU productName : string)
    (quantity : int) (unitPrice : float64) (o : Order) : Order * option error :=
  if isImmutable o then (o, Some errNotModifiable)
  else
    match validateOrderItem productID productSKU productName quantity unitPrice with
    | Some err => (o, Some err)
    | None =>
        match findProduct productID (Items o) with
        | Some (i, item) =>
            let q := int_add (Quantity item) quantity in
            let item1 := set_Quantity q item in
            let item2 := set_TotalPrice (PrimFloat.mul (float64_of_int q) (UnitPrice item1)) item1 in
            let o1 := set_Items (<[i := item2]> (Items o)) o in
            let o2 := fst (CalculateTotal o1) in
            (set_UpdatedAt now o2, None)
        | None =>
            let newItem :=
              mkOrderItem 0%N productID (TrimSpace productSKU) (TrimSpace productName)
                          quantity unitPrice
                          (PrimFloat.mul (float64_of_int quantity) unitPrice) in
            let o1 := set_Items (Items o ++ [newItem]) o in
            let o2 := fst (CalculateTotal o1) in
            (set_UpdatedAt now o2, None)
        end
    end.

(** [RemoveItem]: [append(o.Items[:i], o.Items[i+1:]...)] at the first match. *)
Definition RemoveItem (now : Time) (productID : uint) (o : Order) : Order * option error :=
  if isImmutable o then (o, Some errNotModifiable)
  else
    match findProduct productID (Items o) with
    | Some (i, _) =>
        let o1 := set_Items (take i (Items o) ++ drop (S i) (Items o)) o in
        let o2 := fst (CalculateTotal o1) in
        (set_UpdatedAt now o2, None)
    | None => (o, Some errItemNotFound)
    end.

(** [UpdateItemQuantity] *)
Definition UpdateItemQuantity (now : Time) (productID : uint) (quantity : int) (o : Order)
    : Order * option error :=
  if isImmutable o then (o, Some errNotModifiable)
  else if quantity <=? 0 then (o, Some errQuantity)
  else
    match findProduct productID (Items o) with
    | Some (i, item) =>
        let item1 := set_Quantity quantity item in
        let item2 :=
          set_TotalPrice (PrimFloat.mul (float64_of_int quantity) (UnitPrice item1)) item1 in
        let o1 := set_Items (<[i := item2]> (Items o)) o in
        let o2 := fst (CalculateTotal o1) in
        (set_UpdatedAt now o2, None)
    | None => (o, Some errItemNotFound)
    end.

(** [ConfirmOrder] *)
Definition ConfirmOrder (now : Time) (o : Order) : Order * option error :=
  if negb (String.eqb (Status o) OrderStatusPending) then (o, Some errOnlyPending)
  else if (length (Items o) =? 0)%nat then (o, Some errEmptyOrder)
  else (set_UpdatedAt now (set_Status OrderStatusConfirmed o), None).

(** [CanBeCancelled] *)
Definition CanBeCancelled (o : Order) : bool :=
  String.eqb (Status o) OrderStatusPending
  || String.eqb (Status o) OrderStatusConfirmed
  || String.eqb (Status o) OrderStatusProcessing.

(** [CancelOrder] *)
Definition CancelOrder (now : Time) (o : Order) : Order * option error :=
  if negb (CanBeCancelled o) then (o, Some errCannotCancel)
  else (set_UpdatedAt now (set_Status OrderStatusCancelled o), None).

(** [TransitionToProcessing] *)
Definition TransitionToProcessing (now : Time) (o : Order) : Order * option error :=
  if negb (String.eqb (Status o) OrderStatusConfirmed) then (o, Some errOnlyConfirmed)
  else (set_UpdatedAt now (set_Status OrderStatusProcessing o), None).

(** [TransitionToShipped] *)
Definition TransitionToShipped (now : Time) (o : Order) : Order * option error :=
  if negb (String.eqb (Status o) OrderStatusProcessing) then (o, Some errOnlyProcessing)
  else (set_UpdatedAt now (set_Status OrderStatusShipped o), None).

(** [TransitionToDelivered] *)
Definition TransitionToDelivered (now : Time) (o : Order) : Order * option error :=
  if negb (String.eqb (Status o) OrderStatusShipped) then (o, Some errOnlyShipped)
  else (set_UpdatedAt now (set_Status OrderStatusDelivered o), None).

(** [TransitionToRefunded] *)
Definition TransitionToRefunded (now : Time) (o : Order) : Order * option error :=
  if negb (String.eqb (Status o) OrderStatusDelivered) then (o, Some errOnlyDelivered)
  else (set_UpdatedAt now (set_Status OrderStatusRefunded o), None).

(** [IsEmpty], [GetItemCount], [GetTotalQuantity] *)
Definition IsEmpty (o : Order) : bool := (length (Items o) =? 0)%nat.

Definition GetItemCount (o : Order) : int := Z.of_nat (length (Items o)).

Definition GetTotalQuantity (o : Order) : int :=
  fold_left (fun total item => int_add total (Quantity item)) (Items o) 0.

(** [GetItem] *)
Definition GetItem (productID : uint) (o : Order) : result OrderItem :=
  match findProduct productID (Items o) with
  | Some (_, item) => Ok item
  | None => Err errGetItem
  end.

(** [NewOrder] *)
Definition NewOrder (now : Time) (customerID : uint) : result Order :=
  if (customerID =? 0)%N then Err errCustomerID
  else Ok (mkOrder 0%N customerID [] 0%float OrderStatusPending now now).

(** [NewOrderItem] *)
Definition NewOrderItem (productID : uint) (productSKU productName : string)
    (quantity : int) (unitPrice : float64) : result OrderItem :=
  match validateOrderItem productID productSKU productName quantity unitPrice with
  | Some err => Err err
  | None =>
      Ok (mkOrderItem 0%N productID (TrimSpace productSKU) (TrimSpace productName)
                      quantity unitPrice
                      (PrimFloat.mul (float64_of_int quantity) unitPrice))
  end.

(** [ValidateOrderStatus] *)
Definition known_statuses : list OrderStatus :=
  [ OrderStatusPending; OrderStatusConfirmed; OrderStatusProcessing; OrderStatusShipped;
    OrderStatusDelivered; OrderStatusCancelled; OrderStatusRefunded ].

Definition ValidateOrderStatus (status : OrderStatus) : option error :=
  if existsb (String.eqb status) known_statuses then None else Some errInvalidStatus.

End entities.

Import entities.

(** ** Domain errors: [internal/domain/errors/orders.go] *)

Module domainErrors.

Definition ErrOrderNotFound : error := DomainError "ORDER_NOT_FOUND" "Order not found" "".
Definition ErrInvalidOrderStatus : error :=
  DomainError "INVALID_ORDER_STATUS" "Invalid order status" "status".
Definition ErrFailedToUpdateOrder : error :=
  DomainError "FAILED_TO_UPDATE_ORDER" "Failed to update order" "".
Definition ErrFailedToListOrders : error :=
  DomainError "FAILED_TO_LIST_ORDERS" "Failed to list orders" "".

End domainErrors.

(** ** Response shapes: [internal/application/dto/orders.go] *)

Module dto.

Record UpdateOrderStatusRequestDTO : Type := mkUpdateOrderStatusRequestDTO {
  ReqStatus : OrderStatus
}.

Record OrderItemResponseDTO : Type := mkOrderItemResponseDTO {
  ItemID : uint;
  ProductID : uint;
  ProductSKU : string;
  ProductName : string;
  Quantity : int;
  UnitPrice : float64;
  TotalPrice : float64
}.

Record OrderResponseDTO : Type := mkOrderResponseDTO {
  ID : uint;
  CustomerID : uint;
  Items : list OrderItemResponseDTO;
  ItemCount : int;
  TotalItems : int;
  TotalAmount : float64;
  Status : OrderStatus;
  CreatedAt : Time;
  UpdatedAt : Time
}.

Record OrderListResponseDTO : Type := mkOrderListResponseDTO {
  Orders : list OrderResponseDTO;
  Total : Z;
  Page : int;
  PageSize : int
}.

(** [OrderItemToResponseDTO] *)
Definition OrderItemToResponseDTO (item : entities.OrderItem) : OrderItemResponseDTO :=
  {| ItemID := entities.ItemID item;
     ProductID := entities.ProductID item;
     ProductSKU := entities.ProductSKU item;
     ProductName := entities.ProductName item;
     Quantity := entities.Quantity item;
     UnitPrice := entities.UnitPrice item;
     TotalPrice := entities.TotalPrice item |}.

(** [OrderItemsToResponseDTOs]: one [append] per item, in slice order. *)
Definition OrderItemsToResponseDTOs (items : list entities.OrderItem)
    : list OrderItemResponseDTO :=
  fold_left (fun dtos item => dtos ++ [OrderItemToResponseDTO item]) items [].

(** [OrderToResponseDTO] *)
Definition OrderToResponseDTO (order : entities.Order) : OrderResponseDTO :=
  {| ID := entities.ID order;
     CustomerID := entities.CustomerID order;
     Items := OrderItemsToResponseDTOs (entities.Items order);
     ItemCount := GetItemCount order;
     TotalItems := GetTotalQuantity order;
     TotalAmount := entities.TotalAmount order;
     Status := entities.Status order;
     CreatedAt := entities.CreatedAt order;
     UpdatedAt := entities.UpdatedAt order |}.

(** [OrdersToResponseDTOs] *)
Definition OrdersToResponseDTOs (orders : list entities.Order) : list OrderResponseDTO :=
  fold_left (fun dtos order => dtos ++ [OrderToResponseDTO order]) orders [].

(** Modelled from the spec: the conversion of a response back to an order is
    missing from the sources (they only convert an order to its response).
    The spec calls the mapping to and from the response shape mechanical, the
    response mirroring every field of the order plus the derived counts; so
    each mirrored field is copied back and the two derived counts are dropped. *)
Definition OrderItemFromResponseDTO (d : OrderItemResponseDTO) : entities.OrderItem :=
  entities.mkOrderItem (ItemID d) (ProductID d) (ProductSKU d) (ProductName d)
                       (Quantity d) (UnitPrice d) (TotalPrice d).

(** Modelled from the spec: see [OrderItemFromResponseDTO]; the order-level
    half of the missing conversion, items taken in their order. *)
Definition OrderFromResponseDTO (d : OrderResponseDTO) : entities.Order :=
  entities.mkOrder (ID d) (CustomerID d) (map OrderItemFromResponseDTO (Items d))
                   (TotalAmount d) (Status d) (CreatedAt d) (UpdatedAt d).

End dto.

(** ** Storage shapes: the conversions of the GORM order repository *)

Module order_repository.

(** The zero [time.Time], left in the fields that [toModel] does not set. *)
Definition zeroTime : Time := 0.

Record OrderItemModel : Type := mkOrderItemModel {
  ItemID : uint;
  OrderID : uint;
  ProductID : uint;
  ProductSKU : string;
  ProductName : string;
  Quantity : int;
  UnitPrice : float64;
  TotalPrice : float64;
  ItemCreatedAt : Time;
  ItemUpdatedAt : Time
}.

Record OrderModel : Type := mkOrderModel {
  ID : uint;
  CustomerID : uint;
  Items : list OrderItemModel;
  TotalAmount : float64;
  Status : string;
  CreatedAt : Time;
  UpdatedAt : Time;
  DeletedAt : option Time
}.

(** [toModel] *)
Definition toModel (order : entities.Order) : OrderModel :=
  let items :=
    if (0 <? length (entities.Items order))%nat then
      fold_left
        (fun models item =>
           models ++
           [mkOrderItemModel (entities.ItemID item) (entities.ID order)
              (entities.ProductID item) (entities.ProductSKU item)
              (entities.ProductName item) (entities.Quantity item)
              (entities.UnitPrice item) (entities.TotalPrice item) zeroTime zeroTime])
        (entities.Items order) []
    else [] in
  mkOrderModel (entities.ID order) (entities.CustomerID order) items
               (entities.TotalAmount order) (entities.Status order)
               (entities.CreatedAt order) (entities.UpdatedAt order) None.

(** [toEntity] *)
Definition toEntity (model : OrderModel) : entities.Order :=
  let items :=
    if (0 <? length (Items model))%nat then
      fold_left
        (fun items item =>
           items ++
           [entities.mkOrderItem (ItemID item) (ProductID item) (ProductSKU item)
              (ProductName item) (Quantity item) (UnitPrice item) (TotalPrice item)])
        (Items model) []
    else [] in
  entities.mkOrder (ID model) (CustomerID model) items (TotalAmount model) (Status model)
                   (CreatedAt model) (UpdatedAt model).

End order_repository.

(** ** Use cases: [internal/application/usecases/orders.go]

    A use case talks to the repository behind the [ports.OrderRepository]
    interface.  It is embedded as a tree of repository calls: [Call c k] asks
    the repository for [c] and continues with [k] on the answer.  Calls of the
    logger are left out. *)

Module usecases.

Inductive RepoCall : Type -> Type :=
  | RepoGetByID (id : uint) : RepoCall (result Order)
  | RepoUpdate (order : Order) : RepoCall (result Order)
  | RepoList (limit offset : int) : RepoCall (result (list Order))
  | RepoGetByCustomerID (customerID : uint) (limit offset : int)
      : RepoCall (result (list Order))
  | RepoGetByStatus (status : OrderStatus) (limit offset : int)
      : RepoCall (result (list Order))
  | RepoCount : RepoCall (result Z)
  | RepoCountByCustomerID (customerID : uint) : RepoCall (result Z)
  | RepoCountByStatus (status : OrderStatus) : RepoCall (result Z).

Inductive UseCase (A : Type) : Type :=
  | Ret (a : A)
  | Call {X : Type} (c : RepoCall X) (k : X -> UseCase A).
Arguments Ret {A} a.
Arguments Call {A X} c k.

(** An implementation of the repository interface over a store of type [S]. *)
Definition Repository (S : Type) : Type := forall X, RepoCall X -> S -> X * S.

Fixpoint interp {S A : Type} (repo : Repository S) (p : UseCase A) (s : S) : A * S :=
  match p with
  | Ret a => (a, s)
  | Call c k => let (x, s') := repo _ c s in interp repo (k x) s'
  end.

Definition errUnsupported : error := errors_New "unsupported status transition".

(** The [switch request.Status] of [TransitionOrderStatus]. *)
Definition switchStatus (now : Time) (status : OrderStatus) (order : Order)
    : Order * option error :=
  if String.eqb status OrderStatusConfirmed then ConfirmOrder now order
  else if String.eqb status OrderStatusProcessing then TransitionToProcessing now order
  else if String.eqb status OrderStatusShipped then TransitionToShipped now order
  else if String.eqb status OrderStatusDelivered then TransitionToDelivered now order
  else if String.eqb status OrderStatusCancelled then CancelOrder now order
  else if String.eqb status OrderStatusRefunded then TransitionToRefunded now order
  else (order, Some errUnsupported).

(** What every mutating use case does with the outcome of the domain call:
    return its error, or hand the order to [Update] and answer with the
    response of the stored order. *)
Definition saveOrder (outcome : Order * option error) : UseCase (result dto.OrderResponseDTO) :=
  match outcome with
  | (_, Some err) => Ret (Err err)
  | (order, None) =>
      Call (RepoUpdate order) (fun r =>
        match r with
        | Err _ => Ret (Err domainErrors.ErrFailedToUpdateOrder)
        | Ok updatedOrder => Ret (Ok (dto.OrderToResponseDTO updatedOrder))
        end)
  end.

(** [TransitionOrderStatus] *)
Definition TransitionOrderStatus (now : Time) (orderID : uint)
    (request : dto.UpdateOrderStatusRequestDTO) : UseCase (result dto.OrderResponseDTO) :=
  Call (RepoGetByID orderID) (fun r =>
    match r with
    | Err err => Ret (Err err)
    | Ok order =>
        match ValidateOrderStatus (dto.ReqStatus request) with
        | Some _ => Ret (Err domainErrors.ErrInvalidOrderStatus)
        | None => saveOrder (switchStatus now (dto.ReqStatus request) order)
        end
    end).

(** [normalizePagination] *)
Definition normalizePagination (page pageSize : int) : int * int :=
  let page := if page <? 0 then 0 else page in
  let pageSize := if (pageSize <? 1) || (pageSize >? 100) then 10 else pageSize in
  (page, pageSize).

(** The common tail of the three list use cases: fail when the listing
    failed, else count (falling back on [len(orders)]) and build the page. *)
Definition listPage (page pageSize : int) (count : RepoCall (result Z))
    (r : result (list Order)) : UseCase (result dto.OrderListResponseDTO) :=
  match r with
  | Err _ => Ret (Err domainErrors.ErrFailedToListOrders)
  | Ok orders =>
      Call count (fun c =>
        let total := match c with Err _ => Z.of_nat (length orders) | Ok n => n end in
        Ret (Ok (dto.mkOrderListResponseDTO (dto.OrdersToResponseDTOs orders)
                                            total page pageSize)))
  end.

(** [GetCustomerOrders] *)
Definition GetCustomerOrders (customerID : uint) (page pageSize : int)
    : UseCase (result dto.OrderListResponseDTO) :=
  let (page, pageSize) := normalizePagination page pageSize in
  Call (RepoGetByCustomerID customerID pageSize page)
       (listPage page pageSize (RepoCountByCustomerID customerID)).

(** [GetOrdersByStatus] *)
Definition GetOrdersByStatus (status : OrderStatus) (page pageSize : int)
    : UseCase (result dto.OrderListResponseDTO) :=
  match ValidateOrderStatus status with
  | Some _ => Ret (Err domainErrors.ErrInvalidOrderStatus)
  | None =>
      let (page, pageSize) := normalizePagination page pageSize in
      Call (RepoGetByStatus status pageSize page)
           (listPage page pageSize (RepoCountByStatus status))
  end.

(** [ListOrders] *)
Definition ListOrders (page pageSize : int) : UseCase (result dto.OrderListResponseDTO) :=
  let (page, pageSize) := normalizePagination page pageSize in
  Call (RepoList pageSize page) (listPage page pageSize RepoCount).

End usecases.

Import usecases.

(** ** Sequences of aggregate operations *)

Module Aggregate.

(** One call of an operation of the aggregate, with its arguments. *)
Inductive Op : Type :=
  | OpAddItem (productID : uint) (productSKU productName : string)
              (quantity : int) (unitPrice : float64)
  | OpRemoveItem (productID : uint)
  | OpUpdateItemQuantity (productID : uint) (quantity : int)
  | OpCalculateTotal
  | OpConfirmOrder
  | OpCancelOrder
  | OpTransitionToProcessing
  | OpTransitionToShipped
  | OpTransitionToDelivered
  | OpTransitionToRefunded.

(** The call of [op] on [o] when the clock reads [now]. *)
Definition call (now : Time) (op : Op) (o : Order) : Order * option error :=
  match op with
  | OpAddItem productID productSKU productName quantity unitPrice =>
      AddItem now productID productSKU productName quantity unitPrice o
  | OpRemoveItem productID => RemoveItem now productID o
  | OpUpdateItemQuantity productID quantity => UpdateItemQuantity now productID quantity o
  | OpCalculateTotal => (fst (CalculateTotal o), None)
  | OpConfirmOrder => ConfirmOrder now o
  | OpCancelOrder => CancelOrder now o
  | OpTransitionToProcessing => TransitionToProcessing now o
  | OpTransitionToShipped => TransitionToShipped now o
  | OpTransitionToDelivered => TransitionToDelivered now o
  | OpTransitionToRefunded => TransitionToRefunded now o
  end.

(** The orders seen after each call of a sequence, failed calls included. *)
Fixpoint history (ops : list (Time * Op)) (o : Order) : list Order :=
  match ops with
  | [] => []
  | (now, op) :: rest =>
      let o' := fst (call now op o) in
      o' :: history rest o'
  end.

(** The sum of the items' total prices, added in item order from [0.0]. *)
Fixpoint sum_from (acc : float64) (items : list OrderItem) : float64 :=
  match items with
  | [] => acc
  | item :: rest => sum_from (PrimFloat.add acc (TotalPrice item)) rest
  end.

Definition sum_total_prices (items : list OrderItem) : float64 := sum_from 0%float items.

(** An item's total price is its quantity times its unit price. *)
Definition item_priced (item : OrderItem) : Prop :=
  TotalPrice item = PrimFloat.mul (float64_of_int (Quantity item)) (UnitPrice item).

(** The totals invariant of the aggregate. *)
Definition totals_consistent (o : Order) : Prop :=
  TotalAmount o = sum_total_prices (Items o) /\ Forall item_priced (Items o).

(** The three statuses of the mutability gate. *)
Definition immutable_status (s : OrderStatus) : Prop :=
  s = OrderStatusCancelled \/ s = OrderStatusDelivered \/ s = OrderStatusRefunded.

(** The three statuses from which an order can be cancelled. *)
Definition cancellable_status (s : OrderStatus) : Prop :=
  s = OrderStatusPending \/ s = OrderStatusConfirmed \/ s = OrderStatusProcessing.

(** [i] is the first position of [items] holding product [productID]. *)
Definition first_with_product (productID : uint) (items : list OrderItem)
    (i : nat) (item : OrderItem) : Prop :=
  items !! i = Some item /\ ProductID item = productID /\
  forall j other, (j < i)%nat -> items !! j = Some other -> ProductID other <> productID.

End Aggregate.

Import Aggregate.

(** ** Vocabulary for statements about use cases *)

Module Calls.

(** The routing the dispatcher is to implement: target status, transition. *)
Definition routes : list (OrderStatus * (Time -> Order -> Order * option error)) :=
  [ (OrderStatusConfirmed, ConfirmOrder);
    (OrderStatusProcessing, TransitionToProcessing);
    (OrderStatusShipped, TransitionToShipped);
    (OrderStatusDelivered, TransitionToDelivered);
    (OrderStatusCancelled, CancelOrder);
    (OrderStatusRefunded, TransitionToRefunded) ].

(** [every_call P p]: whatever the repository answers, each call that the
    use case [p] makes satisfies [P]. *)
Inductive every_call {A : Type} (P : forall X, RepoCall X -> Prop) : UseCase A -> Prop :=
  | every_call_Ret (a : A) : every_call P (Ret a)
  | every_call_Call (X : Type) (c : RepoCall X) (k : X -> UseCase A) :
      P X c -> (forall x, every_call P (k x)) -> every_call P (Call c k).

(** A listing call asks for an offset [>= 0] and a limit in [1 .. 100]. *)
Definition paged_within (X : Type) (c : RepoCall X) : Prop :=
  match c with
  | RepoList limit offset
  | RepoGetByCustomerID _ limit offset
  | RepoGetByStatus _ limit offset => 0 <= offset /\ 1 <= limit <= 100
  | _ => True
  end.

End Calls.

Import Calls.

(** ** Concrete orders used to exercise the statements *)

Module Samples.

(** The order of [NewOrder(123)] when the clock reads 100. *)
Definition fresh : Order := mkOrder 0%N 123%N [] 0%float OrderStatusPending 100 100.

(** [fresh] after [AddItem(1, "SKU-001", "Test Product", 2, 10.0)] at 101. *)
Definition one_item : Order :=
  mkOrder 0%N 123%N
    [mkOrderItem 0%N 1%N "SKU-001" "Test Product" 2 10%float 20%float]
    20%float OrderStatusPending 100 101.

(** A confirmed order that holds no item. *)
Definition confirmed_empty : Order :=
  mkOrder 7%N 123%N [] 0%float OrderStatusConfirmed 100 100.

(** A delivered order with one item. *)
Definition delivered : Order :=
  mkOrder 8%N 123%N
    [mkOrderItem 1%N 1%N "SKU-001" "Test Product" 2 10%float 20%float]
    20%float OrderStatusDelivered 100 101.

(** A sequence of calls, some of which fail. *)
Definition calls : list (Time * Op) :=
  [ (101, OpAddItem 1%N "SKU-001" "Test Product" 2 10%float);
    (102, OpAddItem 0%N "SKU-002" "Nameless" 1 5%float);
    (103, OpAddItem 1%N " SKU-001 " "Test Product" 3 10%float);
    (104, OpAddItem 2%N "SKU-002" "Other" 1 2.5%float);
    (105, OpUpdateItemQuantity 2%N 3);
    (106, OpRemoveItem 999%N);
    (107, OpTransitionToShipped);
    (108, OpConfirmOrder);
    (109, OpRemoveItem 1%N);
    (110, OpCancelOrder);
    (111, OpCalculateTotal) ].

(** An in-memory stand-in for the repository, over a list of stored orders;
    it serves to run the use cases on concrete inputs. *)
Definition page_of (limit offset : int) (orders : list Order) : list Order :=
  take (Z.to_nat limit) (drop (Z.to_nat offset) orders).

Definition memory_repo : Repository (list Order) :=
  fun X c =>
    match c in RepoCall X return list Order -> X * list Order with
    | RepoGetByID id => fun store =>
        (match find (fun o => (ID o =? id)%N) store with
         | Some o => Ok o
         | None => Err domainErrors.ErrOrderNotFound
         end, store)
    | RepoUpdate order => fun store =>
        (match find (fun o => (ID o =? ID order)%N) store with
         | Some _ => Ok order
         | None => Err domainErrors.ErrOrderNotFound
         end,
         map (fun o => if (ID o =? ID order)%N then order else o) store)
    | RepoList limit offset => fun store => (Ok (page_of limit offset store), store)
    | RepoGetByCustomerID customerID limit offset => fun store =>
        (Ok (page_of limit offset
               (filter (fun o => CustomerID o = customerID) store)), store)
    | RepoGetByStatus status limit offset => fun store =>
        (Ok (page_of limit offset
               (filter (fun o => String.eqb (Status o) status = true) store)), store)
    | RepoCount => fun store => (Ok (Z.of_nat (length store)), store)
    | RepoCountByCustomerID customerID => fun store =>
        (Ok (Z.of_nat (length (filter (fun o => CustomerID o = customerID) store))), store)
    | RepoCountByStatus status => fun store =>
        (Ok (Z.of_nat
               (length (filter (fun o => String.eqb (Status o) status = true) store))), store)
    end.

(** A pending order with one item, as stored. *)
Definition pending_stored : Order :=
  mkOrder 9%N 123%N
    [mkOrderItem 1%N 1%N "SKU-001" "Test Product" 2 10%float 20%float]
    20%float OrderStatusPending 100 101.

Definition store : list Order := [confirmed_empty; delivered; pending_stored].

End Samples.

(** ** Vocabulary for the life cycle of an order *)

Module Lifecycle.

(** No two items of the order are for the same product. *)
Definition unique_products (o : Order) : Prop := NoDup (ProductID <$> Items o).

(** What item validation guarantees of a stored item, whatever happens to
    its quantity afterwards. *)
Definition item_described (item : OrderItem) : Prop :=
  ProductID item <> 0%N /\
  ProductSKU item <> ""%string /\
  ProductName item <> ""%string /\
  PrimFloat.leb (UnitPrice item) 0%float = false.

(** The arrows of the status machine: from, to. *)
Definition edges : list (OrderStatus * OrderStatus) :=
  [ (OrderStatusPending, OrderStatusConfirmed);
    (OrderStatusConfirmed, OrderStatusProcessing);
    (OrderStatusProcessing, OrderStatusShipped);
    (OrderStatusShipped, OrderStatusDelivered);
    (OrderStatusDelivered, OrderStatusRefunded);
    (OrderStatusPending, OrderStatusCancelled);
    (OrderStatusConfirmed, OrderStatusCancelled);
    (OrderStatusProcessing, OrderStatusCancelled) ].

(** The two statuses without an outgoing arrow. *)
Definition terminal_status (s : OrderStatus) : Prop :=
  s = OrderStatusCancelled \/ s = OrderStatusRefunded.

(** The exact sum of the items' quantities. *)
Definition sum_quantities (items : list OrderItem) : Z :=
  foldr (fun item acc => Quantity item + acc) 0 items.

(** The five calls that walk an order from pending to refunded, at the
    clock readings [t1 .. t5]. *)
Definition full_course (t1 t2 t3 t4 t5 : Time) : list (Time * Op) :=
  [ (t1, OpConfirmOrder); (t2, OpTransitionToProcessing); (t3, OpTransitionToShipped);
    (t4, OpTransitionToDelivered); (t5, OpTransitionToRefunded) ].



End Lifecycle.

Import Lifecycle.

(** ** More concrete orders *)

Module Fixtures.

(** Two products, as [NewOrder(123)], [AddItem(1, ..)], [AddItem(2, ..)] leave them. *)
Definition two_items : Order :=
  mkOrder 0%N 123%N
    [ mkOrderItem 0%N 1%N "SKU-001" "Product 1" 2 10%float 20%float;
      mkOrderItem 0%N 2%N "SKU-002" "Product 2" 3 15%float 45%float ]
    65%float OrderStatusPending 100 102.

(** An order whose single item holds the largest quantity an [int] can. *)
Definition brimful : Order :=
  mkOrder 0%N 123%N
    [ mkOrderItem 0%N 1%N "SKU-001" "Product 1" MaxInt 1%float
        9223372036854775808%float ]
    9223372036854775808%float OrderStatusPending 100 101.

(** A cancelled order with one item. *)
Definition cancelled : Order :=
  mkOrder 5%N 123%N
    [mkOrderItem 1%N 1%N "SKU-001" "Product 1" 2 10%float 20%float]
    20%float OrderStatusCancelled 100 101.

End Fixtures.

(** ** The status queries of [internal/domain/entities/orders.go] *)

Module entities_queries.

(** [IsPending] *)
Definition IsPending (o : Order) : bool := String.eqb (Status o) OrderStatusPending.

(** [IsConfirmed] *)
Definition IsConfirmed (o : Order) : bool := String.eqb (Status o) OrderStatusConfirmed.

(** [IsCancelled] *)
Definition IsCancelled (o : Order) : bool := String.eqb (Status o) OrderStatusCancelled.

(** [IsDelivered] *)
Definition IsDelivered (o : Order) : bool := String.eqb (Status o) OrderStatusDelivered.

End entities_queries.

(** ** The rest of the GORM order repository's conversions *)

Module order_repository_lists.

(** [toEntities] *)
Definition toEntities (models : list order_repository.OrderModel) : list Order :=
  fold_left (fun orders model => orders ++ [order_repository.toEntity model]) models [].

End order_repository_lists.

(** ** Request shapes: the rest of [internal/application/dto/orders.go] *)

Module dto_requests.

(** The successive readings of the clock: [clock k] is what the [k]-th call
    of [time.Now()] returns. *)
Definition Clock := nat -> Time.

Record CreateOrderItemDTO : Type := mkCreateOrderItemDTO {
  ItemProductID : uint;
  ItemProductSKU : string;
  ItemProductName : string;
  ItemQuantity : int;
  ItemUnitPrice : float64
}.

Record CreateOrderRequestDTO : Type := mkCreateOrderRequestDTO {
  CustomerID : uint;
  Items : list CreateOrderItemDTO
}.

Record AddOrderItemRequestDTO : Type := mkAddOrderItemRequestDTO {
  ProductID : uint;
  ProductSKU : string;
  ProductName : string;
  Quantity : int;
  UnitPrice : float64
}.

Record UpdateOrderItemQuantityRequestDTO : Type := mkUpdateOrderItemQuantityRequestDTO {
  NewQuantity : int
}.

Record OrderSummaryResponseDTO : Type := mkOrderSummaryResponseDTO {
  SummaryID : uint;
  SummaryCustomerID : uint;
  SummaryItemCount : int;
  SummaryTotalAmount : float64;
  SummaryStatus : OrderStatus;
  SummaryCreatedAt : Time;
  SummaryUpdatedAt : Time
}.

(** The loop [for _, item := range dto.Items] of [ToEntity]: one [AddItem]
    per requested item, the first error ends it.  [k] counts the clock
    readings taken so far. *)
Fixpoint addItems (clock : Clock) (k : nat) (items : list CreateOrderItemDTO)
    (order : entities.Order) : result entities.Order :=
  match items with
  | [] => Ok order
  | item :: rest =>
      match AddItem (clock k) (ItemProductID item) (ItemProductSKU item)
                    (ItemProductName item) (ItemQuantity item) (ItemUnitPrice item) order with
      | (_, Some err) => Err err
      | (order', None) => addItems clock (S k) rest order'
      end
  end.

(** [CreateOrderRequestDTO.ToEntity] *)
Definition ToEntity (clock : Clock) (dto : CreateOrderRequestDTO) : result entities.Order :=
  match NewOrder (clock 0%nat) (CustomerID dto) with
  | Err err => Err err
  | Ok order => addItems clock 1 (Items dto) order
  end.

(** [AddOrderItemRequestDTO.ToOrderItem] *)
Definition ToOrderItem (dto : AddOrderItemRequestDTO) : result entities.OrderItem :=
  NewOrderItem (ProductID dto) (ProductSKU dto) (ProductName dto) (Quantity dto)
               (UnitPrice dto).

(** [OrderToSummaryResponseDTO] *)
Definition OrderToSummaryResponseDTO (order : entities.Order) : OrderSummaryResponseDTO :=
  {| SummaryID := entities.ID order;
     SummaryCustomerID := entities.CustomerID order;
     SummaryItemCount := GetItemCount order;
     SummaryTotalAmount := entities.TotalAmount order;
     SummaryStatus := entities.Status order;
     SummaryCreatedAt := entities.CreatedAt order;
     SummaryUpdatedAt := entities.UpdatedAt order |}.

(** [OrdersToSummaryResponseDTOs] *)
Definition OrdersToSummaryResponseDTOs (orders : list entities.Order)
    : list OrderSummaryResponseDTO :=
  fold_left (fun dtos order => dtos ++ [OrderToSummaryResponseDTO order]) orders [].

(** A requested item passes item validation. *)
Definition item_accepted (item : CreateOrderItemDTO) : Prop :=
  validateOrderItem (ItemProductID item) (ItemProductSKU item) (ItemProductName item)
                    (ItemQuantity item) (ItemUnitPrice item) = None.

(** The exact sum of the requested quantities. *)
Definition requested_quantity (items : list CreateOrderItemDTO) : Z :=
  foldr (fun item acc => ItemQuantity item + acc) 0 items.

End dto_requests.

(** ** The other use cases of [internal/application/usecases/orders.go] *)

Module usecases_orders.

Definition ErrFailedToCreateOrder : error :=
  DomainError "FAILED_TO_CREATE_ORDER" "Failed to create order" "".
Definition ErrFailedToDeleteOrder : error :=
  DomainError "FAILED_TO_DELETE_ORDER" "Failed to delete order" "".

(** [GetOrder] *)
Definition GetOrder (id : uint) : UseCase (result dto.OrderResponseDTO) :=
  Call (RepoGetByID id) (fun r =>
    match r with
    | Err err => Ret (Err err)
    | Ok order => Ret (Ok (dto.OrderToResponseDTO order))
    end).

(** [AddItemToOrder] *)
Definition AddItemToOrder (now : Time) (orderID : uint)
    (request : dto_requests.AddOrderItemRequestDTO) : UseCase (result dto.OrderResponseDTO) :=
  Call (RepoGetByID orderID) (fun r =>
    match r with
    | Err err => Ret (Err err)
    | Ok order =>
        saveOrder (AddItem now (dto_requests.ProductID request)
                     (dto_requests.ProductSKU request) (dto_requests.ProductName request)
                     (dto_requests.Quantity request) (dto_requests.UnitPrice request) order)
    end).

(** [RemoveItemFromOrder] *)
Definition RemoveItemFromOrder (now : Time) (orderID productID : uint)
    : UseCase (result dto.OrderResponseDTO) :=
  Call (RepoGetByID orderID) (fun r =>
    match r with
    | Err err => Ret (Err err)
    | Ok order => saveOrder (RemoveItem now productID order)
    end).

(** [UpdateItemQuantity] *)
Definition UpdateItemQuantity (now : Time) (orderID productID : uint)
    (request : dto_requests.UpdateOrderItemQuantityRequestDTO)
    : UseCase (result dto.OrderResponseDTO) :=
  Call (RepoGetByID orderID) (fun r =>
    match r with
    | Err err => Ret (Err err)
    | Ok order =>
        saveOrder (entities.UpdateItemQuantity now productID
                     (dto_requests.NewQuantity request) order)
    end).

(** [ConfirmOrder] *)
Definition ConfirmOrder (now : Time) (orderID : uint) : UseCase (result dto.OrderResponseDTO) :=
  Call (RepoGetByID orderID) (fun r =>
    match r with
    | Err err => Ret (Err err)
    | Ok order => saveOrder (entities.ConfirmOrder now order)
    end).

(** [CancelOrder] *)
Definition CancelOrder (now : Time) (orderID : uint) : UseCase (result dto.OrderResponseDTO) :=
  Call (RepoGetByID orderID) (fun r =>
    match r with
    | Err err => Ret (Err err)
    | Ok order => saveOrder (entities.CancelOrder now order)
    end).

(** [CreateOrder] and [DeleteOrder] also use [Create] and [Delete] of the
    repository interface; [StoreCall] adds these two to the calls above. *)
Inductive StoreCall : Type -> Type :=
  | RepoCreate (order : Order) : StoreCall (result Order)
  | RepoDelete (id : uint) : StoreCall (option error)
  | Repo {X : Type} (c : RepoCall X) : StoreCall X.

Inductive StoreUseCase (A : Type) : Type :=
  | SRet (a : A)
  | SCall {X : Type} (c : StoreCall X) (k : X -> StoreUseCase A).
Arguments SRet {A} a.
Arguments SCall {A X} c k.

Definition Store (S : Type) : Type := forall X, StoreCall X -> S -> X * S.

Fixpoint run {S A : Type} (store : Store S) (p : StoreUseCase A) (s : S) : A * S :=
  match p with
  | SRet a => (a, s)
  | SCall c k => let (x, s') := store _ c s in run store (k x) s'
  end.

(** [CreateOrder] *)
Definition CreateOrder (clock : dto_requests.Clock)
    (request : dto_requests.CreateOrderRequestDTO)
    : StoreUseCase (result dto.OrderResponseDTO) :=
  match dto_requests.ToEntity clock request with
  | Err err => SRet (Err err)
  | Ok domainEntity =>
      SCall (RepoCreate domainEntity) (fun r =>
        match r with
        | Err _ => SRet (Err ErrFailedToCreateOrder)
        | Ok createdOrder => SRet (Ok (dto.OrderToResponseDTO createdOrder))
        end)
  end.

(** [DeleteOrder] *)
Definition DeleteOrder (orderID : uint) : StoreUseCase (option error) :=
  SCall (Repo (RepoGetByID orderID)) (fun r =>
    match r with
    | Err err => SRet (Some err)
    | Ok _ =>
        SCall (RepoDelete orderID) (fun d =>
          match d with
          | Some _ => SRet (Some ErrFailedToDeleteOrder)
          | None => SRet None
          end)
    end).

(** The five use cases that change a stored order, with their arguments. *)
Inductive Change : Type :=
  | ChangeAddItem (request : dto_requests.AddOrderItemRequestDTO)
  | ChangeRemoveItem (productID : uint)
  | ChangeQuantity (productID : uint) (request : dto_requests.UpdateOrderItemQuantityRequestDTO)
  | ChangeConfirm
  | ChangeCancel.

(** The use case of a change, and the operation of the aggregate it is to run. *)
Definition use_case (now : Time) (orderID : uint) (change : Change)
    : UseCase (result dto.OrderResponseDTO) :=
  match change with
  | ChangeAddItem request => AddItemToOrder now orderID request
  | ChangeRemoveItem productID => RemoveItemFromOrder now orderID productID
  | ChangeQuantity productID request => UpdateItemQuantity now orderID productID request
  | ChangeConfirm => ConfirmOrder now orderID
  | ChangeCancel => CancelOrder now orderID
  end.

Definition operation (change : Change) : Op :=
  match change with
  | ChangeAddItem request =>
      OpAddItem (dto_requests.ProductID request) (dto_requests.ProductSKU request)
                (dto_requests.ProductName request) (dto_requests.Quantity request)
                (dto_requests.UnitPrice request)
  | ChangeRemoveItem productID => OpRemoveItem productID
  | ChangeQuantity productID request =>
      OpUpdateItemQuantity productID (dto_requests.NewQuantity request)
  | ChangeConfirm => OpConfirmOrder
  | ChangeCancel => OpCancelOrder
  end.

(** The call is a listing call of the repository. *)
Definition is_listing (X : Type) (c : RepoCall X) : Prop :=
  match c with
  | RepoList _ _ | RepoGetByCustomerID _ _ _ | RepoGetByStatus _ _ _ => True
  | _ => False
  end.

End usecases_orders.

(** ** Number parsing of Go's [strconv], as the HTTP handlers use it *)

Module strconv.

(** The value of a decimal digit, [None] for any other byte. *)
Definition digit (c : ascii) : option Z :=
  let n := Z.of_N (N_of_ascii c) in
  if (48 <=? n) && (n <=? 57) then Some (n - 48) else None.

(** The number written by a string of decimal digits; [None] when one of
    its bytes is not a digit. *)
Fixpoint digits (acc : Z) (s : list ascii) : option Z :=
  match s with
  | [] => Some acc
  | c :: rest =>
      match digit c with
      | Some d => digits (10 * acc + d) rest
      | None => None
      end
  end.

(** [strconv.ParseUint(s, 10, 32)]: one or more decimal digits and nothing
    else, of value at most [2^32 - 1]; [None] stands for its error. *)
Definition ParseUint32 (s : string) : option uint :=
  match list_ascii_of_string s with
  | [] => None
  | l =>
      match digits 0 l with
      | Some n => if n <=? 2 ^ 32 - 1 then Some (Z.to_N n) else None
      | None => None
      end
  end.

(** [strconv.Atoi(s)]: an optional sign, then one or more decimal digits and
    nothing else, of a value that fits an [int]; [None] stands for its error. *)
Definition Atoi (s : string) : option int :=
  match list_ascii_of_string s with
  | [] => None
  | c :: rest =>
      let '(negative, l) :=
        if Ascii.eqb c "-" then (true, rest)
        else if Ascii.eqb c "+" then (false, rest)
        else (false, c :: rest) in
      match l with
      | [] => None
      | _ =>
          match digits 0 l with
          | Some n =>
              let v := if negative then - n else n in
              if (MinInt <=? v) && (v <=? MaxInt) then Some v else None
          | None => None
          end
      end
  end.

End strconv.

(** ** HTTP handlers: [internal/adapters/http/handlers/orders_handler.go]

    Of the echo context a handler reads the path and query parameters; what
    it sends with [c.JSON(status, body)] is its result.  The handlers that
    decode a JSON body and run the struct validator are not embedded. *)

Module handlers.

Record Context : Type := mkContext {
  Param : string -> string;
  QueryParam : string -> string
}.

Record ErrorResponse : Type := mkErrorResponse {
  Error : string;
  Message : string;
  Details : list (string * string)
}.

Inductive Body : Type :=
  | ErrorBody (e : ErrorResponse)
  | OrderBody (response : dto.OrderResponseDTO)
  | ListBody (response : dto.OrderListResponseDTO).

Definition Response : Type := Z * Body.

Definition StatusOK : Z := 200.
Definition StatusBadRequest : Z := 400.
Definition StatusNotFound : Z := 404.
Definition StatusConflict : Z := 409.
Definition StatusInternalServerError : Z := 500.

(** The [usecases.OrderUseCases] interface, as far as these handlers call it. *)
Record OrderUseCases : Type := mkOrderUseCases {
  uc_GetOrder : uint -> UseCase (result dto.OrderResponseDTO);
  uc_RemoveItemFromOrder : uint -> uint -> UseCase (result dto.OrderResponseDTO);
  uc_ConfirmOrder : uint -> UseCase (result dto.OrderResponseDTO);
  uc_CancelOrder : uint -> UseCase (result dto.OrderResponseDTO);
  uc_GetCustomerOrders : uint -> int -> int -> UseCase (result dto.OrderListResponseDTO);
  uc_GetOrdersByStatus : OrderStatus -> int -> int -> UseCase (result dto.OrderListResponseDTO);
  uc_ListOrders : int -> int -> UseCase (result dto.OrderListResponseDTO)
}.

(** The implementation of the interface by the use cases above, for a
    request served when the clock reads [now]. *)
Definition orderUseCasesImpl (now : Time) : OrderUseCases :=
  {| uc_GetOrder := usecases_orders.GetOrder;
     uc_RemoveItemFromOrder := usecases_orders.RemoveItemFromOrder now;
     uc_ConfirmOrder := usecases_orders.ConfirmOrder now;
     uc_CancelOrder := usecases_orders.CancelOrder now;
     uc_GetCustomerOrders := GetCustomerOrders;
     uc_GetOrdersByStatus := GetOrdersByStatus;
     uc_ListOrders := ListOrders |}.

(** Running [p] and then [f] on its result. *)
Fixpoint andThen {A B : Type} (p : UseCase A) (f : A -> UseCase B) : UseCase B :=
  match p with
  | Ret a => f a
  | Call c k => Call c (fun x => andThen (k x) f)
  end.

(** [handleError]: [errors.As(err, &domainErr)] holds for a [*DomainError]
    and for no other error of the service. *)
Definition handleError (err : error) : Response :=
  match err with
  | DomainError code message _ =>
      if String.eqb code "ORDER_NOT_FOUND" then
        (StatusNotFound, ErrorBody (mkErrorResponse code message []))
      else if String.eqb code "ORDER_ALREADY_EXISTS" then
        (StatusConflict, ErrorBody (mkErrorResponse code message []))
      else if existsb (String.eqb code)
                [ "INVALID_CUSTOMER_ID"; "INVALID_ORDER_STATUS"; "INVALID_STATUS_TRANSITION";
                  "ORDER_ALREADY_CONFIRMED"; "ORDER_CANNOT_BE_CANCELLED"; "EMPTY_ORDER";
                  "ORDER_ITEM_NOT_FOUND" ]%string then
        (StatusBadRequest, ErrorBody (mkErrorResponse code message []))
      else
        (StatusBadRequest, ErrorBody (mkErrorResponse code message []))
  | errorString _ =>
      (StatusInternalServerError,
       ErrorBody (mkErrorResponse "INTERNAL_ERROR" "An internal error occurred" []))
  end.

(** [parseUintParam] *)
Definition parseUintParam (c : Context) (paramName : string) : option uint :=
  strconv.ParseUint32 (Param c paramName).

(** [parsePaginationParams] *)
Definition parsePaginationParams (c : Context) : int * int :=
  let page :=
    let pageParam := QueryParam c "page" in
    if negb (String.eqb pageParam "") then
      match strconv.Atoi pageParam with
      | Some p => if 0 <=? p then p else 0
      | None => 0
      end
    else 0 in
  let pageSize :=
    let sizeParam := QueryParam c "page_size" in
    if negb (String.eqb sizeParam "") then
      match strconv.Atoi sizeParam with
      | Some ps => if (0 <? ps) && (ps <=? 100) then ps else 10
      | None => 10
      end
    else 10 in
  (page, pageSize).

(** What [handleError] sends for an error that is not a [*DomainError]. *)
Definition internalError : Response :=
  (StatusInternalServerError,
   ErrorBody (mkErrorResponse "INTERNAL_ERROR" "An internal error occurred" [])).

Definition invalidID (message : string) : Response :=
  (StatusBadRequest, ErrorBody (mkErrorResponse "INVALID_ID" message [])).

(** The end of every order handler: the error through [handleError], or the
    response with status 200. *)
Definition sendOrder (r : result dto.OrderResponseDTO) : UseCase Response :=
  match r with
  | Err err => Ret (handleError err)
  | Ok response => Ret (StatusOK, OrderBody response)
  end.

Definition sendList (r : result dto.OrderListResponseDTO) : UseCase Response :=
  match r with
  | Err err => Ret (handleError err)
  | Ok response => Ret (StatusOK, ListBody response)
  end.

(** [GetOrder] *)
Definition GetOrder (h : OrderUseCases) (c : Context) : UseCase Response :=
  match strconv.ParseUint32 (Param c "id") with
  | None => Ret (invalidID "Invalid order ID format")
  | Some id => andThen (uc_GetOrder h id) sendOrder
  end.

(** [RemoveItemFromOrder] *)
Definition RemoveItemFromOrder (h : OrderUseCases) (c : Context) : UseCase Response :=
  match parseUintParam c "id" with
  | None => Ret (invalidID "Invalid order ID format")
  | Some orderID =>
      match parseUintParam c "product_id" with
      | None => Ret (invalidID "Invalid product ID format")
      | Some productID => andThen (uc_RemoveItemFromOrder h orderID productID) sendOrder
      end
  end.

(** [ConfirmOrder] *)
Definition ConfirmOrder (h : OrderUseCases) (c : Context) : UseCase Response :=
  match parseUintParam c "id" with
  | None => Ret (invalidID "Invalid order ID format")
  | Some orderID => andThen (uc_ConfirmOrder h orderID) sendOrder
  end.

(** [CancelOrder] *)
Definition CancelOrder (h : OrderUseCases) (c : Context) : UseCase Response :=
  match parseUintParam c "id" with
  | None => Ret (invalidID "Invalid order ID format")
  | Some orderID => andThen (uc_CancelOrder h orderID) sendOrder
  end.

(** [ListOrders] *)
Definition ListOrders (h : OrderUseCases) (c : Context) : UseCase Response :=
  let (page, pageSize) := parsePaginationParams c in
  andThen (uc_ListOrders h page pageSize) sendList.

(** [GetCustomerOrders] *)
Definition GetCustomerOrders (h : OrderUseCases) (c : Context) : UseCase Response :=
  match parseUintParam c "customer_id" with
  | None => Ret (invalidID "Invalid customer ID format")
  | Some customerID =>
      let (page, pageSize) := parsePaginationParams c in
      andThen (uc_GetCustomerOrders h customerID page pageSize) sendList
  end.

(** [GetOrdersByStatus] *)
Definition GetOrdersByStatus (h : OrderUseCases) (c : Context) : UseCase Response :=
  let statusParam := Param c "status" in
  if String.eqb statusParam "" then
    Ret (StatusBadRequest,
         ErrorBody (mkErrorResponse "INVALID_STATUS" "Status parameter is required" []))
  else
    let (page, pageSize) := parsePaginationParams c in
    andThen (uc_GetOrdersByStatus h statusParam page pageSize) sendList.

(** The handlers of a change of one stored order that take no body. *)
Inductive Route : Type := RouteRemoveItem | RouteConfirm | RouteCancel.

Definition handler (route : Route) : OrderUseCases -> Context -> UseCase Response :=
  match route with
  | RouteRemoveItem => RemoveItemFromOrder
  | RouteConfirm => ConfirmOrder
  | RouteCancel => CancelOrder
  end.

(** The operation of the aggregate behind a route, for the product of the
    path when it needs one. *)
Definition route_operation (route : Route) (productID : uint) : Op :=
  match route with
  | RouteRemoveItem => OpRemoveItem productID
  | RouteConfirm => OpConfirmOrder
  | RouteCancel => OpCancelOrder
  end.

End handlers.

(** ** Concrete requests *)

Module Requests.

(** Three requested items, the third for the product of the first. *)
Definition three_lines : dto_requests.CreateOrderRequestDTO :=
  dto_requests.mkCreateOrderRequestDTO 123%N
    [ dto_requests.mkCreateOrderItemDTO 1%N "SKU-001" "Product 1" 2 10%float;
      dto_requests.mkCreateOrderItemDTO 2%N "SKU-002" "Product 2" 3 15%float;
      dto_requests.mkCreateOrderItemDTO 1%N "SKU-001" "Product 1" 3 10%float ].

(** A clock that reads 100 first and one more at each reading. *)
Definition ticking : dto_requests.Clock := fun k => 100 + Z.of_nat k.

(** A request whose second item has no name. *)
Definition nameless_line : dto_requests.CreateOrderRequestDTO :=
  dto_requests.mkCreateOrderRequestDTO 123%N
    [ dto_requests.mkCreateOrderItemDTO 1%N "SKU-001" "Product 1" 2 10%float;
      dto_requests.mkCreateOrderItemDTO 2%N "SKU-002" "  " 3 15%float ].

(** The in-memory stand-in with [Create] and [Delete]: a created order gets
    an identity past those stored; deleting removes the orders of that
    identity and fails when there is none. *)
Definition memory_store : usecases_orders.Store (list Order) :=
  fun X c =>
    match c in usecases_orders.StoreCall X return list Order -> X * list Order with
    | usecases_orders.RepoCreate order => fun store =>
        let created :=
          mkOrder (1 + fold_right N.max 0%N (map ID store))%N (CustomerID order)
                  (Items order) (TotalAmount order) (Status order) (CreatedAt order)
                  (UpdatedAt order) in
        (Ok created, store ++ [created])
    | usecases_orders.RepoDelete id => fun store =>
        (match find (fun o => (ID o =? id)%N) store with
         | Some _ => None
         | None => Some domainErrors.ErrOrderNotFound
         end,
         filter (fun o => ID o <> id) store)
    | usecases_orders.Repo c => Samples.memory_repo _ c
    end.

(** The context of a request for the order 7 and its product 1, asking for
    page 2 in pages of 500. *)
Definition context_7 : handlers.Context :=
  handlers.mkContext
    (fun name =>
       if String.eqb name "id" then "7"
       else if String.eqb name "product_id" then "1" else "")%string
    (fun name =>
       if String.eqb name "page" then "2"
       else if String.eqb name "page_size" then "500" else "")%string.

(** The context of a request whose order identity is not a number. *)
Definition context_abc : handlers.Context :=
  handlers.mkContext (fun _ => "abc"%string) (fun _ => ""%string).

End Requests.

(** * Properties *)

(** ** Basic facts about the embedding *)

Example TrimSpace_ascii : TrimSpace "  SKU-001	 " = "SKU-001"%string.
Proof. reflexivity. Qed.

Example TrimSpace_unicode :
  TrimSpace (string_of_list_ascii (bytes [194; 160; 32; 120; 32; 121; 226; 128; 131; 10]%N))
  = "x y"%string.
Proof. reflexivity. Qed.

Example TrimSpace_blank : TrimSpace "   " = ""%string.
Proof. reflexivity. Qed.

Example float64_of_int_rounds_to_even :
  float64_of_int (2 ^ 53 + 1) = 9007199254740992%float /\
  float64_of_int (2 ^ 53 + 3) = 9007199254740996%float /\
  float64_of_int MinInt = (-9223372036854775808)%float.
Proof. vm_compute. repeat split; reflexivity. Qed.

Lemma sum_from_fold acc items :
  fold_left (fun t item => PrimFloat.add t (TotalPrice item)) items acc = sum_from acc items.
Proof. revert acc. induction items as [|item rest IH]; intros acc; simpl; [reflexivity | apply IH]. Qed.

Lemma CalculateTotal_spec o :
  fst (CalculateTotal o) = set_TotalAmount (sum_total_prices (Items o)) o.
Proof. unfold CalculateTotal, sum_total_prices. simpl. now rewrite sum_from_fold. Qed.

Lemma isImmutable_true o : isImmutable o = true <-> immutable_status (Status o).
Proof.
  unfold isImmutable, immutable_status.
  rewrite !orb_true_iff, !String.eqb_eq. tauto.
Qed.

Lemma isImmutable_false o : isImmutable o = false <-> ~ immutable_status (Status o).
Proof. rewrite <- isImmutable_true. destruct (isImmutable o); split; congruence. Qed.

Lemma CanBeCancelled_true o : CanBeCancelled o = true <-> cancellable_status (Status o).
Proof.
  unfold CanBeCancelled, cancellable_status.
  rewrite !orb_true_iff, !String.eqb_eq. tauto.
Qed.

Lemma findProduct_Some productID items i item :
  findProduct productID items = Some (i, item) <-> first_with_product productID items i item.
Proof.
  unfold findProduct, first_with_product. rewrite list_find_Some.
  split; intros (H1 & H2 & H3); repeat split; auto.
  - intros j other Hj Hl. exact (H3 j other Hl Hj).
  - intros j other Hl Hj. exact (H3 j other Hj Hl).
Qed.

Lemma findProduct_None productID items :
  findProduct productID items = None <-> Forall (fun item => ProductID item <> productID) items.
Proof. unfold findProduct. apply list_find_None. Qed.

(** ** Failed calls change nothing *)

Ltac split_branches :=
  repeat match goal with
    | |- context [if ?b then _ else _] => destruct b eqn:?
    | |- context [match ?x with Some _ => _ | None => _ end] => destruct x as [?|] eqn:?
    | |- context [let (_, _) := ?p in _] => destruct p
    end.

Ltac failed_call :=
  split_branches;
  let H := fresh in
  intros H; inversion H; subst; reflexivity.

Lemma AddItem_failed now productID productSKU productName quantity unitPrice o o' e :
  AddItem now productID productSKU productName quantity unitPrice o = (o', Some e) -> o' = o.
Proof. unfold AddItem. failed_call. Qed.

Lemma RemoveItem_failed now productID o o' e :
  RemoveItem now productID o = (o', Some e) -> o' = o.
Proof. unfold RemoveItem. failed_call. Qed.

Lemma UpdateItemQuantity_failed now productID quantity o o' e :
  UpdateItemQuantity now productID quantity o = (o', Some e) -> o' = o.
Proof. unfold UpdateItemQuantity. failed_call. Qed.

Lemma transitions_failed now o o' e :
  (ConfirmOrder now o = (o', Some e) -> o' = o) /\
  (CancelOrder now o = (o', Some e) -> o' = o) /\
  (TransitionToProcessing now o = (o', Some e) -> o' = o) /\
  (TransitionToShipped now o = (o', Some e) -> o' = o) /\
  (TransitionToDelivered now o = (o', Some e) -> o' = o) /\
  (TransitionToRefunded now o = (o', Some e) -> o' = o).
Proof.
  unfold ConfirmOrder, CancelOrder, TransitionToProcessing, TransitionToShipped,
    TransitionToDelivered, TransitionToRefunded.
  repeat split; failed_call.
Qed.

(** C5.  Whatever the order, the operation and the clock: a call that returns
    an error returns the order it was given, so items, totalAmount, status,
    customerID, createdAt and updatedAt (and the identity) are all unchanged. *)
Theorem failed_call_leaves_order_unchanged (now : Time) (op : Op) (o o' : Order) (e : error) :
  call now op o = (o', Some e) ->
  o' = o /\
  Items o' = Items o /\ TotalAmount o' = TotalAmount o /\ Status o' = Status o /\
  CustomerID o' = CustomerID o /\ CreatedAt o' = CreatedAt o /\ UpdatedAt o' = UpdatedAt o.
Proof.
  intros H.
  assert (o' = o) as ->; [| repeat split; reflexivity].
  destruct (transitions_failed now o o' e) as (Hc & Hx & Hp & Hs & Hd & Hr).
  destruct op; simpl in H;
    eauto using AddItem_failed, RemoveItem_failed, UpdateItemQuantity_failed.
  discriminate H.
Qed.

(** ** The totals invariant *)

Lemma item_priced_requantified q item :
  item_priced
    (set_TotalPrice (PrimFloat.mul (float64_of_int q) (UnitPrice (set_Quantity q item)))
                    (set_Quantity q item)).
Proof. reflexivity. Qed.

Lemma recalculated_consistent now items o :
  Forall item_priced items ->
  totals_consistent (set_UpdatedAt now (fst (CalculateTotal (set_Items items o)))).
Proof. intros H. rewrite CalculateTotal_spec. split; [reflexivity | exact H]. Qed.

Lemma restatus_consistent now s o :
  totals_consistent o -> totals_consistent (set_UpdatedAt now (set_Status s o)).
Proof. intros H. exact H. Qed.

Lemma AddItem_consistent now productID productSKU productName quantity unitPrice o :
  totals_consistent o ->
  totals_consistent (fst (AddItem now productID productSKU productName quantity unitPrice o)).
Proof.
  intros Hc. pose proof Hc as [_ Hitems]. unfold AddItem.
  destruct (isImmutable o); [exact Hc |].
  destruct (validateOrderItem _ _ _ _ _); [exact Hc |].
  destruct (findProduct productID (Items o)) as [[i item]|]; simpl fst.
  - apply recalculated_consistent, Forall_insert; [exact Hitems |].
    apply item_priced_requantified.
  - apply recalculated_consistent, Forall_app. split; [exact Hitems |].
    constructor; [reflexivity | constructor].
Qed.

Lemma RemoveItem_consistent now productID o :
  totals_consistent o -> totals_consistent (fst (RemoveItem now productID o)).
Proof.
  intros Hc. pose proof Hc as [_ Hitems]. unfold RemoveItem.
  destruct (isImmutable o); [exact Hc |].
  destruct (findProduct productID (Items o)) as [[i item]|]; simpl fst; [| exact Hc].
  apply recalculated_consistent, Forall_app.
  split; [apply Forall_take | apply Forall_drop]; exact Hitems.
Qed.

Lemma UpdateItemQuantity_consistent now productID quantity o :
  totals_consistent o -> totals_consistent (fst (UpdateItemQuantity now productID quantity o)).
Proof.
  intros Hc. pose proof Hc as [_ Hitems]. unfold UpdateItemQuantity.
  destruct (isImmutable o); [exact Hc |].
  destruct (quantity <=? 0); [exact Hc |].
  destruct (findProduct productID (Items o)) as [[i item]|]; simpl fst; [| exact Hc].
  apply recalculated_consistent, Forall_insert; [exact Hitems |].
  apply item_priced_requantified.
Qed.

Lemma call_consistent now op o :
  totals_consistent o -> totals_consistent (fst (call now op o)).
Proof.
  intros Hc. destruct op; cbn [call fst].
  - now apply AddItem_consistent.
  - now apply RemoveItem_consistent.
  - now apply UpdateItemQuantity_consistent.
  - rewrite CalculateTotal_spec. destruct Hc as [_ Hitems]. split; [reflexivity | exact Hitems].
  - unfold ConfirmOrder. split_branches; try exact Hc; now apply restatus_consistent.
  - unfold CancelOrder. split_branches; try exact Hc; now apply restatus_consistent.
  - unfold TransitionToProcessing. split_branches; try exact Hc; now apply restatus_consistent.
  - unfold TransitionToShipped. split_branches; try exact Hc; now apply restatus_consistent.
  - unfold TransitionToDelivered. split_branches; try exact Hc; now apply restatus_consistent.
  - unfold TransitionToRefunded. split_branches; try exact Hc; now apply restatus_consistent.
Qed.

Lemma history_consistent ops o :
  totals_consistent o -> Forall totals_consistent (history ops o).
Proof.
  revert o. induction ops as [|[now op] rest IH]; intros o Hc; simpl.
  - constructor.
  - constructor; [| apply IH]; now apply call_consistent.
Qed.

Lemma NewOrder_consistent now customerID o :
  NewOrder now customerID = Ok o -> totals_consistent o.
Proof.
  unfold NewOrder. destruct (customerID =? 0)%N; [discriminate |].
  intros [= <-]. split; [reflexivity | constructor].
Qed.

(** C1.  Take the order made by a successful [NewOrder] (or any order whose
    totals are consistent already) and run any sequence of aggregate
    operations on it, each at any clock reading and succeeding or failing as
    it may.  That order, and the order after each call of the sequence, has
    [totalAmount] equal to the sum of its items' total prices and every
    item's [totalPrice] equal to its quantity times its unit price. *)
Theorem totals_hold_after_every_operation
    (now : Time) (customerID : uint) (o : Order) (ops : list (Time * Op)) :
  NewOrder now customerID = Ok o \/ totals_consistent o ->
  totals_consistent o /\ Forall totals_consistent (history ops o).
Proof.
  intros Hstart.
  assert (Hc : totals_consistent o).
  { destruct Hstart as [Hnew|Hc]; [now apply NewOrder_consistent in Hnew | exact Hc]. }
  split; [exact Hc | now apply history_consistent].
Qed.

Lemma failed_call_leaves_order_unchanged_witness :
  call 106 (OpRemoveItem 999%N) Samples.one_item = (Samples.one_item, Some errItemNotFound) /\
  (Samples.one_item = Samples.one_item /\
   Items Samples.one_item = Items Samples.one_item /\
   TotalAmount Samples.one_item = TotalAmount Samples.one_item /\
   Status Samples.one_item = Status Samples.one_item /\
   CustomerID Samples.one_item = CustomerID Samples.one_item /\
   CreatedAt Samples.one_item = CreatedAt Samples.one_item /\
   UpdatedAt Samples.one_item = UpdatedAt Samples.one_item).
Proof.
  split; [reflexivity |].
  apply (failed_call_leaves_order_unchanged 106 (OpRemoveItem 999%N)
           Samples.one_item Samples.one_item errItemNotFound).
  reflexivity.
Defined.

Lemma totals_hold_after_every_operation_witness :
  NewOrder 100 123%N = Ok Samples.fresh /\
  (totals_consistent Samples.fresh /\
   Forall totals_consistent (history Samples.calls Samples.fresh)).
Proof.
  split; [reflexivity |].
  apply (totals_hold_after_every_operation 100 123%N Samples.fresh Samples.calls).
  left. reflexivity.
Defined.

Example history_of_calls :
  map (fun o => (length (Items o), TotalAmount o, Status o))
      (history Samples.calls Samples.fresh)
  = [ (1%nat, 20%float, OrderStatusPending);
      (1%nat, 20%float, OrderStatusPending);
      (1%nat, 50%float, OrderStatusPending);
      (2%nat, 52.5%float, OrderStatusPending);
      (2%nat, 57.5%float, OrderStatusPending);
      (2%nat, 57.5%float, OrderStatusPending);
      (2%nat, 57.5%float, OrderStatusPending);
      (2%nat, 57.5%float, OrderStatusConfirmed);
      (1%nat, 7.5%float, OrderStatusConfirmed);
      (1%nat, 7.5%float, OrderStatusCancelled);
      (1%nat, 7.5%float, OrderStatusCancelled) ].
Proof. vm_compute. reflexivity. Qed.

(** ** The mutability gate *)

Lemma validateOrderItem_error productID productSKU productName quantity unitPrice e :
  validateOrderItem productID productSKU productName quantity unitPrice = Some e ->
  In e [errProductID; errProductSKU; errProductName; errQuantity; errUnitPrice].
Proof.
  unfold validateOrderItem. split_branches; intros [= <-]; simpl; tauto.
Qed.

Lemma validateOrderItem_not_gate productID productSKU productName quantity unitPrice :
  validateOrderItem productID productSKU productName quantity unitPrice
  <> Some errNotModifiable.
Proof.
  intros H. apply validateOrderItem_error in H. simpl in H.
  repeat destruct H as [H|H]; try discriminate H. exact H.
Qed.

Lemma AddItem_gate now productID productSKU productName quantity unitPrice o :
  snd (AddItem now productID productSKU productName quantity unitPrice o)
    = Some errNotModifiable
  <-> immutable_status (Status o).
Proof.
  rewrite <- isImmutable_true. unfold AddItem.
  destruct (isImmutable o); [tauto |].
  split; [| discriminate].
  destruct (validateOrderItem _ _ _ _ _) as [e|] eqn:Hv; simpl.
  - intros He. exfalso. rewrite He in Hv. now apply validateOrderItem_not_gate in Hv.
  - destruct (findProduct _ _) as [[i item]|]; discriminate.
Qed.

Lemma RemoveItem_gate now productID o :
  snd (RemoveItem now productID o) = Some errNotModifiable <-> immutable_status (Status o).
Proof.
  rewrite <- isImmutable_true. unfold RemoveItem.
  destruct (isImmutable o); [tauto |].
  split; [| discriminate].
  destruct (findProduct _ _) as [[i item]|]; discriminate.
Qed.

Lemma UpdateItemQuantity_gate now productID quantity o :
  snd (UpdateItemQuantity now productID quantity o) = Some errNotModifiable
  <-> immutable_status (Status o).
Proof.
  rewrite <- isImmutable_true. unfold UpdateItemQuantity.
  destruct (isImmutable o); [tauto |].
  split; [| discriminate].
  destruct (quantity <=? 0); [discriminate |].
  destruct (findProduct _ _) as [[i item]|]; discriminate.
Qed.

(** C4.  For every order, clock reading and arguments, valid or not: each of
    [AddItem], [RemoveItem] and [UpdateItemQuantity] returns the
    order-not-modifiable error exactly when the status is cancelled, delivered
    or refunded.  So an immutable order answers even invalid arguments with
    that error, and a mutable order never answers with it. *)
Theorem mutation_fails_not_modifiable_iff_immutable
    (now : Time) (o : Order) (productID : uint) (productSKU productName : string)
    (quantity : int) (unitPrice : float64) :
  (snd (AddItem now productID productSKU productName quantity unitPrice o)
     = Some errNotModifiable
   <-> immutable_status (Status o)) /\
  (snd (RemoveItem now productID o) = Some errNotModifiable
   <-> immutable_status (Status o)) /\
  (snd (UpdateItemQuantity now productID quantity o) = Some errNotModifiable
   <-> immutable_status (Status o)).
Proof.
  split; [apply AddItem_gate | split; [apply RemoveItem_gate | apply UpdateItemQuantity_gate]].
Qed.

Example gate_before_validation :
  AddItem 120 0%N "" "" (-1) 0%float Samples.delivered
  = (Samples.delivered, Some errNotModifiable).
Proof. reflexivity. Qed.

(** ** Cancellation *)

Lemma not_cancellable_statuses s :
  In s [OrderStatusShipped; OrderStatusDelivered; OrderStatusCancelled; OrderStatusRefunded] ->
  ~ cancellable_status s.
Proof.
  unfold cancellable_status. simpl.
  intros [<-|[<-|[<-|[<-|[]]]]] [H|[H|H]]; discriminate H.
Qed.

(** C6.  [CancelOrder] succeeds exactly when the status is pending, confirmed
    or processing; it then sets the status to cancelled and [updatedAt] to the
    clock reading and touches nothing else.  In every other status, shipped,
    delivered, cancelled and refunded among them, it fails with the
    order-cannot-be-cancelled error and returns the order unchanged. *)
Theorem CancelOrder_succeeds_iff_cancellable (now : Time) (o : Order) :
  (snd (CancelOrder now o) = None <-> cancellable_status (Status o)) /\
  (cancellable_status (Status o) ->
   CancelOrder now o
   = (mkOrder (ID o) (CustomerID o) (Items o) (TotalAmount o) OrderStatusCancelled
              (CreatedAt o) now, None)) /\
  (~ cancellable_status (Status o) -> CancelOrder now o = (o, Some errCannotCancel)) /\
  (In (Status o)
      [OrderStatusShipped; OrderStatusDelivered; OrderStatusCancelled; OrderStatusRefunded] ->
   CancelOrder now o = (o, Some errCannotCancel)).
Proof.
  assert (Hno : ~ cancellable_status (Status o) -> CancelOrder now o = (o, Some errCannotCancel)).
  { rewrite <- CanBeCancelled_true. unfold CancelOrder.
    destruct (CanBeCancelled o); [intros H; now destruct H | reflexivity]. }
  rewrite <- CanBeCancelled_true in *.
  repeat split.
  - unfold CancelOrder. destruct (CanBeCancelled o); [reflexivity | discriminate].
  - unfold CancelOrder. intros ->. reflexivity.
  - unfold CancelOrder. intros ->. reflexivity.
  - exact Hno.
  - intros Hin. apply Hno. rewrite CanBeCancelled_true. now apply not_cancellable_statuses.
Qed.

Lemma CancelOrder_succeeds_iff_cancellable_witness :
  CancelOrder 110 Samples.one_item
  = (mkOrder 0%N 123%N (Items Samples.one_item) 20%float OrderStatusCancelled 100 110, None) /\
  CancelOrder 110 Samples.delivered = (Samples.delivered, Some errCannotCancel).
Proof.
  split.
  - apply (proj1 (proj2 (CancelOrder_succeeds_iff_cancellable 110 Samples.one_item))).
    left. reflexivity.
  - apply (proj2 (proj2 (proj2 (CancelOrder_succeeds_iff_cancellable 110 Samples.delivered)))).
    simpl. tauto.
Defined.

(** ** Confirmation of an empty order *)

(** C3, as the code has it.  On an order without items [ConfirmOrder] always
    fails and leaves the order unchanged; the status is checked first, so the
    error is the empty-order error when the status is pending, and the
    only-pending error in every other status. *)
Theorem ConfirmOrder_empty_order (now : Time) (o : Order) :
  Items o = [] ->
  (Status o = OrderStatusPending -> ConfirmOrder now o = (o, Some errEmptyOrder)) /\
  (Status o <> OrderStatusPending -> ConfirmOrder now o = (o, Some errOnlyPending)).
Proof.
  intros Hitems. unfold ConfirmOrder. rewrite Hitems. split.
  - intros ->. reflexivity.
  - intros Hs. apply String.eqb_neq in Hs. now rewrite Hs.
Qed.

Lemma ConfirmOrder_empty_order_witness :
  Items Samples.fresh = [] /\
  ConfirmOrder 108 Samples.fresh = (Samples.fresh, Some errEmptyOrder).
Proof.
  split; [reflexivity |].
  apply (proj1 (ConfirmOrder_empty_order 108 Samples.fresh eq_refl)). reflexivity.
Defined.

(** The claim as worded asks for the empty-order error in every status.  A
    confirmed order without items gets the only-pending error instead. *)
Lemma ConfirmOrder_empty_not_pending_counterexample :
  Items Samples.confirmed_empty = [] /\
  Status Samples.confirmed_empty = OrderStatusConfirmed /\
  snd (ConfirmOrder 108 Samples.confirmed_empty) = Some errOnlyPending /\
  snd (ConfirmOrder 108 Samples.confirmed_empty) <> Some errEmptyOrder.
Proof. repeat split; try reflexivity. discriminate. Qed.

(** ** Adding a product the order already holds *)

Lemma wrap64_in_range z : is_int z -> wrap64 z = z.
Proof.
  unfold is_int, MinInt, MaxInt, wrap64. intros H.
  rewrite Z.mod_small; lia.
Qed.

Lemma AddItem_succeeds now productID productSKU productName quantity unitPrice o o' :
  AddItem now productID productSKU productName quantity unitPrice o = (o', None) ->
  isImmutable o = false /\
  validateOrderItem productID productSKU productName quantity unitPrice = None.
Proof.
  unfold AddItem.
  destruct (isImmutable o); [discriminate |].
  destruct (validateOrderItem _ _ _ _ _); [discriminate |].
  intros _. split; reflexivity.
Qed.

(** The order that the merge path of [AddItem] builds. *)
Lemma AddItem_merge now productID productSKU productName quantity unitPrice o i item :
  isImmutable o = false ->
  validateOrderItem productID productSKU productName quantity unitPrice = None ->
  first_with_product productID (Items o) i item ->
  let q := int_add (Quantity item) quantity in
  let item' :=
    mkOrderItem (ItemID item) (ProductID item) (ProductSKU item) (ProductName item) q
                (UnitPrice item) (PrimFloat.mul (float64_of_int q) (UnitPrice item)) in
  let items' := <[i := item']> (Items o) in
  AddItem now productID productSKU productName quantity unitPrice o
  = (mkOrder (ID o) (CustomerID o) items' (sum_total_prices items') (Status o)
             (CreatedAt o) now, None).
Proof.
  intros Hmut Hvalid Hfirst. apply findProduct_Some in Hfirst.
  unfold AddItem. rewrite Hmut, Hvalid, Hfirst, CalculateTotal_spec. reflexivity.
Qed.

(** C2.  When the order already holds the product (its first entry for the
    product is [item], at position [i]) and [AddItem] succeeds, the items are
    the old ones with position [i] replaced: no entry is appended, and the
    entry's quantity is the old quantity plus the supplied one (Go's [int]
    addition, which is the exact sum whenever that fits an [int]), its total
    price is recomputed from the new quantity, and [totalAmount] is recomputed
    from the new items. *)
Theorem AddItem_existing_product_adds_quantity
    (now : Time) (productID : uint) (productSKU productName : string)
    (quantity : int) (unitPrice : float64) (o o' : Order) (i : nat) (item : OrderItem) :
  first_with_product productID (Items o) i item ->
  AddItem now productID productSKU productName quantity unitPrice o = (o', None) ->
  exists item',
    Items o' = <[i := item']> (Items o) /\
    Items o' !! i = Some item' /\
    length (Items o') = length (Items o) /\
    ProductID item' = productID /\
    Quantity item' = int_add (Quantity item) quantity /\
    (is_int (Quantity item + quantity) -> Quantity item' = Quantity item + quantity) /\
    TotalPrice item' = PrimFloat.mul (float64_of_int (Quantity item')) (UnitPrice item') /\
    TotalAmount o' = sum_total_prices (Items o').
Proof.
  intros Hfirst Hadd.
  destruct (AddItem_succeeds _ _ _ _ _ _ _ _ Hadd) as [Hmut Hvalid].
  rewrite (AddItem_merge now _ _ _ _ _ o i item Hmut Hvalid Hfirst) in Hadd.
  injection Hadd as <-. destruct Hfirst as (Hi & Hpid & _).
  eexists. cbn [Items TotalAmount].
  split; [reflexivity |].
  split; [apply list_lookup_insert_eq; now apply lookup_lt_Some in Hi |].
  split; [apply length_insert |].
  split; [exact Hpid |].
  split; [reflexivity |].
  split; [intros Hfit; cbn [Quantity]; now apply wrap64_in_range |].
  split; reflexivity.
Qed.

Lemma AddItem_existing_product_adds_quantity_witness :
  first_with_product 1%N (Items Samples.one_item) 0
    (mkOrderItem 0%N 1%N "SKU-001" "Test Product" 2 10%float 20%float) /\
  AddItem 103 1%N "SKU-001" "Test Product" 3 10%float Samples.one_item
  = (mkOrder 0%N 123%N
       [mkOrderItem 0%N 1%N "SKU-001" "Test Product" 5 10%float 50%float]
       50%float OrderStatusPending 100 103, None) /\
  exists item',
    [mkOrderItem 0%N 1%N "SKU-001" "Test Product" 5 10%float 50%float]
      = <[0%nat := item']> (Items Samples.one_item) /\
    [mkOrderItem 0%N 1%N "SKU-001" "Test Product" 5 10%float 50%float] !! 0%nat
      = Some item' /\
    1%nat = length (Items Samples.one_item) /\
    ProductID item' = 1%N /\
    Quantity item' = int_add 2 3 /\
    (is_int (2 + 3) -> Quantity item' = 2 + 3) /\
    TotalPrice item' = PrimFloat.mul (float64_of_int (Quantity item')) (UnitPrice item') /\
    50%float
      = sum_total_prices [mkOrderItem 0%N 1%N "SKU-001" "Test Product" 5 10%float 50%float].
Proof.
  assert (Hfirst : first_with_product 1%N (Items Samples.one_item) 0
            (mkOrderItem 0%N 1%N "SKU-001" "Test Product" 2 10%float 20%float)).
  { split; [reflexivity | split; [reflexivity |]]. intros j other Hj. lia. }
  split; [exact Hfirst |].
  split; [reflexivity |].
  exact (AddItem_existing_product_adds_quantity 103 1%N "SKU-001" "Test Product" 3 10%float
           Samples.one_item _ 0 _ Hfirst eq_refl).
Defined.

(** The spec's example: add (id=1, qty=2, price=10), then (id=1, qty=3,
    price=10); one item of quantity 5 remains and the total is 50. *)
Example AddItem_twice_same_product :
  AddItem 101 1%N "SKU-001" "Test Product" 2 10%float Samples.fresh
    = (Samples.one_item, None) /\
  AddItem 103 1%N "SKU-001" "Test Product" 3 10%float Samples.one_item
    = (mkOrder 0%N 123%N
         [mkOrderItem 0%N 1%N "SKU-001" "Test Product" 5 10%float 50%float]
         50%float OrderStatusPending 100 103, None).
Proof. split; reflexivity. Qed.

(** C10.  On the merge path the entry keeps its SKU, its name and its unit
    price; its new total price is the new quantity times the stored unit
    price; and the SKU, name and unit price passed to the call do not matter:
    any other triple that passes validation gives the very same order. *)
Theorem AddItem_existing_product_keeps_description
    (now : Time) (productID : uint) (productSKU productName : string)
    (quantity : int) (unitPrice : float64) (o o' : Order) (i : nat) (item : OrderItem) :
  first_with_product productID (Items o) i item ->
  AddItem now productID productSKU productName quantity unitPrice o = (o', None) ->
  (exists item',
     Items o' !! i = Some item' /\
     ItemID item' = ItemID item /\
     ProductSKU item' = ProductSKU item /\
     ProductName item' = ProductName item /\
     UnitPrice item' = UnitPrice item /\
     TotalPrice item'
     = PrimFloat.mul (float64_of_int (int_add (Quantity item) quantity)) (UnitPrice item)) /\
  (forall productSKU' productName' unitPrice',
     validateOrderItem productID productSKU' productName' quantity unitPrice' = None ->
     AddItem now productID productSKU' productName' quantity unitPrice' o = (o', None)).
Proof.
  intros Hfirst Hadd.
  destruct (AddItem_succeeds _ _ _ _ _ _ _ _ Hadd) as [Hmut Hvalid].
  rewrite (AddItem_merge now _ _ _ _ _ o i item Hmut Hvalid Hfirst) in Hadd.
  injection Hadd as <-. split.
  - destruct Hfirst as (Hi & _). eexists. cbn [Items].
    split; [apply list_lookup_insert_eq; now apply lookup_lt_Some in Hi |].
    repeat split; reflexivity.
  - intros sku' name' price' Hvalid'.
    apply (AddItem_merge now _ _ _ _ _ o i item Hmut Hvalid' Hfirst).
Qed.

Lemma AddItem_existing_product_keeps_description_witness :
  first_with_product 1%N (Items Samples.one_item) 0
    (mkOrderItem 0%N 1%N "SKU-001" "Test Product" 2 10%float 20%float) /\
  AddItem 103 1%N "OTHER-SKU" "Other name" 3 99%float Samples.one_item
  = (mkOrder 0%N 123%N
       [mkOrderItem 0%N 1%N "SKU-001" "Test Product" 5 10%float 50%float]
       50%float OrderStatusPending 100 103, None) /\
  (exists item',
     [mkOrderItem 0%N 1%N "SKU-001" "Test Product" 5 10%float 50%float] !! 0%nat
       = Some item' /\
     ItemID item' = 0%N /\
     ProductSKU item' = "SKU-001"%string /\
     ProductName item' = "Test Product"%string /\
     UnitPrice item' = 10%float /\
     TotalPrice item' = PrimFloat.mul (float64_of_int (int_add 2 3)) 10%float).
Proof.
  assert (Hfirst : first_with_product 1%N (Items Samples.one_item) 0
            (mkOrderItem 0%N 1%N "SKU-001" "Test Product" 2 10%float 20%float)).
  { split; [reflexivity | split; [reflexivity |]]. intros j other Hj. lia. }
  split; [exact Hfirst |].
  split; [reflexivity |].
  exact (proj1 (AddItem_existing_product_keeps_description 103 1%N "OTHER-SKU" "Other name"
                  3 99%float Samples.one_item _ 0 _ Hfirst eq_refl)).
Defined.

(** ** The status dispatcher *)

Lemma ValidateOrderStatus_None status :
  ValidateOrderStatus status = None <-> In status known_statuses.
Proof.
  unfold ValidateOrderStatus.
  destruct (existsb (String.eqb status) known_statuses) eqn:E.
  - split; [intros _ | reflexivity].
    apply existsb_exists in E as (s & Hin & Heq). apply String.eqb_eq in Heq. now subst.
  - split; [discriminate |]. intros Hin. exfalso.
    assert (existsb (String.eqb status) known_statuses = true) as E'.
    { apply existsb_exists. exists status. split; [exact Hin | apply String.eqb_refl]. }
    congruence.
Qed.

Lemma ValidateOrderStatus_unknown status :
  ~ In status known_statuses -> ValidateOrderStatus status = Some errInvalidStatus.
Proof.
  intros Hnot. unfold ValidateOrderStatus.
  destruct (existsb (String.eqb status) known_statuses) eqn:E; [| reflexivity].
  exfalso. apply Hnot, ValidateOrderStatus_None. unfold ValidateOrderStatus. now rewrite E.
Qed.

Lemma interp_saveOrder_failed {S : Type} (repo : Repository S) (s : S) (o : Order) (e : error) :
  interp repo (saveOrder (o, Some e)) s = (Err e, s).
Proof. reflexivity. Qed.

(** The [default] branch of the switch does catch every target that has no
    transition, unrecognized ones included; the dispatcher just never reaches
    the switch with an unrecognized target. *)
Lemma switchStatus_default now status order :
  ~ In status (map fst routes) -> switchStatus now status order = (order, Some errUnsupported).
Proof.
  intros Hnot. unfold switchStatus.
  repeat match goal with
    | |- context [String.eqb status ?c] =>
        destruct (String.eqb_spec status c) as [->|_]; [exfalso; apply Hnot; simpl; tauto |]
    end.
  reflexivity.
Qed.

(** C7, as the code has it.  Once the repository has found the order:
    a target outside the known set fails with the invalid-order-status error
    (and with no other); the target pending, the only known one without a
    transition, fails as an unsupported transition; and each other known
    target is routed to its transition function, whose error is returned as
    it is and whose order is what is handed to [Update].  Nothing is stored
    when the dispatcher fails. *)
Theorem TransitionOrderStatus_dispatch
    {S : Type} (repo : Repository S) (s s1 : S)
    (now : Time) (orderID : uint) (target : OrderStatus) (order : Order) :
  repo _ (RepoGetByID orderID) s = (Ok order, s1) ->
  let run := interp repo
               (TransitionOrderStatus now orderID (dto.mkUpdateOrderStatusRequestDTO target)) s in
  (~ In target known_statuses -> run = (Err domainErrors.ErrInvalidOrderStatus, s1)) /\
  (target = OrderStatusPending -> run = (Err errUnsupported, s1)) /\
  (forall f, In (target, f) routes ->
     run = interp repo (saveOrder (f now order)) s1 /\
     (forall o' e, f now order = (o', Some e) -> run = (Err e, s1))).
Proof.
  intros Hget run. subst run. unfold TransitionOrderStatus. cbn [interp]. rewrite Hget.
  cbn [dto.ReqStatus]. split; [| split].
  - intros Hnot. now rewrite (ValidateOrderStatus_unknown _ Hnot).
  - intros ->. reflexivity.
  - intros f Hin.
    assert (Hroute : interp repo
              match ValidateOrderStatus target with
              | Some _ => Ret (Err domainErrors.ErrInvalidOrderStatus)
              | None => saveOrder (switchStatus now target order)
              end s1 = interp repo (saveOrder (f now order)) s1).
    { simpl in Hin.
      repeat destruct Hin as [Hin|Hin]; try (injection Hin as <- <-; reflexivity).
      destruct Hin. }
    split; [exact Hroute |].
    intros o' e Hf. rewrite Hroute, Hf. reflexivity.
Qed.

Lemma TransitionOrderStatus_dispatch_witness :
  Samples.memory_repo _ (RepoGetByID 9%N) Samples.store
    = (Ok Samples.pending_stored, Samples.store) /\
  interp Samples.memory_repo
    (TransitionOrderStatus 200 9%N (dto.mkUpdateOrderStatusRequestDTO OrderStatusConfirmed))
    Samples.store
  = interp Samples.memory_repo (saveOrder (ConfirmOrder 200 Samples.pending_stored))
      Samples.store.
Proof.
  split; [reflexivity |].
  apply (proj2 (proj2 (TransitionOrderStatus_dispatch Samples.memory_repo Samples.store
                         Samples.store 200 9%N OrderStatusConfirmed Samples.pending_stored
                         eq_refl))).
  simpl. tauto.
Defined.

Example dispatch_confirm_stored :
  interp Samples.memory_repo
    (TransitionOrderStatus 200 9%N (dto.mkUpdateOrderStatusRequestDTO OrderStatusConfirmed))
    Samples.store
  = (Ok (dto.OrderToResponseDTO
           (set_UpdatedAt 200 (set_Status OrderStatusConfirmed Samples.pending_stored))),
     [Samples.confirmed_empty; Samples.delivered;
      set_UpdatedAt 200 (set_Status OrderStatusConfirmed Samples.pending_stored)]).
Proof. reflexivity. Qed.

(** The claim as worded has an unrecognized target rejected as an unsupported
    transition.  The target "invalid_status" on a stored order is rejected
    with the invalid-order-status error instead. *)
Lemma TransitionOrderStatus_unrecognized_counterexample :
  ~ In "invalid_status"%string known_statuses /\
  Samples.memory_repo _ (RepoGetByID 9%N) Samples.store
    = (Ok Samples.pending_stored, Samples.store) /\
  fst (interp Samples.memory_repo
         (TransitionOrderStatus 200 9%N (dto.mkUpdateOrderStatusRequestDTO "invalid_status"))
         Samples.store)
    = Err domainErrors.ErrInvalidOrderStatus /\
  fst (interp Samples.memory_repo
         (TransitionOrderStatus 200 9%N (dto.mkUpdateOrderStatusRequestDTO "invalid_status"))
         Samples.store)
    <> Err errUnsupported.
Proof.
  split; [| split; [reflexivity | split; [reflexivity | discriminate]]].
  simpl. intros H. repeat destruct H as [H|H]; try discriminate H. exact H.
Qed.

(** ** The response of an order *)

Lemma fold_left_snoc {A B : Type} (f : A -> B) (l : list A) (acc : list B) :
  fold_left (fun dtos x => dtos ++ [f x]) l acc = acc ++ map f l.
Proof.
  revert acc. induction l as [|x l IH]; intros acc; simpl.
  - now rewrite app_nil_r.
  - rewrite IH, <- app_assoc. reflexivity.
Qed.

Lemma OrderItemsToResponseDTOs_map items :
  dto.OrderItemsToResponseDTOs items = map dto.OrderItemToResponseDTO items.
Proof. unfold dto.OrderItemsToResponseDTOs. now rewrite fold_left_snoc. Qed.

Lemma OrderItem_roundtrip item :
  dto.OrderItemFromResponseDTO (dto.OrderItemToResponseDTO item) = item.
Proof. destruct item. reflexivity. Qed.

Lemma OrderItems_roundtrip items :
  map dto.OrderItemFromResponseDTO (dto.OrderItemsToResponseDTOs items) = items.
Proof.
  rewrite OrderItemsToResponseDTOs_map, map_map.
  induction items as [|item rest IH]; simpl; [reflexivity |].
  now rewrite OrderItem_roundtrip, IH.
Qed.

Lemma Order_roundtrip order :
  dto.OrderFromResponseDTO (dto.OrderToResponseDTO order) = order.
Proof.
  destruct order as [id customer items total status created updated].
  unfold dto.OrderFromResponseDTO, dto.OrderToResponseDTO. cbn -[dto.OrderItemsToResponseDTOs].
  now rewrite OrderItems_roundtrip.
Qed.

(** Hence the response determines the order. *)
Lemma OrderToResponseDTO_injective o1 o2 :
  dto.OrderToResponseDTO o1 = dto.OrderToResponseDTO o2 -> o1 = o2.
Proof.
  intros H. apply (f_equal dto.OrderFromResponseDTO) in H.
  now rewrite !Order_roundtrip in H.
Qed.

(** The conversion pair that the sources do have, to the storage model and
    back, is a round trip as well. *)
Lemma storage_roundtrip order :
  order_repository.toEntity (order_repository.toModel order) = order.
Proof.
  destruct order as [id customer items total status created updated].
  unfold order_repository.toEntity, order_repository.toModel.
  cbn [entities.Items entities.ID entities.CustomerID entities.TotalAmount entities.Status
       entities.CreatedAt entities.UpdatedAt order_repository.Items order_repository.ID
       order_repository.CustomerID order_repository.TotalAmount order_repository.Status
       order_repository.CreatedAt order_repository.UpdatedAt].
  f_equal.
  rewrite (fold_left_snoc
             (fun item =>
                order_repository.mkOrderItemModel (ItemID item) id (ProductID item)
                  (ProductSKU item) (ProductName item) (Quantity item) (UnitPrice item)
                  (TotalPrice item) order_repository.zeroTime order_repository.zeroTime)).
  rewrite (fold_left_snoc
             (fun item =>
                mkOrderItem (order_repository.ItemID item) (order_repository.ProductID item)
                  (order_repository.ProductSKU item) (order_repository.ProductName item)
                  (order_repository.Quantity item) (order_repository.UnitPrice item)
                  (order_repository.TotalPrice item))).
  destruct items as [|item rest]; [reflexivity |].
  cbn [length Nat.ltb Nat.leb app map]. rewrite map_map.
  destruct item. cbn. f_equal.
  induction rest as [|item' rest IH]; [reflexivity |].
  destruct item'. cbn. now rewrite IH.
Qed.

(** C8.  Converting an order to its response and the response back gives the
    order again: identity, customerID, the items in their order, totalAmount,
    status and both timestamps.  The response lists one entry per item, in
    item order, and no two orders share a response. *)
Theorem response_roundtrip (order : Order) :
  dto.OrderFromResponseDTO (dto.OrderToResponseDTO order) = order /\
  dto.Items (dto.OrderToResponseDTO order) = map dto.OrderItemToResponseDTO (Items order) /\
  (forall other, dto.OrderToResponseDTO other = dto.OrderToResponseDTO order -> other = order).
Proof.
  split; [apply Order_roundtrip |].
  split; [apply OrderItemsToResponseDTOs_map |].
  intros other. apply OrderToResponseDTO_injective.
Qed.

Example response_of_stored_order :
  dto.OrderToResponseDTO Samples.pending_stored
  = dto.mkOrderResponseDTO 9%N 123%N
      [dto.mkOrderItemResponseDTO 1%N 1%N "SKU-001" "Test Product" 2 10%float 20%float]
      1 2 20%float OrderStatusPending 100 101.
Proof. reflexivity. Qed.

(** ** Pagination *)

Lemma normalizePagination_bounds page pageSize :
  0 <= fst (normalizePagination page pageSize) /\
  1 <= snd (normalizePagination page pageSize) <= 100.
Proof.
  unfold normalizePagination. cbn [fst snd].
  destruct (Z.ltb_spec page 0), (Z.ltb_spec pageSize 1), (Z.gtb_spec pageSize 100);
    cbn [orb]; lia.
Qed.

Lemma listPage_paged page pageSize count r :
  paged_within _ count -> every_call paged_within (listPage page pageSize count r).
Proof.
  intros Hcount. destruct r as [orders|e]; simpl.
  - constructor; [exact Hcount |]. intros c. constructor.
  - constructor.
Qed.

(** C9.  [normalizePagination] keeps a page [>= 0] and turns a negative one
    into 0; it keeps a page size in [1 .. 100] and turns any other into 10
    (one above 100 as well: 10, not 100).  So its results are a page [>= 0]
    and a page size in [1 .. 100], and each of [ListOrders],
    [GetCustomerOrders] and [GetOrdersByStatus] asks the repository only for
    such a page. *)
Theorem normalizePagination_spec (page pageSize : int) :
  (0 <= page -> fst (normalizePagination page pageSize) = page) /\
  (page < 0 -> fst (normalizePagination page pageSize) = 0) /\
  (1 <= pageSize <= 100 -> snd (normalizePagination page pageSize) = pageSize) /\
  (pageSize < 1 \/ 100 < pageSize -> snd (normalizePagination page pageSize) = 10) /\
  (0 <= fst (normalizePagination page pageSize) /\
   1 <= snd (normalizePagination page pageSize) <= 100) /\
  every_call paged_within (ListOrders page pageSize) /\
  (forall customerID, every_call paged_within (GetCustomerOrders customerID page pageSize)) /\
  (forall status, every_call paged_within (GetOrdersByStatus status page pageSize)).
Proof.
  pose proof (normalizePagination_bounds page pageSize) as Hb.
  split; [| split; [| split; [| split; [| split; [exact Hb |] ] ] ] ].
  - unfold normalizePagination. cbn [fst]. destruct (Z.ltb_spec page 0); lia.
  - unfold normalizePagination. cbn [fst]. destruct (Z.ltb_spec page 0); lia.
  - unfold normalizePagination. cbn [snd].
    destruct (Z.ltb_spec pageSize 1), (Z.gtb_spec pageSize 100); cbn [orb]; lia.
  - unfold normalizePagination. cbn [snd].
    destruct (Z.ltb_spec pageSize 1), (Z.gtb_spec pageSize 100); cbn [orb]; lia.
  - split; [| split].
    + unfold ListOrders. destruct (normalizePagination page pageSize) as [p ps].
      constructor; [exact Hb |]. intros r. now apply listPage_paged.
    + intros customerID. unfold GetCustomerOrders.
      destruct (normalizePagination page pageSize) as [p ps].
      constructor; [exact Hb |]. intros r. now apply listPage_paged.
    + intros status. unfold GetOrdersByStatus.
      destruct (ValidateOrderStatus status); [constructor |].
      destruct (normalizePagination page pageSize) as [p ps].
      constructor; [exact Hb |]. intros r. now apply listPage_paged.
Qed.

Lemma normalizePagination_spec_witness :
  normalizePagination (-1) 150 = (0, 10) /\ normalizePagination 3 100 = (3, 100).
Proof.
  split.
  - apply injective_projections.
    + apply (proj1 (proj2 (normalizePagination_spec (-1) 150))). lia.
    + apply (proj1 (proj2 (proj2 (proj2 (normalizePagination_spec (-1) 150))))). lia.
  - apply injective_projections.
    + apply (proj1 (normalizePagination_spec 3 100)). lia.
    + apply (proj1 (proj2 (proj2 (normalizePagination_spec 3 100)))). lia.
Defined.

Example ListOrders_invalid_pagination :
  fst (interp Samples.memory_repo (ListOrders (-1) 150) Samples.store)
  = Ok (dto.mkOrderListResponseDTO (dto.OrdersToResponseDTOs Samples.store) 3 0 10).
Proof. reflexivity. Qed.

(** * Further properties of the code *)

(** ** Products stay unique *)

Lemma Items_recalculated now items o :
  Items (set_UpdatedAt now (fst (CalculateTotal (set_Items items o)))) = items.
Proof. rewrite CalculateTotal_spec. reflexivity. Qed.

Lemma Items_restatus now s o : Items (set_UpdatedAt now (set_Status s o)) = Items o.
Proof. reflexivity. Qed.

Lemma ProductID_insert_same (items : list OrderItem) i item item' :
  items !! i = Some item -> ProductID item' = ProductID item ->
  ProductID <$> <[i := item']> items = ProductID <$> items.
Proof.
  intros Hi Hp. rewrite list_fmap_insert, Hp.
  apply list_insert_id. now rewrite list_lookup_fmap, Hi.
Qed.

Lemma AddItem_unique now productID productSKU productName quantity unitPrice o :
  unique_products o ->
  unique_products (fst (AddItem now productID productSKU productName quantity unitPrice o)).
Proof.
  intros Hu. unfold AddItem.
  destruct (isImmutable o); [exact Hu |].
  destruct (validateOrderItem _ _ _ _ _); [exact Hu |].
  destruct (findProduct productID (Items o)) as [[i item]|] eqn:Hf;
    cbn [fst]; unfold unique_products; rewrite Items_recalculated.
  - apply findProduct_Some in Hf as (Hi & _ & _).
    now rewrite (ProductID_insert_same _ _ item).
  - apply findProduct_None in Hf. rewrite fmap_app. apply NoDup_app.
    split; [exact Hu |]. split; [| apply NoDup_singleton].
    intros x Hx Hin. apply list_elem_of_singleton in Hin. cbn in Hin. subst x.
    apply list_elem_of_fmap in Hx as (item & Heq & Hitem).
    rewrite Forall_forall in Hf. now apply (Hf item).
Qed.

Lemma RemoveItem_unique now productID o :
  unique_products o -> unique_products (fst (RemoveItem now productID o)).
Proof.
  intros Hu. unfold RemoveItem.
  destruct (isImmutable o); [exact Hu |].
  destruct (findProduct productID (Items o)) as [[i item]|]; [| exact Hu].
  cbn [fst]. unfold unique_products. rewrite Items_recalculated, <- delete_take_drop.
  apply (sublist_NoDup _ (ProductID <$> Items o)); [exact Hu |].
  rewrite list_fmap_delete. apply sublist_delete.
Qed.

Lemma UpdateItemQuantity_unique now productID quantity o :
  unique_products o -> unique_products (fst (UpdateItemQuantity now productID quantity o)).
Proof.
  intros Hu. unfold UpdateItemQuantity.
  destruct (isImmutable o); [exact Hu |].
  destruct (quantity <=? 0); [exact Hu |].
  destruct (findProduct productID (Items o)) as [[i item]|] eqn:Hf; [| exact Hu].
  cbn [fst]. unfold unique_products. rewrite Items_recalculated.
  apply findProduct_Some in Hf as (Hi & _ & _).
  now rewrite (ProductID_insert_same _ _ item).
Qed.

(** The items after any call other than the three item mutations. *)
Lemma status_calls_keep_items now op o :
  match op with
  | OpAddItem _ _ _ _ _ | OpRemoveItem _ | OpUpdateItemQuantity _ _ => True
  | _ => Items (fst (call now op o)) = Items o
  end.
Proof.
  destruct op; cbn [call fst]; try exact I.
  - now rewrite CalculateTotal_spec.
  - unfold ConfirmOrder. split_branches; reflexivity.
  - unfold CancelOrder. split_branches; reflexivity.
  - unfold TransitionToProcessing. split_branches; reflexivity.
  - unfold TransitionToShipped. split_branches; reflexivity.
  - unfold TransitionToDelivered. split_branches; reflexivity.
  - unfold TransitionToRefunded. split_branches; reflexivity.
Qed.

Lemma call_unique now op o : unique_products o -> unique_products (fst (call now op o)).
Proof.
  intros Hu. pose proof (status_calls_keep_items now op o) as Hk.
  destruct op; try (unfold unique_products; now rewrite Hk); cbn [call].
  - now apply AddItem_unique.
  - now apply RemoveItem_unique.
  - now apply UpdateItemQuantity_unique.
Qed.

Lemma history_Forall (P : Order -> Prop) :
  (forall now op o, P o -> P (fst (call now op o))) ->
  forall ops o, P o -> Forall P (history ops o).
Proof.
  intros Hstep ops. induction ops as [|[now op] rest IH]; intros o Ho; cbn [history].
  - constructor.
  - constructor; [| apply IH]; now apply Hstep.
Qed.

(** X1.  An order made by [NewOrder], or any order whose items are for
    different products, keeps that through every sequence of operations:
    after each call no two items share a product ID. *)
Theorem products_stay_unique
    (now : Time) (customerID : uint) (o : Order) (ops : list (Time * Op)) :
  NewOrder now customerID = Ok o \/ unique_products o ->
  unique_products o /\ Forall unique_products (history ops o).
Proof.
  intros Hstart.
  assert (Hu : unique_products o).
  { destruct Hstart as [Hnew|Hu]; [| exact Hu].
    unfold NewOrder in Hnew. destruct (customerID =? 0)%N; [discriminate |].
    injection Hnew as <-. constructor. }
  split; [exact Hu |]. apply history_Forall; [| exact Hu].
  intros; now apply call_unique.
Qed.

Lemma products_stay_unique_witness :
  NewOrder 100 123%N = Ok Samples.fresh /\
  (unique_products Samples.fresh /\
   Forall unique_products (history Samples.calls Samples.fresh)).
Proof.
  split; [reflexivity |].
  apply (products_stay_unique 100 123%N Samples.fresh Samples.calls).
  left. reflexivity.
Defined.

(** ** Stored items stay described *)

Lemma validateOrderItem_None productID productSKU productName quantity unitPrice :
  validateOrderItem productID productSKU productName quantity unitPrice = None <->
  productID <> 0%N /\ TrimSpace productSKU <> ""%string /\
  TrimSpace productName <> ""%string /\ 0 < quantity /\
  PrimFloat.leb unitPrice 0%float = false.
Proof.
  unfold validateOrderItem.
  destruct (N.eqb_spec productID 0) as [Ep|Ep];
    [split; [discriminate | intros (Hx & _); contradiction] |].
  destruct (String.eqb_spec (TrimSpace productSKU) "") as [Es|Es];
    [split; [discriminate | intros (_ & Hx & _); contradiction] |].
  destruct (String.eqb_spec (TrimSpace productName) "") as [En|En];
    [split; [discriminate | intros (_ & _ & Hx & _); contradiction] |].
  destruct (Z.leb_spec quantity 0) as [Eq|Eq];
    [split; [discriminate | intros (_ & _ & _ & Hx & _); lia] |].
  destruct (PrimFloat.leb unitPrice 0) eqn:Eu;
    [split; [discriminate | intros (_ & _ & _ & _ & Hx); discriminate] |].
  split; [intros _; repeat split; assumption | reflexivity].
Qed.

Lemma AddItem_described now productID productSKU productName quantity unitPrice o :
  Forall item_described (Items o) ->
  Forall item_described
    (Items (fst (AddItem now productID productSKU productName quantity unitPrice o))).
Proof.
  intros Hd. unfold AddItem.
  destruct (isImmutable o); [exact Hd |].
  destruct (validateOrderItem _ _ _ _ _) eqn:Hv; [exact Hd |].
  apply validateOrderItem_None in Hv as (Hp & Hs & Hn & _ & Hu).
  destruct (findProduct productID (Items o)) as [[i item]|] eqn:Hf;
    cbn [fst]; rewrite Items_recalculated.
  - apply findProduct_Some in Hf as (Hi & _ & _).
    apply Forall_insert; [exact Hd |].
    rewrite Forall_lookup in Hd. exact (Hd i item Hi).
  - apply Forall_app. split; [exact Hd |].
    constructor; [| constructor]. repeat split; assumption.
Qed.

Lemma call_described now op o :
  Forall item_described (Items o) -> Forall item_described (Items (fst (call now op o))).
Proof.
  intros Hd. pose proof (status_calls_keep_items now op o) as Hk.
  destruct op; try (now rewrite Hk); cbn [call].
  - now apply AddItem_described.
  - unfold RemoveItem. destruct (isImmutable o); [exact Hd |].
    destruct (findProduct _ _) as [[i item]|]; [| exact Hd].
    cbn [fst]. rewrite Items_recalculated, <- delete_take_drop. now apply Forall_delete.
  - unfold UpdateItemQuantity. destruct (isImmutable o); [exact Hd |].
    destruct (quantity <=? 0); [exact Hd |].
    destruct (findProduct _ _) as [[i item]|] eqn:Hf; [| exact Hd].
    cbn [fst]. rewrite Items_recalculated.
    apply findProduct_Some in Hf as (Hi & _ & _).
    apply Forall_insert; [exact Hd |].
    rewrite Forall_lookup in Hd. exact (Hd i item Hi).
Qed.

(** X2.  In an order made by [NewOrder] and changed by any sequence of
    operations, every stored item has a product ID other than 0, a SKU and a
    name that are not empty, and a unit price that is not [<= 0]: what
    validation accepted is never lost by a later merge, quantity update or
    removal. *)
Theorem items_stay_described
    (now : Time) (customerID : uint) (o : Order) (ops : list (Time * Op)) :
  NewOrder now customerID = Ok o \/ Forall item_described (Items o) ->
  Forall (fun o' => Forall item_described (Items o')) (history ops o).
Proof.
  intros Hstart.
  assert (Hd : Forall item_described (Items o)).
  { destruct Hstart as [Hnew|Hd]; [| exact Hd].
    unfold NewOrder in Hnew. destruct (customerID =? 0)%N; [discriminate |].
    injection Hnew as <-. constructor. }
  apply (history_Forall (fun o' => Forall item_described (Items o'))); [| exact Hd].
  intros; now apply call_described.
Qed.

Lemma items_stay_described_witness :
  NewOrder 100 123%N = Ok Samples.fresh /\
  Forall (fun o' => Forall item_described (Items o'))
         (history Samples.calls Samples.fresh).
Proof.
  split; [reflexivity |].
  apply (items_stay_described 100 123%N Samples.fresh Samples.calls).
  left. reflexivity.
Defined.

(** ** Adding a product the order does not hold yet *)

Lemma findProduct_appended productID (items : list OrderItem) item :
  Forall (fun other => ProductID other <> productID) items ->
  ProductID item = productID ->
  findProduct productID (items ++ [item]) = Some (length items, item).
Proof.
  intros Hnone Hp. apply findProduct_Some. split; [| split; [exact Hp |]].
  - now apply list_lookup_middle.
  - intros j other Hj Hl. rewrite lookup_app_l in Hl by exact Hj.
    rewrite Forall_lookup in Hnone. exact (Hnone j other Hl).
Qed.

(** X3.  [AddItem] on a mutable order and [NewOrderItem] accept the same
    arguments and fail with the same error.  When they accept and the order
    has no item for the product, [AddItem] appends exactly the item that
    [NewOrderItem] builds, after the items already there, and [GetItem] then
    finds it. *)
Theorem AddItem_agrees_with_NewOrderItem
    (now : Time) (productID : uint) (productSKU productName : string)
    (quantity : int) (unitPrice : float64) (o : Order) :
  ~ immutable_status (Status o) ->
  match NewOrderItem productID productSKU productName quantity unitPrice with
  | Err e =>
      AddItem now productID productSKU productName quantity unitPrice o = (o, Some e)
  | Ok item =>
      snd (AddItem now productID productSKU productName quantity unitPrice o) = None /\
      (Forall (fun other => ProductID other <> productID) (Items o) ->
       let o' := fst (AddItem now productID productSKU productName quantity unitPrice o) in
       Items o' = Items o ++ [item] /\
       GetItem productID o' = Ok item /\
       GetItemCount o' = GetItemCount o + 1)
  end.
Proof.
  intros Hmut. apply isImmutable_false in Hmut.
  unfold NewOrderItem, AddItem. rewrite Hmut.
  destruct (validateOrderItem _ _ _ _ _) as [e|]; [reflexivity |].
  split.
  - destruct (findProduct _ _) as [[i item]|]; reflexivity.
  - intros Hnone. pose proof Hnone as Hf. apply findProduct_None in Hf. rewrite Hf.
    cbn [fst]. rewrite Items_recalculated. split; [reflexivity |]. split.
    + unfold GetItem. rewrite Items_recalculated.
      rewrite findProduct_appended; [reflexivity | exact Hnone | reflexivity].
    + unfold GetItemCount. rewrite Items_recalculated, length_app. cbn [length]. lia.
Qed.

Lemma AddItem_agrees_with_NewOrderItem_witness :
  ~ immutable_status (Status Samples.one_item) /\
  NewOrderItem 2%N " SKU-002" "Product 2 " 3 15%float
    = Ok (mkOrderItem 0%N 2%N "SKU-002" "Product 2" 3 15%float 45%float) /\
  Items (fst (AddItem 102 2%N " SKU-002" "Product 2 " 3 15%float Samples.one_item))
    = Items Samples.one_item
      ++ [mkOrderItem 0%N 2%N "SKU-002" "Product 2" 3 15%float 45%float].
Proof.
  assert (Hmut : ~ immutable_status (Status Samples.one_item)).
  { intros [H|[H|H]]; discriminate H. }
  split; [exact Hmut |]. split; [reflexivity |].
  pose proof (AddItem_agrees_with_NewOrderItem 102 2%N " SKU-002" "Product 2 " 3 15%float
                Samples.one_item Hmut) as H.
  cbv beta iota delta [NewOrderItem] in H.
  apply H. repeat constructor. discriminate.
Defined.

(** ** Blank SKUs and names *)






(** ** Removing an item *)

Lemma filter_all {A : Type} (P : A -> Prop) `{forall x, Decision (P x)} (l : list A) :
  Forall P l -> filter P l = l.
Proof.
  induction 1 as [|x l Hx _ IH]; [reflexivity |].
  rewrite filter_cons_True by exact Hx. now rewrite IH.
Qed.

Lemma unique_after_first productID (items : list OrderItem) i item :
  NoDup (ProductID <$> items) ->
  items !! i = Some item -> ProductID item = productID ->
  Forall (fun other => ProductID other <> productID) (drop (S i) items).
Proof.
  intros Hu Hi Hp. apply Forall_lookup. intros j other Hj Heq.
  rewrite lookup_drop in Hj.
  assert ((ProductID <$> items) !! i = Some productID) as H1
    by now rewrite list_lookup_fmap, Hi; cbn; rewrite Hp.
  assert ((ProductID <$> items) !! (S i + j)%nat = Some productID) as H2
    by now rewrite list_lookup_fmap, Hj; cbn; rewrite Heq.
  pose proof (NoDup_lookup _ _ _ _ Hu H1 H2). lia.
Qed.

(** X5.  When [RemoveItem] succeeds on an order whose items are for
    different products, what is left is the old items without the one for
    the product, in their old order: one item fewer, [GetItem] no longer
    finds the product, and [totalAmount] is the sum over what is left. *)
Theorem RemoveItem_removes_the_product
    (now : Time) (productID : uint) (o o' : Order) :
  unique_products o ->
  RemoveItem now productID o = (o', None) ->
  Items o' = filter (fun item => ProductID item <> productID) (Items o) /\
  S (length (Items o')) = length (Items o) /\
  GetItem productID o' = Err errGetItem /\
  TotalAmount o' = sum_total_prices (Items o') /\
  UpdatedAt o' = now.
Proof.
  intros Hu. unfold RemoveItem.
  destruct (isImmutable o); [discriminate |].
  destruct (findProduct productID (Items o)) as [[i item]|] eqn:Hf; [| discriminate].
  rewrite CalculateTotal_spec. intros [= <-].
  cbn [Items TotalAmount UpdatedAt set_UpdatedAt set_TotalAmount set_Items].
  apply findProduct_Some in Hf as (Hi & Hp & Hfirst).
  assert (Hbefore : Forall (fun other => ProductID other <> productID) (take i (Items o))).
  { apply Forall_lookup. intros j other Hj.
    apply lookup_take_Some in Hj as [Hj Hlt]. exact (Hfirst j other Hlt Hj). }
  pose proof (unique_after_first productID (Items o) i item Hu Hi Hp) as Hafter.
  assert (Hfilter : take i (Items o) ++ drop (S i) (Items o)
                    = filter (fun other => ProductID other <> productID) (Items o)).
  { rewrite <- (take_drop_middle (Items o) i item Hi) at 3.
    rewrite filter_app, filter_cons_False by (intros Hne; now apply Hne).
    now rewrite !filter_all. }
  split; [exact Hfilter |]. split; [| split; [| split; reflexivity]].
  - rewrite <- delete_take_drop, length_delete by (now exists item).
    apply lookup_lt_Some in Hi. lia.
  - unfold GetItem. cbn [Items set_UpdatedAt set_TotalAmount set_Items].
    assert (findProduct productID (take i (Items o) ++ drop (S i) (Items o)) = None) as ->;
      [| reflexivity].
    apply findProduct_None, Forall_app. now split.
Qed.

Lemma RemoveItem_removes_the_product_witness :
  unique_products Fixtures.two_items /\
  RemoveItem 109 1%N Fixtures.two_items
  = (mkOrder 0%N 123%N [mkOrderItem 0%N 2%N "SKU-002" "Product 2" 3 15%float 45%float]
       45%float OrderStatusPending 100 109, None) /\
  GetItem 1%N
    (mkOrder 0%N 123%N [mkOrderItem 0%N 2%N "SKU-002" "Product 2" 3 15%float 45%float]
       45%float OrderStatusPending 100 109)
  = Err errGetItem.
Proof.
  assert (Hu : unique_products Fixtures.two_items).
  { unfold unique_products. cbn. repeat constructor; cbn.
    - intros H. apply list_elem_of_singleton in H. discriminate H.
    - intros H. inversion H. }
  split; [exact Hu |]. split; [reflexivity |].
  apply (RemoveItem_removes_the_product 109 1%N Fixtures.two_items _ Hu eq_refl).
Defined.

(** X6.  On a mutable order [RemoveItem] fails with the item-not-found error
    exactly when no item is for the product, and succeeds exactly when some
    item is; a failed removal returns the order as it was. *)
Theorem RemoveItem_fails_iff_product_absent (now : Time) (productID : uint) (o : Order) :
  ~ immutable_status (Status o) ->
  (RemoveItem now productID o = (o, Some errItemNotFound)
   <-> Forall (fun item => ProductID item <> productID) (Items o)) /\
  (snd (RemoveItem now productID o) = None
   <-> exists item, item ∈ Items o /\ ProductID item = productID).
Proof.
  intros Hmut. apply isImmutable_false in Hmut. unfold RemoveItem. rewrite Hmut.
  destruct (findProduct productID (Items o)) as [[i item]|] eqn:Hf.
  - apply findProduct_Some in Hf as (Hi & Hp & _). split.
    + split; [discriminate |]. intros Hnone. exfalso.
      rewrite Forall_lookup in Hnone. exact (Hnone i item Hi Hp).
    + split; [intros _ | reflexivity]. exists item.
      split; [now apply list_elem_of_lookup_2 in Hi | exact Hp].
  - apply findProduct_None in Hf. split.
    + split; [intros _; exact Hf | reflexivity].
    + split; [discriminate |]. intros (item & Hin & Hp). exfalso.
      rewrite Forall_forall in Hf. exact (Hf item Hin Hp).
Qed.

Lemma RemoveItem_fails_iff_product_absent_witness :
  ~ immutable_status (Status Fixtures.two_items) /\
  RemoveItem 106 999%N Fixtures.two_items = (Fixtures.two_items, Some errItemNotFound).
Proof.
  assert (Hmut : ~ immutable_status (Status Fixtures.two_items)).
  { intros [H|[H|H]]; discriminate H. }
  split; [exact Hmut |].
  apply (proj1 (RemoveItem_fails_iff_product_absent 106 999%N Fixtures.two_items Hmut)).
  repeat constructor; discriminate.
Defined.

(** ** Setting a quantity *)

Lemma findProduct_insert_same productID (items : list OrderItem) i item item' :
  first_with_product productID items i item ->
  ProductID item' = ProductID item ->
  findProduct productID (<[i := item']> items) = Some (i, item').
Proof.
  intros (Hi & Hp & Hfirst) Hsame. apply findProduct_Some.
  split; [| split; [congruence |]].
  - apply list_lookup_insert_eq. now apply lookup_lt_Some in Hi.
  - intros j other Hj Hl.
    rewrite list_lookup_insert_ne in Hl by lia. exact (Hfirst j other Hj Hl).
Qed.

(** The order that a successful [UpdateItemQuantity] builds. *)
Lemma UpdateItemQuantity_replace now productID quantity o i item :
  isImmutable o = false -> 0 < quantity ->
  first_with_product productID (Items o) i item ->
  let item' :=
    mkOrderItem (ItemID item) (ProductID item) (ProductSKU item) (ProductName item)
                quantity (UnitPrice item)
                (PrimFloat.mul (float64_of_int quantity) (UnitPrice item)) in
  let items' := <[i := item']> (Items o) in
  UpdateItemQuantity now productID quantity o
  = (mkOrder (ID o) (CustomerID o) items' (sum_total_prices items') (Status o)
             (CreatedAt o) now, None).
Proof.
  intros Hmut Hq Hfirst. apply findProduct_Some in Hfirst.
  unfold UpdateItemQuantity. rewrite Hmut, Hfirst, CalculateTotal_spec.
  destruct (Z.leb_spec quantity 0); [lia | reflexivity].
Qed.

(** X7.  When [UpdateItemQuantity] succeeds, the quantity passed was
    positive and the order holds the product; the item for it (the first,
    at position [i]) gets exactly that quantity, not a sum with the old one,
    and a total price of that quantity times its stored unit price; every
    other position and the number of items are as before, [GetItem] returns
    the changed item and [totalAmount] is recomputed. *)
Theorem UpdateItemQuantity_sets_the_quantity
    (now : Time) (productID : uint) (quantity : int) (o o' : Order) :
  UpdateItemQuantity now productID quantity o = (o', None) ->
  0 < quantity /\
  exists i item,
    first_with_product productID (Items o) i item /\
    let item' :=
      mkOrderItem (ItemID item) (ProductID item) (ProductSKU item) (ProductName item)
                  quantity (UnitPrice item)
                  (PrimFloat.mul (float64_of_int quantity) (UnitPrice item)) in
    Items o' = <[i := item']> (Items o) /\
    length (Items o') = length (Items o) /\
    GetItem productID o' = Ok item' /\
    TotalAmount o' = sum_total_prices (Items o') /\
    UpdatedAt o' = now.
Proof.
  intros Hupd.
  assert (Hmut : isImmutable o = false).
  { unfold UpdateItemQuantity in Hupd. destruct (isImmutable o); [discriminate | reflexivity]. }
  assert (Hq : 0 < quantity).
  { unfold UpdateItemQuantity in Hupd. rewrite Hmut in Hupd.
    destruct (Z.leb_spec quantity 0); [discriminate | lia]. }
  split; [exact Hq |].
  destruct (findProduct productID (Items o)) as [[i item]|] eqn:Hf.
  - apply findProduct_Some in Hf. exists i, item. split; [exact Hf |].
    rewrite (UpdateItemQuantity_replace now _ _ o i item Hmut Hq Hf) in Hupd.
    injection Hupd as <-. cbn [Items TotalAmount UpdatedAt].
    split; [reflexivity |]. split; [apply length_insert |].
    split; [| split; reflexivity].
    unfold GetItem. cbn [Items]. now rewrite (findProduct_insert_same _ _ _ item).
  - exfalso. unfold UpdateItemQuantity in Hupd. rewrite Hmut, Hf in Hupd.
    destruct (quantity <=? 0); discriminate.
Qed.

Lemma UpdateItemQuantity_sets_the_quantity_witness :
  UpdateItemQuantity 105 2%N 7 Fixtures.two_items
  = (mkOrder 0%N 123%N
       [ mkOrderItem 0%N 1%N "SKU-001" "Product 1" 2 10%float 20%float;
         mkOrderItem 0%N 2%N "SKU-002" "Product 2" 7 15%float 105%float ]
       125%float OrderStatusPending 100 105, None) /\
  0 < 7.
Proof.
  split; [reflexivity |].
  exact (proj1 (UpdateItemQuantity_sets_the_quantity 105 2%N 7 Fixtures.two_items _ eq_refl)).
Defined.

(** X8.  Of two quantity updates of the same product in a row only the
    second counts: with a positive second quantity, updating to [q1] and
    then to [q2] gives the very order, and the very outcome, of updating to
    [q2] at once. *)
Theorem UpdateItemQuantity_last_one_wins
    (now1 now2 : Time) (productID : uint) (q1 q2 : int) (o : Order) :
  0 < q2 ->
  UpdateItemQuantity now2 productID q2 (fst (UpdateItemQuantity now1 productID q1 o))
  = UpdateItemQuantity now2 productID q2 o.
Proof.
  intros Hq2.
  destruct (UpdateItemQuantity now1 productID q1 o) as [o1 [e|]] eqn:H1.
  - apply UpdateItemQuantity_failed in H1. now subst o1.
  - assert (Hmut : isImmutable o = false).
    { unfold UpdateItemQuantity in H1. destruct (isImmutable o); [discriminate | reflexivity]. }
    assert (Hq1 : 0 < q1).
    { unfold UpdateItemQuantity in H1. rewrite Hmut in H1.
      destruct (Z.leb_spec q1 0); [discriminate | lia]. }
    destruct (findProduct productID (Items o)) as [[i item]|] eqn:Hf.
    + apply findProduct_Some in Hf.
      rewrite (UpdateItemQuantity_replace now1 _ _ o i item Hmut Hq1 Hf) in H1.
      injection H1 as <-. cbn [fst].
      rewrite (UpdateItemQuantity_replace now2 _ _ o i item Hmut Hq2 Hf).
      erewrite (UpdateItemQuantity_replace now2 productID q2 _ i);
        [| exact Hmut | exact Hq2
         | apply findProduct_Some;
           apply (findProduct_insert_same productID (Items o) i item); [exact Hf | reflexivity]].
      cbn [Items ID CustomerID Status CreatedAt ItemID ProductID ProductSKU ProductName
           UnitPrice].
      now rewrite list_insert_insert_eq.
    + exfalso. unfold UpdateItemQuantity in H1. rewrite Hmut, Hf in H1.
      destruct (q1 <=? 0); discriminate.
Qed.

Lemma UpdateItemQuantity_last_one_wins_witness :
  0 < 7 /\
  UpdateItemQuantity 106 2%N 7 (fst (UpdateItemQuantity 105 2%N 4 Fixtures.two_items))
  = UpdateItemQuantity 106 2%N 7 Fixtures.two_items.
Proof.
  assert (H : 0 < 7) by lia.
  split; [exact H |].
  exact (UpdateItemQuantity_last_one_wins 105 106 2%N 4 7 Fixtures.two_items H).
Defined.

(** ** Quantities at the edge of [int] *)

Lemma wrap64_above z : MaxInt < z <= MaxInt + 2 ^ 64 -> wrap64 z = z - 2 ^ 64.
Proof.
  unfold MaxInt, wrap64. intros H.
  replace (z + 2 ^ 63) with ((z - 2 ^ 64 + 2 ^ 63) + 1 * 2 ^ 64) by lia.
  rewrite Z.mod_add by lia. rewrite Z.mod_small; lia.
Qed.

(** X9.  The merge of [AddItem] adds quantities as Go adds [int]s.  When
    the old quantity plus the added one exceeds the largest [int], the call
    still succeeds and stores the sum less 2^64, a negative quantity. *)
Theorem AddItem_merge_wraps_past_MaxInt
    (now : Time) (productID : uint) (productSKU productName : string)
    (quantity : int) (unitPrice : float64) (o o' : Order) (i : nat) (item : OrderItem) :
  first_with_product productID (Items o) i item ->
  AddItem now productID productSKU productName quantity unitPrice o = (o', None) ->
  is_int (Quantity item) -> is_int quantity ->
  MaxInt < Quantity item + quantity ->
  exists item',
    Items o' !! i = Some item' /\
    Quantity item' = Quantity item + quantity - 2 ^ 64 /\
    Quantity item' < 0.
Proof.
  intros Hfirst Hadd Hold Hnew Hover.
  destruct (AddItem_succeeds _ _ _ _ _ _ _ _ Hadd) as [Hmut Hvalid].
  rewrite (AddItem_merge now _ _ _ _ _ o i item Hmut Hvalid Hfirst) in Hadd.
  injection Hadd as <-. destruct Hfirst as (Hi & _).
  eexists. cbn [Items]. split.
  - apply list_lookup_insert_eq. now apply lookup_lt_Some in Hi.
  - cbn [Quantity]. unfold int_add.
    unfold is_int, MinInt, MaxInt in *.
    rewrite wrap64_above by (unfold MaxInt; lia). lia.
Qed.

Lemma AddItem_merge_wraps_past_MaxInt_witness :
  first_with_product 1%N (Items Fixtures.brimful) 0
    (mkOrderItem 0%N 1%N "SKU-001" "Product 1" MaxInt 1%float 9223372036854775808%float) /\
  AddItem 102 1%N "SKU-001" "Product 1" 1 1%float Fixtures.brimful
  = (mkOrder 0%N 123%N
       [mkOrderItem 0%N 1%N "SKU-001" "Product 1" MinInt 1%float
          (-9223372036854775808)%float]
       (-9223372036854775808)%float OrderStatusPending 100 102, None) /\
  exists item',
    [mkOrderItem 0%N 1%N "SKU-001" "Product 1" MinInt 1%float
       (-9223372036854775808)%float] !! 0%nat = Some item' /\
    Quantity item' = MaxInt + 1 - 2 ^ 64 /\
    Quantity item' < 0.
Proof.
  assert (Hfirst : first_with_product 1%N (Items Fixtures.brimful) 0
            (mkOrderItem 0%N 1%N "SKU-001" "Product 1" MaxInt 1%float
               9223372036854775808%float)).
  { split; [reflexivity | split; [reflexivity |]]. intros j other Hj. lia. }
  split; [exact Hfirst |].
  assert (Hadd : AddItem 102 1%N "SKU-001" "Product 1" 1 1%float Fixtures.brimful
            = (mkOrder 0%N 123%N
                 [mkOrderItem 0%N 1%N "SKU-001" "Product 1" MinInt 1%float
                    (-9223372036854775808)%float]
                 (-9223372036854775808)%float OrderStatusPending 100 102, None))
    by (vm_compute; reflexivity).
  split; [exact Hadd |].
  apply (AddItem_merge_wraps_past_MaxInt 102 1%N "SKU-001" "Product 1" 1 1%float
           Fixtures.brimful _ 0 _ Hfirst Hadd).
  - unfold is_int, MinInt, MaxInt. cbn [Quantity]. lia.
  - unfold is_int, MinInt, MaxInt. lia.
  - cbn [Quantity]. lia.
Defined.

(** ** Counting items and quantities *)

Lemma wrap64_add_l a b : wrap64 (wrap64 a + b) = wrap64 (a + b).
Proof.
  unfold wrap64. f_equal.
  replace ((a + 2 ^ 63) mod 2 ^ 64 - 2 ^ 63 + b + 2 ^ 63)
    with ((a + 2 ^ 63) mod 2 ^ 64 + b) by lia.
  rewrite Z.add_mod_idemp_l by lia. f_equal. lia.
Qed.

Lemma total_quantity_from a (items : list OrderItem) :
  fold_left (fun total item => int_add total (Quantity item)) items (wrap64 a)
  = wrap64 (a + sum_quantities items).
Proof.
  revert a. induction items as [|item rest IH]; intros a; cbn [fold_left sum_quantities foldr].
  - now rewrite Z.add_0_r.
  - unfold int_add at 2. rewrite wrap64_add_l, IH. f_equal.
    unfold sum_quantities. lia.
Qed.

(** X10.  [GetTotalQuantity] is the sum of the items' quantities reduced to
    an [int]: the exact sum whenever that fits.  [GetItemCount] is the number
    of items.  The response of an order reports these two as [total_items]
    and [item_count]. *)
Theorem GetTotalQuantity_is_the_wrapped_sum (o : Order) :
  GetTotalQuantity o = wrap64 (sum_quantities (Items o)) /\
  (is_int (sum_quantities (Items o)) -> GetTotalQuantity o = sum_quantities (Items o)) /\
  GetItemCount o = Z.of_nat (length (Items o)) /\
  dto.TotalItems (dto.OrderToResponseDTO o) = wrap64 (sum_quantities (Items o)) /\
  dto.ItemCount (dto.OrderToResponseDTO o) = Z.of_nat (length (dto.Items (dto.OrderToResponseDTO o))).
Proof.
  assert (Hsum : GetTotalQuantity o = wrap64 (sum_quantities (Items o))).
  { unfold GetTotalQuantity. change 0 with (wrap64 0) at 1.
    now rewrite total_quantity_from. }
  split; [exact Hsum |]. split; [| split; [reflexivity | split; [exact Hsum |]]].
  - intros Hfit. rewrite Hsum. now apply wrap64_in_range.
  - cbn [dto.ItemCount dto.Items dto.OrderToResponseDTO]. unfold GetItemCount.
    now rewrite OrderItemsToResponseDTOs_map, length_map.
Qed.

Lemma GetTotalQuantity_is_the_wrapped_sum_witness :
  GetTotalQuantity Fixtures.two_items = 5.
Proof.
  apply (proj1 (proj2 (GetTotalQuantity_is_the_wrapped_sum Fixtures.two_items))).
  unfold is_int, MinInt, MaxInt. cbn. lia.
Defined.

(** ** The status machine *)

Ltac status_tests :=
  repeat match goal with
    | |- context [String.eqb ?s ?c] =>
        let E := fresh "E" in destruct (String.eqb_spec s c) as [E|E]; try rewrite E
    end.

Lemma item_calls_keep_status now o :
  (forall productID productSKU productName quantity unitPrice,
     Status (fst (AddItem now productID productSKU productName quantity unitPrice o))
     = Status o) /\
  (forall productID, Status (fst (RemoveItem now productID o)) = Status o) /\
  (forall productID quantity,
     Status (fst (UpdateItemQuantity now productID quantity o)) = Status o) /\
  Status (fst (CalculateTotal o)) = Status o.
Proof.
  repeat split; intros.
  - unfold AddItem. split_branches; rewrite ?CalculateTotal_spec; reflexivity.
  - unfold RemoveItem. split_branches; rewrite ?CalculateTotal_spec; reflexivity.
  - unfold UpdateItemQuantity. split_branches; rewrite ?CalculateTotal_spec; reflexivity.
Qed.

Lemma call_status_step now op o :
  Status (fst (call now op o)) = Status o \/
  In (Status o, Status (fst (call now op o))) edges.
Proof.
  destruct (item_calls_keep_status now o) as (Ha & Hr & Hu & Hc).
  destruct op; cbn [call fst]; auto.
  all: destruct o as [id customer items total status created updated].
  all: unfold ConfirmOrder, CancelOrder, CanBeCancelled, TransitionToProcessing,
         TransitionToShipped, TransitionToDelivered, TransitionToRefunded;
       cbn [Status Items].
  all: status_tests; cbn [negb orb fst Status set_UpdatedAt set_Status]; auto.
  all: try (destruct (length items =? 0)%nat; cbn [fst Status set_UpdatedAt set_Status]; auto).
  all: right; cbn; tauto.
Qed.

(** X11.  Whatever operation is called, the status afterwards is the status
    before or the head of an arrow of the status machine leaving it; the
    item operations and [CalculateTotal] never change the status. *)
Theorem status_moves_along_edges (now : Time) (op : Op) (o : Order) :
  (Status (fst (call now op o)) = Status o \/
   In (Status o, Status (fst (call now op o))) edges) /\
  match op with
  | OpAddItem _ _ _ _ _ | OpRemoveItem _ | OpUpdateItemQuantity _ _ | OpCalculateTotal =>
      Status (fst (call now op o)) = Status o
  | _ => True
  end.
Proof.
  split; [apply call_status_step |].
  destruct (item_calls_keep_status now o) as (Ha & Hr & Hu & Hc).
  destruct op; cbn [call fst]; auto.
Qed.

Lemma call_keeps_identity now op o :
  let o' := fst (call now op o) in
  ID o' = ID o /\ CustomerID o' = CustomerID o /\ CreatedAt o' = CreatedAt o.
Proof.
  destruct op; cbn [call fst].
  - unfold AddItem. split_branches; rewrite ?CalculateTotal_spec; repeat split.
  - unfold RemoveItem. split_branches; rewrite ?CalculateTotal_spec; repeat split.
  - unfold UpdateItemQuantity. split_branches; rewrite ?CalculateTotal_spec; repeat split.
  - rewrite CalculateTotal_spec. repeat split.
  - unfold ConfirmOrder. split_branches; repeat split.
  - unfold CancelOrder. split_branches; repeat split.
  - unfold TransitionToProcessing. split_branches; repeat split.
  - unfold TransitionToShipped. split_branches; repeat split.
  - unfold TransitionToDelivered. split_branches; repeat split.
  - unfold TransitionToRefunded. split_branches; repeat split.
Qed.

Lemma status_calls_keep_total now op o :
  match op with
  | OpAddItem _ _ _ _ _ | OpRemoveItem _ | OpUpdateItemQuantity _ _ | OpCalculateTotal => True
  | _ => TotalAmount (fst (call now op o)) = TotalAmount o
  end.
Proof.
  destruct op; cbn [call fst]; try exact I.
  - unfold ConfirmOrder. split_branches; reflexivity.
  - unfold CancelOrder. split_branches; reflexivity.
  - unfold TransitionToProcessing. split_branches; reflexivity.
  - unfold TransitionToShipped. split_branches; reflexivity.
  - unfold TransitionToDelivered. split_branches; reflexivity.
  - unfold TransitionToRefunded. split_branches; reflexivity.
Qed.

(** X12.  No sequence of operations changes the identity, the customer or
    the creation time of an order; and a status operation, successful or
    not, leaves the items and [totalAmount] alone. *)
Theorem operations_keep_identity_and_customer (o : Order) (ops : list (Time * Op)) :
  Forall (fun o' => ID o' = ID o /\ CustomerID o' = CustomerID o /\ CreatedAt o' = CreatedAt o)
         (history ops o) /\
  (forall now op,
     match op with
     | OpAddItem _ _ _ _ _ | OpRemoveItem _ | OpUpdateItemQuantity _ _ | OpCalculateTotal =>
         True
     | _ => Items (fst (call now op o)) = Items o /\
            TotalAmount (fst (call now op o)) = TotalAmount o
     end).
Proof.
  split.
  - apply (history_Forall
             (fun o' => ID o' = ID o /\ CustomerID o' = CustomerID o /\
                        CreatedAt o' = CreatedAt o)); [| repeat split].
    intros now op o1 (Hi & Hc & Ht).
    destruct (call_keeps_identity now op o1) as (Hi' & Hc' & Ht').
    repeat split; congruence.
  - intros now op.
    pose proof (status_calls_keep_items now op o) as Hk.
    pose proof (status_calls_keep_total now op o) as Ht.
    destruct op; auto.
Qed.

Lemma terminal_has_no_edge s s' : terminal_status s -> ~ In (s, s') edges.
Proof.
  intros [-> | ->] Hin; cbn in Hin;
    repeat destruct Hin as [Hin|Hin]; try discriminate Hin; exact Hin.
Qed.

(** X13.  Cancelled and refunded are final: once an order has one of these
    statuses, it keeps it through every sequence of operations. *)
Theorem terminal_status_is_final (o : Order) (ops : list (Time * Op)) :
  terminal_status (Status o) ->
  Forall (fun o' => Status o' = Status o) (history ops o).
Proof.
  intros Hterm.
  apply (history_Forall (fun o' => Status o' = Status o)); [| reflexivity].
  intros now op o1 Hs.
  destruct (call_status_step now op o1) as [Hsame|Hedge]; [congruence |].
  exfalso. rewrite Hs in Hedge. exact (terminal_has_no_edge _ _ Hterm Hedge).
Qed.

Lemma terminal_status_is_final_witness :
  terminal_status (Status Fixtures.cancelled) /\
  Forall (fun o' => Status o' = OrderStatusCancelled)
         (history Samples.calls Fixtures.cancelled).
Proof.
  assert (H : terminal_status (Status Fixtures.cancelled)) by (left; reflexivity).
  split; [exact H |].
  exact (terminal_status_is_final Fixtures.cancelled Samples.calls H).
Defined.

Lemma immutable_step now op o :
  immutable_status (Status o) ->
  Items (fst (call now op o)) = Items o /\ immutable_status (Status (fst (call now op o))).
Proof.
  intros Himm. split.
  - pose proof (status_calls_keep_items now op o) as Hk.
    apply isImmutable_true in Himm.
    destruct op; try exact Hk; cbn [call].
    + unfold AddItem. now rewrite Himm.
    + unfold RemoveItem. now rewrite Himm.
    + unfold UpdateItemQuantity. now rewrite Himm.
  - destruct (call_status_step now op o) as [Hsame|Hedge]; [now rewrite Hsame |].
    unfold immutable_status in *.
    destruct Himm as [Hs|[Hs|Hs]]; rewrite Hs in Hedge; cbn in Hedge;
      repeat destruct Hedge as [Hedge|Hedge]; try discriminate Hedge;
      try (injection Hedge as <-; auto); destruct Hedge.
Qed.

(** X14.  Once an order is cancelled, delivered or refunded, no sequence of
    operations changes its items again, and it stays in one of these three
    statuses. *)
Theorem immutable_order_keeps_its_items (o : Order) (ops : list (Time * Op)) :
  immutable_status (Status o) ->
  Forall (fun o' => Items o' = Items o /\ immutable_status (Status o')) (history ops o).
Proof.
  intros Himm.
  apply (history_Forall (fun o' => Items o' = Items o /\ immutable_status (Status o')));
    [| split; [reflexivity | exact Himm]].
  intros now op o1 (Hitems & Himm1).
  destruct (immutable_step now op o1 Himm1) as (Hi & Hs).
  split; [congruence | exact Hs].
Qed.

Lemma immutable_order_keeps_its_items_witness :
  immutable_status (Status Samples.delivered) /\
  Forall (fun o' => Items o' = Items Samples.delivered /\ immutable_status (Status o'))
         (history ((112, OpTransitionToRefunded) :: Samples.calls) Samples.delivered).
Proof.
  assert (H : immutable_status (Status Samples.delivered)) by (right; left; reflexivity).
  split; [exact H |].
  exact (immutable_order_keeps_its_items Samples.delivered _ H).
Defined.

(** X15.  A pending order that holds an item can be walked along the whole
    chain: confirm, process, ship, deliver and refund all succeed in that
    order, each call changing the status and [updatedAt] only. *)
Theorem full_course_succeeds (t1 t2 t3 t4 t5 : Time) (o : Order) :
  Status o = OrderStatusPending ->
  Items o <> [] ->
  let at_status s t :=
    mkOrder (ID o) (CustomerID o) (Items o) (TotalAmount o) s (CreatedAt o) t in
  history (full_course t1 t2 t3 t4 t5) o
  = [ at_status OrderStatusConfirmed t1; at_status OrderStatusProcessing t2;
      at_status OrderStatusShipped t3; at_status OrderStatusDelivered t4;
      at_status OrderStatusRefunded t5 ] /\
  call t1 OpConfirmOrder o = (at_status OrderStatusConfirmed t1, None) /\
  call t2 OpTransitionToProcessing (at_status OrderStatusConfirmed t1)
  = (at_status OrderStatusProcessing t2, None) /\
  call t3 OpTransitionToShipped (at_status OrderStatusProcessing t2)
  = (at_status OrderStatusShipped t3, None) /\
  call t4 OpTransitionToDelivered (at_status OrderStatusShipped t3)
  = (at_status OrderStatusDelivered t4, None) /\
  call t5 OpTransitionToRefunded (at_status OrderStatusDelivered t4)
  = (at_status OrderStatusRefunded t5, None).
Proof.
  intros Hs Hitems at_status. subst at_status.
  destruct o as [id customer items total status created updated].
  cbn [Status Items] in Hs, Hitems. subst status.
  destruct items as [|item rest]; [contradiction |].
  repeat split; reflexivity.
Qed.

Lemma full_course_succeeds_witness :
  Status Samples.one_item = OrderStatusPending /\
  Items Samples.one_item <> [] /\
  map Status (history (full_course 201 202 203 204 205) Samples.one_item)
  = [ OrderStatusConfirmed; OrderStatusProcessing; OrderStatusShipped;
      OrderStatusDelivered; OrderStatusRefunded ].
Proof.
  assert (Hi : Items Samples.one_item <> []) by discriminate.
  split; [reflexivity |]. split; [exact Hi |].
  rewrite (proj1 (full_course_succeeds 201 202 203 204 205 Samples.one_item eq_refl Hi)).
  reflexivity.
Defined.

(** X16.  Every successful call of an operation other than
    [CalculateTotal] stamps [updatedAt] with the clock reading of the call;
    [CalculateTotal] changes [totalAmount] only. *)
Theorem successful_call_stamps_updatedAt (now : Time) (op : Op) (o o' : Order) :
  call now op o = (o', None) ->
  match op with
  | OpCalculateTotal =>
      o' = mkOrder (ID o) (CustomerID o) (Items o) (sum_total_prices (Items o)) (Status o)
                   (CreatedAt o) (UpdatedAt o)
  | _ => UpdatedAt o' = now
  end.
Proof.
  destruct op; cbn [call].
  - unfold AddItem. split_branches; intros [= <-]; reflexivity.
  - unfold RemoveItem. split_branches; intros [= <-]; reflexivity.
  - unfold UpdateItemQuantity. split_branches; intros [= <-]; reflexivity.
  - rewrite CalculateTotal_spec. intros [= <-]. reflexivity.
  - unfold ConfirmOrder. split_branches; intros [= <-]; reflexivity.
  - unfold CancelOrder. split_branches; intros [= <-]; reflexivity.
  - unfold TransitionToProcessing. split_branches; intros [= <-]; reflexivity.
  - unfold TransitionToShipped. split_branches; intros [= <-]; reflexivity.
  - unfold TransitionToDelivered. split_branches; intros [= <-]; reflexivity.
  - unfold TransitionToRefunded. split_branches; intros [= <-]; reflexivity.
Qed.

Lemma successful_call_stamps_updatedAt_witness :
  call 105 (OpUpdateItemQuantity 2%N 7) Fixtures.two_items
  = (mkOrder 0%N 123%N
       [ mkOrderItem 0%N 1%N "SKU-001" "Product 1" 2 10%float 20%float;
         mkOrderItem 0%N 2%N "SKU-002" "Product 2" 7 15%float 105%float ]
       125%float OrderStatusPending 100 105, None) /\
  105 = 105.
Proof.
  split; [reflexivity |].
  exact (successful_call_stamps_updatedAt 105 (OpUpdateItemQuantity 2%N 7)
           Fixtures.two_items _ eq_refl).
Defined.

(** ** Building an order from a creation request *)

Lemma AddItem_outcome now productID productSKU productName quantity unitPrice o :
  isImmutable o = false ->
  snd (AddItem now productID productSKU productName quantity unitPrice o)
  = validateOrderItem productID productSKU productName quantity unitPrice.
Proof.
  intros Hmut. unfold AddItem. rewrite Hmut.
  destruct (validateOrderItem _ _ _ _ _); [reflexivity |].
  destruct (findProduct _ _) as [[i item]|]; reflexivity.
Qed.

Lemma AddItem_stays_mutable now productID productSKU productName quantity unitPrice o :
  isImmutable (fst (AddItem now productID productSKU productName quantity unitPrice o))
  = isImmutable o.
Proof.
  destruct (item_calls_keep_status now o) as (Ha & _).
  unfold isImmutable. now rewrite Ha.
Qed.

Lemma addItems_preserves (P : Order -> Prop) :
  (forall now productID productSKU productName quantity unitPrice o,
     P o -> P (fst (AddItem now productID productSKU productName quantity unitPrice o))) ->
  forall clock items k o o',
    P o -> dto_requests.addItems clock k items o = Ok o' -> P o'.
Proof.
  intros Hstep clock items.
  induction items as [|item rest IH]; intros k o o' Ho; cbn [dto_requests.addItems].
  - now intros [= <-].
  - pose proof (Hstep (clock k) (dto_requests.ItemProductID item)
                  (dto_requests.ItemProductSKU item) (dto_requests.ItemProductName item)
                  (dto_requests.ItemQuantity item) (dto_requests.ItemUnitPrice item) o Ho)
      as Hnext.
    destruct (AddItem _ _ _ _ _ _ o) as [o1 [e|]]; [discriminate |].
    apply IH. exact Hnext.
Qed.

Lemma addItems_accepts clock items :
  forall k o, isImmutable o = false ->
    ((exists o', dto_requests.addItems clock k items o = Ok o')
     <-> Forall dto_requests.item_accepted items).
Proof.
  induction items as [|item rest IH]; intros k o Hmut; cbn [dto_requests.addItems].
  - split; [constructor | eauto].
  - pose proof (AddItem_outcome (clock k) (dto_requests.ItemProductID item)
                  (dto_requests.ItemProductSKU item) (dto_requests.ItemProductName item)
                  (dto_requests.ItemQuantity item) (dto_requests.ItemUnitPrice item) o Hmut)
      as Hout.
    pose proof (AddItem_stays_mutable (clock k) (dto_requests.ItemProductID item)
                  (dto_requests.ItemProductSKU item) (dto_requests.ItemProductName item)
                  (dto_requests.ItemQuantity item) (dto_requests.ItemUnitPrice item) o)
      as Hstay.
    destruct (AddItem _ _ _ _ _ _ o) as [o1 [e|]]; cbn [fst snd] in Hout, Hstay.
    + split; [intros [o' H]; discriminate H |].
      intros Hall. apply Forall_cons in Hall as [Hitem _].
      unfold dto_requests.item_accepted in Hitem. congruence.
    + rewrite Forall_cons, <- (IH (S k) o1) by congruence.
      unfold dto_requests.item_accepted. rewrite <- Hout. tauto.
Qed.

Lemma addItems_first_refusal clock good bad rest e :
  Forall dto_requests.item_accepted good ->
  validateOrderItem (dto_requests.ItemProductID bad) (dto_requests.ItemProductSKU bad)
    (dto_requests.ItemProductName bad) (dto_requests.ItemQuantity bad)
    (dto_requests.ItemUnitPrice bad) = Some e ->
  forall k o, isImmutable o = false ->
    dto_requests.addItems clock k (good ++ bad :: rest) o = Err e.
Proof.
  intros Hgood Hbad. induction Hgood as [|item good Hitem _ IH]; intros k o Hmut;
    cbn [app dto_requests.addItems].
  - pose proof (AddItem_outcome (clock k) (dto_requests.ItemProductID bad)
                  (dto_requests.ItemProductSKU bad) (dto_requests.ItemProductName bad)
                  (dto_requests.ItemQuantity bad) (dto_requests.ItemUnitPrice bad) o Hmut)
      as Hout.
    destruct (AddItem _ _ _ _ _ _ o) as [o1 [e1|]]; cbn [snd] in Hout; congruence.
  - pose proof (AddItem_outcome (clock k) (dto_requests.ItemProductID item)
                  (dto_requests.ItemProductSKU item) (dto_requests.ItemProductName item)
                  (dto_requests.ItemQuantity item) (dto_requests.ItemUnitPrice item) o Hmut)
      as Hout.
    pose proof (AddItem_stays_mutable (clock k) (dto_requests.ItemProductID item)
                  (dto_requests.ItemProductSKU item) (dto_requests.ItemProductName item)
                  (dto_requests.ItemQuantity item) (dto_requests.ItemUnitPrice item) o)
      as Hstay.
    unfold dto_requests.item_accepted in Hitem.
    destruct (AddItem _ _ _ _ _ _ o) as [o1 [e1|]]; cbn [fst snd] in Hout, Hstay;
      [congruence |].
    apply IH. congruence.
Qed.

(** X17.  [ToEntity] turns a creation request into an order exactly when
    the customer ID is not 0 and every requested item passes item
    validation.  A customer ID of 0 gives the customer-ID error whatever the
    items are; otherwise the error is that of the first requested item that
    validation refuses, the items after it not being looked at. *)
Theorem ToEntity_accepts_iff_request_valid
    (clock : dto_requests.Clock) (request : dto_requests.CreateOrderRequestDTO) :
  (dto_requests.CustomerID request = 0%N ->
   dto_requests.ToEntity clock request = Err errCustomerID) /\
  ((exists o, dto_requests.ToEntity clock request = Ok o) <->
   dto_requests.CustomerID request <> 0%N /\
   Forall dto_requests.item_accepted (dto_requests.Items request)) /\
  (forall good bad rest e,
     dto_requests.CustomerID request <> 0%N ->
     dto_requests.Items request = good ++ bad :: rest ->
     Forall dto_requests.item_accepted good ->
     validateOrderItem (dto_requests.ItemProductID bad) (dto_requests.ItemProductSKU bad)
       (dto_requests.ItemProductName bad) (dto_requests.ItemQuantity bad)
       (dto_requests.ItemUnitPrice bad) = Some e ->
     dto_requests.ToEntity clock request = Err e).
Proof.
  unfold dto_requests.ToEntity, NewOrder.
  destruct (N.eqb_spec (dto_requests.CustomerID request) 0) as [Hz|Hnz].
  - split; [reflexivity |]. split.
    + split; [intros [o H]; discriminate H | intros [H _]; contradiction].
    + intros; contradiction.
  - split; [intros; contradiction |]. split.
    + rewrite addItems_accepts by reflexivity. tauto.
    + intros good bad rest e _ -> Hgood Hbad.
      now apply addItems_first_refusal.
Qed.

Example ToEntity_three_lines :
  dto_requests.ToEntity Requests.ticking Requests.three_lines
  = Ok (mkOrder 0%N 123%N
          [ mkOrderItem 0%N 1%N "SKU-001" "Product 1" 5 10%float 50%float;
            mkOrderItem 0%N 2%N "SKU-002" "Product 2" 3 15%float 45%float ]
          95%float OrderStatusPending 100 103).
Proof. vm_compute. reflexivity. Qed.

Lemma wrap64_add_r a b : wrap64 (a + wrap64 b) = wrap64 (a + b).
Proof. rewrite (Z.add_comm a (wrap64 b)), wrap64_add_l. f_equal. lia. Qed.

Lemma sum_quantities_app items1 items2 :
  sum_quantities (items1 ++ items2) = sum_quantities items1 + sum_quantities items2.
Proof.
  unfold sum_quantities. induction items1 as [|item rest IH]; cbn [app foldr]; lia.
Qed.

Lemma sum_quantities_insert (items : list OrderItem) i item item' :
  items !! i = Some item ->
  sum_quantities (<[i := item']> items)
  = sum_quantities items - Quantity item + Quantity item'.
Proof.
  revert i. induction items as [|first rest IH]; intros i Hi; [discriminate Hi |].
  destruct i as [|i].
  - injection Hi as ->.
    change (<[0%nat := item']> (item :: rest)) with (item' :: rest).
    unfold sum_quantities. cbn [foldr]. lia.
  - change ((first :: rest) !! S i) with (rest !! i) in Hi.
    change (<[S i := item']> (first :: rest)) with (first :: <[i := item']> rest).
    specialize (IH i Hi). unfold sum_quantities in *. cbn [foldr]. lia.
Qed.

Lemma AddItem_adds_to_total_quantity
    now productID productSKU productName quantity unitPrice o o' :
  AddItem now productID productSKU productName quantity unitPrice o = (o', None) ->
  wrap64 (sum_quantities (Items o')) = wrap64 (sum_quantities (Items o) + quantity) /\
  (length (Items o') <= S (length (Items o)))%nat.
Proof.
  unfold AddItem.
  destruct (isImmutable o); [discriminate |].
  destruct (validateOrderItem _ _ _ _ _); [discriminate |].
  destruct (findProduct productID (Items o)) as [[i item]|] eqn:Hf;
    rewrite CalculateTotal_spec; intros [= <-]; cbn [Items set_UpdatedAt set_TotalAmount set_Items].
  - apply findProduct_Some in Hf as (Hi & _ & _).
    rewrite (sum_quantities_insert _ _ item) by exact Hi. cbn [Quantity set_TotalPrice set_Quantity].
    unfold int_add. rewrite length_insert. split; [| lia].
    rewrite wrap64_add_r. f_equal. lia.
  - rewrite sum_quantities_app, length_app. cbn [length]. split; [| lia].
    f_equal. unfold sum_quantities. cbn [foldr Quantity]. lia.
Qed.

Lemma addItems_total_quantity clock items :
  forall k o o',
    dto_requests.addItems clock k items o = Ok o' ->
    wrap64 (sum_quantities (Items o'))
    = wrap64 (sum_quantities (Items o) + dto_requests.requested_quantity items) /\
    (length (Items o') <= length (Items o) + length items)%nat.
Proof.
  induction items as [|item rest IH]; intros k o o';
    cbn [dto_requests.addItems dto_requests.requested_quantity foldr length].
  - intros [= <-]. rewrite Z.add_0_r. split; [reflexivity | lia].
  - destruct (AddItem _ _ _ _ _ _ o) as [o1 [e|]] eqn:Hadd; [discriminate |].
    intros Hrest. apply AddItem_adds_to_total_quantity in Hadd as (Hq & Hl).
    apply IH in Hrest as (Hq' & Hl'). split; [| lia].
    rewrite Hq'. fold (dto_requests.requested_quantity rest).
    rewrite <- wrap64_add_l, Hq, wrap64_add_l. f_equal. lia.
Qed.

(** X18.  The order that [ToEntity] builds is pending, has no identity yet,
    carries the customer of the request and the first clock reading as its
    creation time; its totals are consistent, its items are for different
    products (requested items for the same product are merged) and are at
    most as many as requested; and the total quantity it reports is the sum
    of the requested quantities, reduced to an [int]. *)
Theorem ToEntity_builds_a_consistent_pending_order
    (clock : dto_requests.Clock) (request : dto_requests.CreateOrderRequestDTO) (o : Order) :
  dto_requests.ToEntity clock request = Ok o ->
  Status o = OrderStatusPending /\ ID o = 0%N /\
  CustomerID o = dto_requests.CustomerID request /\ CreatedAt o = clock 0%nat /\
  totals_consistent o /\ unique_products o /\ Forall item_described (Items o) /\
  (length (Items o) <= length (dto_requests.Items request))%nat /\
  GetTotalQuantity o = wrap64 (dto_requests.requested_quantity (dto_requests.Items request)).
Proof.
  unfold dto_requests.ToEntity.
  destruct (NewOrder (clock 0%nat) (dto_requests.CustomerID request)) as [o0|e] eqn:Hnew;
    [| discriminate].
  intros Hadd.
  pose proof (NewOrder_consistent _ _ _ Hnew) as Hc0.
  assert (Ho0 : o0 = mkOrder 0%N (dto_requests.CustomerID request) [] 0%float
                       OrderStatusPending (clock 0%nat) (clock 0%nat)).
  { unfold NewOrder in Hnew. destruct (_ =? 0)%N; [discriminate |]. now injection Hnew as <-. }
  assert (Hframe : Status o = Status o0 /\ ID o = ID o0 /\ CustomerID o = CustomerID o0 /\
                   CreatedAt o = CreatedAt o0).
  { apply (addItems_preserves
             (fun o' => Status o' = Status o0 /\ ID o' = ID o0 /\
                        CustomerID o' = CustomerID o0 /\ CreatedAt o' = CreatedAt o0))
      with (3 := Hadd); [| repeat split].
    intros now pid sku name q p o1 (Hs & Hi & Hcu & Hcr).
    destruct (call_keeps_identity now (OpAddItem pid sku name q p) o1) as (Hi' & Hcu' & Hcr').
    destruct (item_calls_keep_status now o1) as (Ha & _).
    cbn [call] in Hi', Hcu', Hcr'. rewrite Ha. repeat split; congruence. }
  destruct Hframe as (Hs & Hi & Hcu & Hcr). rewrite Ho0 in Hs, Hi, Hcu, Hcr.
  cbn [Status ID CustomerID CreatedAt] in Hs, Hi, Hcu, Hcr.
  repeat (split; [assumption |]).
  split; [| split; [| split; [| split]]].
  - apply (addItems_preserves totals_consistent) with (3 := Hadd); [| exact Hc0].
    intros; now apply AddItem_consistent.
  - apply (addItems_preserves unique_products) with (3 := Hadd);
      [| rewrite Ho0; constructor].
    intros; now apply AddItem_unique.
  - apply (addItems_preserves (fun o' => Forall item_described (Items o'))) with (3 := Hadd);
      [| rewrite Ho0; constructor].
    intros; now apply AddItem_described.
  - apply addItems_total_quantity in Hadd as (_ & Hl). rewrite Ho0 in Hl.
    cbn [Items length] in Hl. lia.
  - apply addItems_total_quantity in Hadd as (Hq & _). rewrite Ho0 in Hq.
    cbn [Items] in Hq. unfold GetTotalQuantity. change 0 with (wrap64 0) at 1.
    rewrite total_quantity_from, Z.add_0_l, Hq. reflexivity.
Qed.

Lemma ToEntity_builds_a_consistent_pending_order_witness :
  dto_requests.ToEntity Requests.ticking Requests.three_lines
  = Ok (mkOrder 0%N 123%N
          [ mkOrderItem 0%N 1%N "SKU-001" "Product 1" 5 10%float 50%float;
            mkOrderItem 0%N 2%N "SKU-002" "Product 2" 3 15%float 45%float ]
          95%float OrderStatusPending 100 103) /\
  GetTotalQuantity
    (mkOrder 0%N 123%N
       [ mkOrderItem 0%N 1%N "SKU-001" "Product 1" 5 10%float 50%float;
         mkOrderItem 0%N 2%N "SKU-002" "Product 2" 3 15%float 45%float ]
       95%float OrderStatusPending 100 103)
  = wrap64 (2 + (3 + (3 + 0))).
Proof.
  assert (H : dto_requests.ToEntity Requests.ticking Requests.three_lines
              = Ok (mkOrder 0%N 123%N
                      [ mkOrderItem 0%N 1%N "SKU-001" "Product 1" 5 10%float 50%float;
                        mkOrderItem 0%N 2%N "SKU-002" "Product 2" 3 15%float 45%float ]
                      95%float OrderStatusPending 100 103))
    by (vm_compute; reflexivity).
  split; [exact H |].
  apply (ToEntity_builds_a_consistent_pending_order Requests.ticking Requests.three_lines _ H).
Defined.

(** ** Use cases that change a stored order *)

Lemma use_case_runs_operation {S : Type} (repo : Repository S) (s s1 : S)
    (now : Time) (orderID : uint) (change : usecases_orders.Change) (order : Order) :
  repo _ (RepoGetByID orderID) s = (Ok order, s1) ->
  interp repo (usecases_orders.use_case now orderID change) s
  = interp repo (saveOrder (call now (usecases_orders.operation change) order)) s1.
Proof.
  intros Hget. destruct change; cbn [usecases_orders.use_case];
    unfold usecases_orders.AddItemToOrder, usecases_orders.RemoveItemFromOrder,
      usecases_orders.UpdateItemQuantity, usecases_orders.ConfirmOrder,
      usecases_orders.CancelOrder;
    cbn [interp]; rewrite Hget; reflexivity.
Qed.

(** X19.  Each of [AddItemToOrder], [RemoveItemFromOrder],
    [UpdateItemQuantity], [ConfirmOrder] and [CancelOrder] runs its operation
    of the aggregate on the order the repository found.  When the operation
    fails, its error is returned as it is and [Update] is not called; when it
    succeeds, the changed order is handed to [Update], whose stored order
    makes the response, and a failure of [Update] is reported as the
    failed-to-update error whatever it was. *)
Theorem change_is_stored_only_when_it_succeeds
    {S : Type} (repo : Repository S) (s s1 : S)
    (now : Time) (orderID : uint) (change : usecases_orders.Change) (order : Order) :
  repo _ (RepoGetByID orderID) s = (Ok order, s1) ->
  let outcome := interp repo (usecases_orders.use_case now orderID change) s in
  (forall o' e,
     call now (usecases_orders.operation change) order = (o', Some e) ->
     outcome = (Err e, s1)) /\
  (forall o' stored s2,
     call now (usecases_orders.operation change) order = (o', None) ->
     repo _ (RepoUpdate o') s1 = (Ok stored, s2) ->
     outcome = (Ok (dto.OrderToResponseDTO stored), s2)) /\
  (forall o' e s2,
     call now (usecases_orders.operation change) order = (o', None) ->
     repo _ (RepoUpdate o') s1 = (Err e, s2) ->
     outcome = (Err domainErrors.ErrFailedToUpdateOrder, s2)).
Proof.
  intros Hget outcome. subst outcome.
  rewrite (use_case_runs_operation repo s s1 now orderID change order Hget).
  repeat split.
  - intros o' e ->. reflexivity.
  - intros o' stored s2 -> Hupd. cbn [saveOrder interp]. now rewrite Hupd.
  - intros o' e s2 -> Hupd. cbn [saveOrder interp]. now rewrite Hupd.
Qed.

Lemma change_is_stored_only_when_it_succeeds_witness :
  Samples.memory_repo _ (RepoGetByID 8%N) Samples.store
    = (Ok Samples.delivered, Samples.store) /\
  call 300 OpCancelOrder Samples.delivered = (Samples.delivered, Some errCannotCancel) /\
  interp Samples.memory_repo (usecases_orders.CancelOrder 300 8%N) Samples.store
    = (Err errCannotCancel, Samples.store).
Proof.
  split; [reflexivity |]. split; [reflexivity |].
  apply (proj1 (change_is_stored_only_when_it_succeeds Samples.memory_repo Samples.store
                  Samples.store 300 8%N usecases_orders.ChangeCancel Samples.delivered
                  eq_refl) Samples.delivered errCannotCancel).
  reflexivity.
Defined.

(** X20.  [GetOrder] answers with the response of the order the repository
    found.  When the repository does not find the order, its error is the
    answer of [GetOrder], of the five changing use cases and of
    [TransitionOrderStatus] alike, and none of them calls the repository
    again. *)
Theorem missing_order_error_passes_through
    {S : Type} (repo : Repository S) (s s1 : S) (now : Time) (orderID : uint) :
  (forall order,
     repo _ (RepoGetByID orderID) s = (Ok order, s1) ->
     interp repo (usecases_orders.GetOrder orderID) s
     = (Ok (dto.OrderToResponseDTO order), s1)) /\
  (forall e,
     repo _ (RepoGetByID orderID) s = (Err e, s1) ->
     interp repo (usecases_orders.GetOrder orderID) s = (Err e, s1) /\
     (forall change,
        interp repo (usecases_orders.use_case now orderID change) s = (Err e, s1)) /\
     (forall request,
        interp repo (TransitionOrderStatus now orderID request) s = (Err e, s1))).
Proof.
  split.
  - intros order Hget. unfold usecases_orders.GetOrder. cbn [interp]. now rewrite Hget.
  - intros e Hget. split; [| split].
    + unfold usecases_orders.GetOrder. cbn [interp]. now rewrite Hget.
    + intros change. destruct change; cbn [usecases_orders.use_case];
        unfold usecases_orders.AddItemToOrder, usecases_orders.RemoveItemFromOrder,
          usecases_orders.UpdateItemQuantity, usecases_orders.ConfirmOrder,
          usecases_orders.CancelOrder;
        cbn [interp]; now rewrite Hget.
    + intros request. unfold TransitionOrderStatus. cbn [interp]. now rewrite Hget.
Qed.

Lemma missing_order_error_passes_through_witness :
  Samples.memory_repo _ (RepoGetByID 404%N) Samples.store
    = (Err domainErrors.ErrOrderNotFound, Samples.store) /\
  interp Samples.memory_repo (usecases_orders.ConfirmOrder 300 404%N) Samples.store
    = (Err domainErrors.ErrOrderNotFound, Samples.store).
Proof.
  split; [reflexivity |].
  apply (proj1 (proj2 (proj2 (missing_order_error_passes_through Samples.memory_repo
                                Samples.store Samples.store 300 404%N)
                         domainErrors.ErrOrderNotFound eq_refl))
           usecases_orders.ChangeConfirm).
Defined.

(** ** The listing use cases *)

Lemma OrdersToResponseDTOs_map orders :
  dto.OrdersToResponseDTOs orders = map dto.OrderToResponseDTO orders.
Proof. unfold dto.OrdersToResponseDTOs. now rewrite fold_left_snoc. Qed.

(** X21.  Each listing use case asks the repository for the normalized page
    and then for the count.  A failed listing is reported as the
    failed-to-list error, whatever the repository's error was, and the count is
    not asked for.  Otherwise the answer holds the responses of the listed
    orders in their order and the normalized page and page size; its total is
    the repository's count, or the number of listed orders when counting
    failed: a failed count never fails the listing.  [GetOrdersByStatus] with
    a status outside the known set answers with the invalid-order-status
    error without calling the repository. *)
Theorem listing_outcomes
    {S : Type} (repo : Repository S) (s : S) (page pageSize : int) :
  let p := fst (normalizePagination page pageSize) in
  let ps := snd (normalizePagination page pageSize) in
  let outcome (listed : result (list Order) * S) (count : RepoCall (result Z)) :=
    match listed with
    | (Err _, s1) => (Err domainErrors.ErrFailedToListOrders, s1)
    | (Ok orders, s1) =>
        let (c, s2) := repo _ count s1 in
        (Ok (dto.mkOrderListResponseDTO (map dto.OrderToResponseDTO orders)
               (match c with Ok n => n | Err _ => Z.of_nat (length orders) end) p ps), s2)
    end in
  interp repo (ListOrders page pageSize) s = outcome (repo _ (RepoList ps p) s) RepoCount /\
  (forall customerID,
     interp repo (GetCustomerOrders customerID page pageSize) s
     = outcome (repo _ (RepoGetByCustomerID customerID ps p) s)
               (RepoCountByCustomerID customerID)) /\
  (forall status, In status known_statuses ->
     interp repo (GetOrdersByStatus status page pageSize) s
     = outcome (repo _ (RepoGetByStatus status ps p) s) (RepoCountByStatus status)) /\
  (forall status, ~ In status known_statuses ->
     GetOrdersByStatus status page pageSize = Ret (Err domainErrors.ErrInvalidOrderStatus)).
Proof.
  intros p ps outcome. subst p ps outcome.
  assert (Hpage : forall (listing : RepoCall (result (list Order))) count,
            interp repo
              (Call listing
                 (listPage (fst (normalizePagination page pageSize))
                           (snd (normalizePagination page pageSize)) count)) s
            = match repo _ listing s with
              | (Err _, s1) => (Err domainErrors.ErrFailedToListOrders, s1)
              | (Ok orders, s1) =>
                  let (c, s2) := repo _ count s1 in
                  (Ok (dto.mkOrderListResponseDTO (map dto.OrderToResponseDTO orders)
                         (match c with Ok n => n | Err _ => Z.of_nat (length orders) end)
                         (fst (normalizePagination page pageSize))
                         (snd (normalizePagination page pageSize))), s2)
              end).
  { intros listing count. cbn [interp].
    destruct (repo _ listing s) as [[orders|e] s1]; cbn [listPage interp]; [| reflexivity].
    destruct (repo _ count s1) as [[n|e] s2]; now rewrite OrdersToResponseDTOs_map. }
  split; [| split; [| split]].
  - unfold ListOrders. rewrite (surjective_pairing (normalizePagination page pageSize)).
    apply Hpage.
  - intros customerID. unfold GetCustomerOrders.
    rewrite (surjective_pairing (normalizePagination page pageSize)). apply Hpage.
  - intros status Hknown. unfold GetOrdersByStatus.
    apply ValidateOrderStatus_None in Hknown. rewrite Hknown.
    rewrite (surjective_pairing (normalizePagination page pageSize)). apply Hpage.
  - intros status Hunknown. unfold GetOrdersByStatus.
    now rewrite (ValidateOrderStatus_unknown _ Hunknown).
Qed.

(** ** Creating and deleting stored orders *)

(** X22.  [CreateOrder] hands an order to [Create] exactly when the request
    has a customer ID other than 0 and only items that pass validation; the
    order handed over is then pending with consistent totals and items for
    different products, a failure of [Create] is reported as the
    failed-to-create error, and the response is made from the order [Create]
    returns.  Any other request is answered with the error of [ToEntity]
    without a call of the repository. *)
Theorem CreateOrder_hands_over_only_valid_orders
    (clock : dto_requests.Clock) (request : dto_requests.CreateOrderRequestDTO) :
  (dto_requests.CustomerID request <> 0%N /\
   Forall dto_requests.item_accepted (dto_requests.Items request) ->
   exists entity,
     dto_requests.ToEntity clock request = Ok entity /\
     Status entity = OrderStatusPending /\ totals_consistent entity /\
     unique_products entity /\
     forall (S : Type) (store : usecases_orders.Store S) (s : S),
       usecases_orders.run store (usecases_orders.CreateOrder clock request) s
       = let (r, s1) := store _ (usecases_orders.RepoCreate entity) s in
         (match r with
          | Err _ => Err usecases_orders.ErrFailedToCreateOrder
          | Ok createdOrder => Ok (dto.OrderToResponseDTO createdOrder)
          end, s1)) /\
  (~ (dto_requests.CustomerID request <> 0%N /\
      Forall dto_requests.item_accepted (dto_requests.Items request)) ->
   exists e,
     dto_requests.ToEntity clock request = Err e /\
     usecases_orders.CreateOrder clock request = usecases_orders.SRet (Err e)).
Proof.
  assert (Hiff : (exists o, dto_requests.ToEntity clock request = Ok o) <->
                 dto_requests.CustomerID request <> 0%N /\
                 Forall dto_requests.item_accepted (dto_requests.Items request)).
  { unfold dto_requests.ToEntity, NewOrder.
    destruct (N.eqb_spec (dto_requests.CustomerID request) 0) as [Hz|Hnz].
    - split; [intros [o H]; discriminate H | intros [H _]; contradiction].
    - rewrite addItems_accepts by reflexivity. tauto. }
  split.
  - intros Hvalid. apply Hiff in Hvalid as [entity Hent]. exists entity.
    split; [exact Hent |].
    assert (Hfrom : exists o0,
              o0 = mkOrder 0%N (dto_requests.CustomerID request) [] 0%float
                     OrderStatusPending (clock 0%nat) (clock 0%nat) /\
              dto_requests.addItems clock 1 (dto_requests.Items request) o0 = Ok entity).
    { unfold dto_requests.ToEntity, NewOrder in Hent.
      destruct (_ =? 0)%N; [discriminate |]. eauto. }
    destruct Hfrom as (o0 & Ho0 & Hadd).
    split; [| split; [| split]].
    + apply (addItems_preserves (fun o' => Status o' = OrderStatusPending))
        with (3 := Hadd); [| now rewrite Ho0].
      intros now pid sku name q p o1 Hs.
      destruct (item_calls_keep_status now o1) as (Ha & _). now rewrite Ha.
    + apply (addItems_preserves totals_consistent) with (3 := Hadd).
      * intros; now apply AddItem_consistent.
      * rewrite Ho0. split; [reflexivity | constructor].
    + apply (addItems_preserves unique_products) with (3 := Hadd);
        [| rewrite Ho0; constructor].
      intros; now apply AddItem_unique.
    + intros S store s. unfold usecases_orders.CreateOrder. rewrite Hent.
      cbn [usecases_orders.run].
      destruct (store _ (usecases_orders.RepoCreate entity) s) as [[created|e] s1];
        reflexivity.
  - intros Hinvalid.
    destruct (dto_requests.ToEntity clock request) as [o|e] eqn:Hent.
    + exfalso. apply Hinvalid, Hiff. now exists o.
    + exists e. split; [reflexivity |].
      unfold usecases_orders.CreateOrder. now rewrite Hent.
Qed.

Lemma CreateOrder_hands_over_only_valid_orders_witness :
  ~ (dto_requests.CustomerID Requests.nameless_line <> 0%N /\
     Forall dto_requests.item_accepted (dto_requests.Items Requests.nameless_line)) /\
  exists e,
    dto_requests.ToEntity Requests.ticking Requests.nameless_line = Err e /\
    usecases_orders.CreateOrder Requests.ticking Requests.nameless_line
    = usecases_orders.SRet (Err e).
Proof.
  assert (H : ~ (dto_requests.CustomerID Requests.nameless_line <> 0%N /\
                 Forall dto_requests.item_accepted
                        (dto_requests.Items Requests.nameless_line))).
  { intros [_ Hall]. unfold Requests.nameless_line in Hall. cbn in Hall.
    apply Forall_cons in Hall as [_ Hall]. apply Forall_cons in Hall as [Hbad _].
    vm_compute in Hbad. discriminate Hbad. }
  split; [exact H |].
  exact (proj2 (CreateOrder_hands_over_only_valid_orders Requests.ticking
                  Requests.nameless_line) H).
Defined.

Example CreateOrder_three_lines :
  usecases_orders.run Requests.memory_store
    (usecases_orders.CreateOrder Requests.ticking Requests.three_lines) Samples.store
  = (Ok (dto.mkOrderResponseDTO 10%N 123%N
           [ dto.mkOrderItemResponseDTO 0%N 1%N "SKU-001" "Product 1" 5 10%float 50%float;
             dto.mkOrderItemResponseDTO 0%N 2%N "SKU-002" "Product 2" 3 15%float 45%float ]
           2 8 95%float OrderStatusPending 100 103),
     Samples.store
     ++ [mkOrder 10%N 123%N
           [ mkOrderItem 0%N 1%N "SKU-001" "Product 1" 5 10%float 50%float;
             mkOrderItem 0%N 2%N "SKU-002" "Product 2" 3 15%float 45%float ]
           95%float OrderStatusPending 100 103]).
Proof. vm_compute. reflexivity. Qed.

(** X23.  [DeleteOrder] first looks the order up.  When the repository does
    not find it, its error is returned and [Delete] is not called; when it
    does, [Delete] is called for that identity, its success is success and
    its failure is reported as the failed-to-delete error whatever it was. *)
Theorem DeleteOrder_deletes_only_found_orders
    {S : Type} (store : usecases_orders.Store S) (s s1 : S) (orderID : uint) :
  (forall e,
     store _ (usecases_orders.Repo (RepoGetByID orderID)) s = (Err e, s1) ->
     usecases_orders.run store (usecases_orders.DeleteOrder orderID) s = (Some e, s1)) /\
  (forall order d s2,
     store _ (usecases_orders.Repo (RepoGetByID orderID)) s = (Ok order, s1) ->
     store _ (usecases_orders.RepoDelete orderID) s1 = (d, s2) ->
     usecases_orders.run store (usecases_orders.DeleteOrder orderID) s
     = (match d with
        | Some _ => Some usecases_orders.ErrFailedToDeleteOrder
        | None => None
        end, s2)).
Proof.
  unfold usecases_orders.DeleteOrder. cbn [usecases_orders.run]. split.
  - intros e ->. reflexivity.
  - intros order d s2 -> Hdel. cbn [usecases_orders.run]. rewrite Hdel.
    destruct d; reflexivity.
Qed.

Lemma DeleteOrder_deletes_only_found_orders_witness :
  Requests.memory_store _ (usecases_orders.Repo (RepoGetByID 404%N)) Samples.store
    = (Err domainErrors.ErrOrderNotFound, Samples.store) /\
  usecases_orders.run Requests.memory_store (usecases_orders.DeleteOrder 404%N) Samples.store
    = (Some domainErrors.ErrOrderNotFound, Samples.store).
Proof.
  split; [reflexivity |].
  apply (proj1 (DeleteOrder_deletes_only_found_orders Requests.memory_store Samples.store
                  Samples.store 404%N)).
  reflexivity.
Defined.

(** ** What the HTTP handlers answer *)

Lemma call_error_is_plain now op o o' e :
  call now op o = (o', Some e) -> exists msg, e = errorString msg.
Proof.
  destruct op; cbn [call].
  - unfold AddItem. destruct (isImmutable o); [intros [= _ <-]; eexists; reflexivity |].
    destruct (validateOrderItem _ _ _ _ _) as [e1|] eqn:Hv.
    + intros [= _ <-]. apply validateOrderItem_error in Hv. cbn [In] in Hv.
      destruct Hv as [<-|[<-|[<-|[<-|[<-|[]]]]]]; eexists; reflexivity.
    + destruct (findProduct _ _) as [[i item]|]; discriminate.
  - unfold RemoveItem. split_branches; intros [= _ <-]; eexists; reflexivity.
  - unfold UpdateItemQuantity. split_branches; intros [= _ <-]; eexists; reflexivity.
  - discriminate.
  - unfold ConfirmOrder. split_branches; intros [= _ <-]; eexists; reflexivity.
  - unfold CancelOrder. split_branches; intros [= _ <-]; eexists; reflexivity.
  - unfold TransitionToProcessing. split_branches; intros [= _ <-]; eexists; reflexivity.
  - unfold TransitionToShipped. split_branches; intros [= _ <-]; eexists; reflexivity.
  - unfold TransitionToDelivered. split_branches; intros [= _ <-]; eexists; reflexivity.
  - unfold TransitionToRefunded. split_branches; intros [= _ <-]; eexists; reflexivity.
Qed.

Lemma interp_andThen {S A B : Type} (repo : Repository S)
    (p : UseCase A) (f : A -> UseCase B) :
  forall s,
    interp repo (handlers.andThen p f) s
    = let (a, s') := interp repo p s in interp repo (f a) s'.
Proof.
  induction p as [a|X c k IH]; intros s; cbn [handlers.andThen interp].
  - reflexivity.
  - destruct (repo X c s) as [x s']. apply IH.
Qed.

(** X24.  [handleError] answers an error that is not a domain error with
    status 500 and a fixed body, so the text of that error never reaches the
    client; a domain error is answered with its own code and message (never
    its field) and with status 404 for the code of order-not-found, 409 for
    that of order-already-exists and 400 for every other code.  Every error
    that an operation of the aggregate returns is of the first kind: it is
    answered with status 500. *)
Theorem handleError_classes :
  (forall msg, handlers.handleError (errorString msg) = handlers.internalError) /\
  (forall code message field,
     exists status,
       handlers.handleError (DomainError code message field)
       = (status, handlers.ErrorBody (handlers.mkErrorResponse code message [])) /\
       (status = 404 <-> code = "ORDER_NOT_FOUND"%string) /\
       (status = 409 <-> code = "ORDER_ALREADY_EXISTS"%string) /\
       (status = 400 <->
        code <> "ORDER_NOT_FOUND"%string /\ code <> "ORDER_ALREADY_EXISTS"%string)) /\
  (forall now op o o' e,
     call now op o = (o', Some e) -> handlers.handleError e = handlers.internalError).
Proof.
  split; [reflexivity |]. split.
  - intros code message field. unfold handlers.handleError.
    destruct (String.eqb_spec code "ORDER_NOT_FOUND") as [->|Hnf].
    + eexists. split; [reflexivity |]. unfold handlers.StatusNotFound.
      repeat split; try reflexivity; try discriminate; intros H; try lia.
      now destruct H.
    + destruct (String.eqb_spec code "ORDER_ALREADY_EXISTS") as [->|Hae].
      * eexists. split; [reflexivity |]. unfold handlers.StatusConflict.
        repeat split; try reflexivity; try discriminate; intros H; try lia.
        now destruct H as [_ H].
      * exists 400. split; [destruct (existsb _ _); reflexivity |].
        repeat split; try assumption; try lia; intros H; congruence.
  - intros now op o o' e Hcall.
    apply call_error_is_plain in Hcall as [msg ->]. reflexivity.
Qed.

(** X25.  Over the use cases of the service, a request to remove an item,
    to confirm or to cancel that the aggregate refuses (the order is found,
    its operation returns an error) is answered with status 500 and the
    fixed internal-error body, and nothing is stored. *)
Theorem refused_change_is_answered_with_500
    {S : Type} (repo : Repository S) (s s1 : S) (now : Time) (c : handlers.Context)
    (route : handlers.Route) (orderID productID : uint) (order o' : Order) (e : error) :
  handlers.parseUintParam c "id" = Some orderID ->
  (route = handlers.RouteRemoveItem ->
   handlers.parseUintParam c "product_id" = Some productID) ->
  repo _ (RepoGetByID orderID) s = (Ok order, s1) ->
  call now (handlers.route_operation route productID) order = (o', Some e) ->
  interp repo (handlers.handler route (handlers.orderUseCasesImpl now) c) s
  = (handlers.internalError, s1).
Proof.
  intros Hid Hpid Hget Hcall.
  pose proof (call_error_is_plain _ _ _ _ _ Hcall) as [msg ->].
  destruct route; cbn [handlers.handler handlers.route_operation call] in *;
    unfold handlers.RemoveItemFromOrder, handlers.ConfirmOrder, handlers.CancelOrder;
    rewrite Hid; try rewrite (Hpid eq_refl);
    rewrite interp_andThen;
    cbn [handlers.orderUseCasesImpl handlers.uc_RemoveItemFromOrder
         handlers.uc_ConfirmOrder handlers.uc_CancelOrder];
    unfold usecases_orders.RemoveItemFromOrder, usecases_orders.ConfirmOrder,
      usecases_orders.CancelOrder;
    cbn [interp]; rewrite Hget, Hcall; reflexivity.
Qed.

Lemma refused_change_is_answered_with_500_witness :
  handlers.parseUintParam Requests.context_7 "id" = Some 7%N /\
  Samples.memory_repo _ (RepoGetByID 7%N) Samples.store
    = (Ok Samples.confirmed_empty, Samples.store) /\
  call 300 OpConfirmOrder Samples.confirmed_empty
    = (Samples.confirmed_empty, Some errOnlyPending) /\
  interp Samples.memory_repo
    (handlers.ConfirmOrder (handlers.orderUseCasesImpl 300) Requests.context_7)
    Samples.store
  = (handlers.internalError, Samples.store).
Proof.
  split; [reflexivity |]. split; [reflexivity |]. split; [reflexivity |].
  apply (refused_change_is_answered_with_500 Samples.memory_repo Samples.store
           Samples.store 300 Requests.context_7 handlers.RouteConfirm 7%N 0%N
           Samples.confirmed_empty Samples.confirmed_empty errOnlyPending).
  - reflexivity.
  - discriminate.
  - reflexivity.
  - reflexivity.
Defined.

Lemma ParseUint32_bound s n : strconv.ParseUint32 s = Some n -> (n < 2 ^ 32)%N.
Proof.
  unfold strconv.ParseUint32.
  destruct (list_ascii_of_string s) as [|c l]; [discriminate |].
  destruct (strconv.digits 0 (c :: l)) as [z|]; [| discriminate].
  destruct (Z.leb_spec z (2 ^ 32 - 1)); [| discriminate].
  intros [= <-]. lia.
Qed.

(** X26.  The identity of an order is read from the path as a decimal
    number below 2^32.  When the path parameter is not such a number (it is
    empty, for one) every handler embedded here answers 400 with the code
    INVALID_ID and calls no use case; when it is, [GetOrder] answers 200 with
    the response of the order the repository finds, and otherwise what
    [handleError] makes of the repository's error. *)
Theorem order_id_is_checked_before_any_call
    {S : Type} (repo : Repository S) (s : S) (now : Time)
    (h : handlers.OrderUseCases) (c : handlers.Context) :
  strconv.ParseUint32 "" = None /\
  (forall id, handlers.parseUintParam c "id" = Some id -> (id < 2 ^ 32)%N) /\
  (handlers.parseUintParam c "id" = None ->
   handlers.GetOrder h c = Ret (handlers.invalidID "Invalid order ID format") /\
   forall route,
     handlers.handler route h c = Ret (handlers.invalidID "Invalid order ID format")) /\
  (forall id,
     handlers.parseUintParam c "id" = Some id ->
     interp repo (handlers.GetOrder (handlers.orderUseCasesImpl now) c) s
     = match repo _ (RepoGetByID id) s with
       | (Ok order, s1) => ((200, handlers.OrderBody (dto.OrderToResponseDTO order)), s1)
       | (Err e, s1) => (handlers.handleError e, s1)
       end).
Proof.
  split; [reflexivity |]. split; [| split].
  - intros id. apply ParseUint32_bound.
  - unfold handlers.parseUintParam. intros Hnone. split.
    + unfold handlers.GetOrder. now rewrite Hnone.
    + intros route. destruct route; cbn [handlers.handler];
        unfold handlers.RemoveItemFromOrder, handlers.ConfirmOrder, handlers.CancelOrder,
          handlers.parseUintParam; now rewrite Hnone.
  - unfold handlers.parseUintParam. intros id Hid.
    unfold handlers.GetOrder. rewrite Hid, interp_andThen.
    cbn [handlers.orderUseCasesImpl handlers.uc_GetOrder].
    unfold usecases_orders.GetOrder. cbn [interp].
    destruct (repo _ (RepoGetByID id) s) as [[order|e] s1]; reflexivity.
Qed.

Lemma order_id_is_checked_before_any_call_witness :
  handlers.parseUintParam Requests.context_abc "id" = None /\
  handlers.CancelOrder (handlers.orderUseCasesImpl 300) Requests.context_abc
  = Ret (handlers.invalidID "Invalid order ID format").
Proof.
  split; [reflexivity |].
  apply (proj2 (proj1 (proj2 (proj2 (order_id_is_checked_before_any_call
                                       Samples.memory_repo Samples.store 300
                                       (handlers.orderUseCasesImpl 300)
                                       Requests.context_abc))) eq_refl)
           handlers.RouteCancel).
Defined.

(** X27.  [parsePaginationParams] always gives a page [>= 0] and a page size
    in [1 .. 100]: a parameter that is missing, is not a number or is out of
    these bounds is replaced by the default, 0 for the page and 10 for the
    size.  So [normalizePagination] leaves what the handlers pass unchanged. *)
Theorem parsePaginationParams_within_bounds (c : handlers.Context) :
  let page := fst (handlers.parsePaginationParams c) in
  let pageSize := snd (handlers.parsePaginationParams c) in
  0 <= page /\ 1 <= pageSize <= 100 /\
  normalizePagination page pageSize = (page, pageSize) /\
  (page = 0 \/ strconv.Atoi (handlers.QueryParam c "page") = Some page) /\
  (pageSize = 10 \/ strconv.Atoi (handlers.QueryParam c "page_size") = Some pageSize) /\
  (strconv.Atoi (handlers.QueryParam c "page") = None -> page = 0) /\
  (strconv.Atoi (handlers.QueryParam c "page_size") = None -> pageSize = 10).
Proof.
  intros page pageSize. subst page pageSize.
  unfold handlers.parsePaginationParams. cbn [fst snd].
  set (pageParam := handlers.QueryParam c "page").
  set (sizeParam := handlers.QueryParam c "page_size").
  assert (Hatoi_empty : strconv.Atoi "" = None) by reflexivity.
  assert (Hp : forall v,
            v = (if negb (String.eqb pageParam "")
                 then match strconv.Atoi pageParam with
                      | Some p => if 0 <=? p then p else 0
                      | None => 0
                      end
                 else 0) ->
            0 <= v /\ (v = 0 \/ strconv.Atoi pageParam = Some v) /\
            (strconv.Atoi pageParam = None -> v = 0)).
  { intros v ->. destruct (String.eqb_spec pageParam "") as [->|_]; cbn [negb].
    - rewrite Hatoi_empty. repeat split; auto; lia.
    - destruct (strconv.Atoi pageParam) as [p|]; [| repeat split; auto; lia].
      destruct (Z.leb_spec 0 p); repeat split; auto; try lia; discriminate. }
  assert (Hs : forall v,
            v = (if negb (String.eqb sizeParam "")
                 then match strconv.Atoi sizeParam with
                      | Some ps => if (0 <? ps) && (ps <=? 100) then ps else 10
                      | None => 10
                      end
                 else 10) ->
            1 <= v <= 100 /\ (v = 10 \/ strconv.Atoi sizeParam = Some v) /\
            (strconv.Atoi sizeParam = None -> v = 10)).
  { intros v ->. destruct (String.eqb_spec sizeParam "") as [->|_]; cbn [negb].
    - rewrite Hatoi_empty. repeat split; auto; lia.
    - destruct (strconv.Atoi sizeParam) as [ps|]; [| repeat split; auto; lia].
      destruct (Z.ltb_spec 0 ps), (Z.leb_spec ps 100); cbn [andb];
        repeat split; auto; try lia; discriminate. }
  destruct (Hp _ eq_refl) as (Hp0 & Hp1 & Hp2).
  destruct (Hs _ eq_refl) as (Hs0 & Hs1 & Hs2).
  repeat split; try assumption; try lia.
  unfold normalizePagination.
  match goal with |- (?a, ?b) = (?p, ?q) =>
    assert (a = p) as -> by (destruct (Z.ltb_spec p 0); [lia | reflexivity]);
    assert (b = q) as -> by
      (destruct (Z.ltb_spec q 1), (Z.gtb_spec q 100); cbn [orb]; try lia; reflexivity)
  end.
  reflexivity.
Qed.

Example parsePaginationParams_of_context_7 :
  handlers.parsePaginationParams Requests.context_7 = (2, 10).
Proof. reflexivity. Qed.

(** ** Queries that foretell the outcome of an operation *)

(** X28.  The boolean queries tell beforehand whether an operation will
    succeed: [ConfirmOrder] succeeds exactly when [IsPending] holds and
    [IsEmpty] does not, [CancelOrder] exactly when [CanBeCancelled] holds,
    [TransitionToProcessing] exactly when [IsConfirmed] holds,
    [TransitionToRefunded] exactly when [IsDelivered] holds, and on an order
    that is not immutable [RemoveItem] succeeds exactly when [GetItem] finds
    the product.  A cancelled order can never be cancelled again, and at most
    one of the four status queries holds. *)
Theorem queries_foretell_outcomes (now : Time) (productID : uint) (o : Order) :
  (snd (ConfirmOrder now o) = None
   <-> entities_queries.IsPending o = true /\ IsEmpty o = false) /\
  (snd (CancelOrder now o) = None <-> CanBeCancelled o = true) /\
  (snd (TransitionToProcessing now o) = None <-> entities_queries.IsConfirmed o = true) /\
  (snd (TransitionToRefunded now o) = None <-> entities_queries.IsDelivered o = true) /\
  (isImmutable o = false ->
   (snd (RemoveItem now productID o) = None <-> exists item, GetItem productID o = Ok item)) /\
  (entities_queries.IsCancelled o = true -> CanBeCancelled o = false /\ isImmutable o = true) /\
  (entities_queries.IsPending o = true ->
   entities_queries.IsConfirmed o = false /\ entities_queries.IsCancelled o = false /\
   entities_queries.IsDelivered o = false) /\
  (entities_queries.IsConfirmed o = true ->
   entities_queries.IsCancelled o = false /\ entities_queries.IsDelivered o = false) /\
  (entities_queries.IsCancelled o = true -> entities_queries.IsDelivered o = false).
Proof.
  unfold entities_queries.IsPending, entities_queries.IsConfirmed,
    entities_queries.IsCancelled, entities_queries.IsDelivered, IsEmpty.
  split; [| split; [| split; [| split; [| split; [| split; [| split; [| split]]]]]]].
  - unfold ConfirmOrder. destruct (String.eqb (Status o) OrderStatusPending); cbn [negb].
    + destruct (length (Items o) =? 0)%nat; cbn [snd]; split;
        try discriminate; auto; intros [_ H]; discriminate H.
    + cbn [snd]. split; [discriminate | intros [H _]; discriminate H].
  - unfold CancelOrder. destruct (CanBeCancelled o); cbn [negb snd];
      split; try discriminate; auto.
  - unfold TransitionToProcessing.
    destruct (String.eqb (Status o) OrderStatusConfirmed); cbn [negb snd];
      split; try discriminate; auto.
  - unfold TransitionToRefunded.
    destruct (String.eqb (Status o) OrderStatusDelivered); cbn [negb snd];
      split; try discriminate; auto.
  - intros Hmut. unfold RemoveItem, GetItem. rewrite Hmut.
    destruct (findProduct productID (Items o)) as [[i item]|]; cbn [snd].
    + split; [intros _; now exists item | reflexivity].
    + split; [discriminate | intros [item H]; discriminate H].
  - intros Hc. apply String.eqb_eq in Hc. unfold CanBeCancelled, isImmutable.
    rewrite Hc. split; reflexivity.
  - intros Hs. apply String.eqb_eq in Hs. rewrite Hs. repeat split; reflexivity.
  - intros Hs. apply String.eqb_eq in Hs. rewrite Hs. repeat split; reflexivity.
  - intros Hs. apply String.eqb_eq in Hs. rewrite Hs. reflexivity.
Qed.

(** ** Summaries and lists of responses *)

(** The summary of an order agrees with its full response on identity,
    customer, total, status and both timestamps, and its item count is the
    number of items the full response lists.  The conversions of a list of
    orders, to responses and to summaries, give one entry per order, in the
    order of the list. *)
Lemma summary_agrees_with_response (order : Order) (orders : list Order) :
  let summary := dto_requests.OrderToSummaryResponseDTO order in
  let response := dto.OrderToResponseDTO order in
  dto_requests.SummaryID summary = dto.ID response /\
  dto_requests.SummaryCustomerID summary = dto.CustomerID response /\
  dto_requests.SummaryItemCount summary = Z.of_nat (length (dto.Items response)) /\
  dto_requests.SummaryItemCount summary = dto.ItemCount response /\
  dto_requests.SummaryTotalAmount summary = dto.TotalAmount response /\
  dto_requests.SummaryStatus summary = dto.Status response /\
  dto_requests.SummaryCreatedAt summary = dto.CreatedAt response /\
  dto_requests.SummaryUpdatedAt summary = dto.UpdatedAt response /\
  dto.OrdersToResponseDTOs orders = map dto.OrderToResponseDTO orders /\
  dto_requests.OrdersToSummaryResponseDTOs orders
  = map dto_requests.OrderToSummaryResponseDTO orders /\
  (forall i o, orders !! i = Some o ->
     dto.OrdersToResponseDTOs orders !! i = Some (dto.OrderToResponseDTO o) /\
     dto_requests.OrdersToSummaryResponseDTOs orders !! i
     = Some (dto_requests.OrderToSummaryResponseDTO o)).
Proof.
  intros summary response. subst summary response.
  assert (Hr : dto.OrdersToResponseDTOs orders = map dto.OrderToResponseDTO orders)
    by apply OrdersToResponseDTOs_map.
  assert (Hs : dto_requests.OrdersToSummaryResponseDTOs orders
               = map dto_requests.OrderToSummaryResponseDTO orders).
  { unfold dto_requests.OrdersToSummaryResponseDTOs. now rewrite fold_left_snoc. }
  repeat split; try reflexivity; try assumption.
  - cbn [dto_requests.SummaryItemCount dto_requests.OrderToSummaryResponseDTO dto.Items
         dto.OrderToResponseDTO].
    unfold GetItemCount. now rewrite OrderItemsToResponseDTOs_map, length_map.
  - rewrite Hr. change (map dto.OrderToResponseDTO orders)
      with (dto.OrderToResponseDTO <$> orders).
    now rewrite list_lookup_fmap, H.
  - rewrite Hs. change (map dto_requests.OrderToSummaryResponseDTO orders)
      with (dto_requests.OrderToSummaryResponseDTO <$> orders).
    now rewrite list_lookup_fmap, H.
Qed.

(** ** The storage model *)

Lemma toEntities_map models :
  order_repository_lists.toEntities models = map order_repository.toEntity models.
Proof. unfold order_repository_lists.toEntities. now rewrite fold_left_snoc. Qed.

(** X30.  Converting an order to its storage model and back gives the order
    again, items in their order; every item of the model carries the
    identity of the order, and the model is not marked deleted.  So a list of
    models made from orders converts back to those orders. *)
Theorem storage_model_roundtrip (order : Order) (orders : list Order) :
  order_repository.toEntity (order_repository.toModel order) = order /\
  Forall (fun item => order_repository.OrderID item = ID order)
         (order_repository.Items (order_repository.toModel order)) /\
  length (order_repository.Items (order_repository.toModel order)) = length (Items order) /\
  order_repository.DeletedAt (order_repository.toModel order) = None /\
  order_repository_lists.toEntities (map order_repository.toModel orders) = orders.
Proof.
  split; [apply storage_roundtrip |].
  assert (Hitems : order_repository.Items (order_repository.toModel order)
                   = map (fun item =>
                            order_repository.mkOrderItemModel (ItemID item) (ID order)
                              (ProductID item) (ProductSKU item) (ProductName item)
                              (Quantity item) (UnitPrice item) (TotalPrice item)
                              order_repository.zeroTime order_repository.zeroTime)
                         (Items order)).
  { unfold order_repository.toModel. cbn [order_repository.Items].
    rewrite fold_left_snoc, app_nil_l.
    destruct (Items order); reflexivity. }
  split; [| split; [| split]].
  - rewrite Hitems. apply Forall_forall. intros item Hin.
    apply list_elem_of_In, in_map_iff in Hin as (it & <- & _). reflexivity.
  - now rewrite Hitems, length_map.
  - reflexivity.
  - rewrite toEntities_map, map_map.
    induction orders as [|o rest IH]; [reflexivity |].
    cbn [map]. now rewrite storage_roundtrip, IH.
Qed.

(** ** What the listing handlers answer *)

Lemma normalizePagination_fixed page pageSize :
  0 <= page -> 1 <= pageSize <= 100 -> normalizePagination page pageSize = (page, pageSize).
Proof.
  intros Hp Hs. unfold normalizePagination.
  destruct (Z.ltb_spec page 0); [lia |].
  destruct (Z.ltb_spec pageSize 1), (Z.gtb_spec pageSize 100); cbn [orb]; try lia.
  reflexivity.
Qed.

Lemma parsePaginationParams_bounds c :
  0 <= fst (handlers.parsePaginationParams c) /\
  1 <= snd (handlers.parsePaginationParams c) <= 100.
Proof.
  unfold handlers.parsePaginationParams. cbn [fst snd]. split.
  - destruct (negb _); [| lia].
    destruct (strconv.Atoi _) as [p|]; [| lia].
    destruct (Z.leb_spec 0 p); lia.
  - destruct (negb _); [| lia].
    destruct (strconv.Atoi _) as [ps|]; [| lia].
    destruct (Z.ltb_spec 0 ps), (Z.leb_spec ps 100); cbn [andb]; lia.
Qed.

(** X29.  Over the use cases of the service, the handler of [ListOrders]
    asks the repository for exactly the page and page size it parsed, as
    offset and limit.  A listing the repository fails is answered with status
    400 and the code FAILED_TO_LIST_ORDERS, not with a 5xx status; a listing
    it serves is answered with status 200, the total being the repository's
    count or, when counting fails, the number of orders listed.  The handler
    of [GetOrdersByStatus] answers 400 with the code INVALID_STATUS when the
    status of the path is empty, and 400 with the code INVALID_ORDER_STATUS,
    without a call of the repository, when it is not a known status. *)
Theorem listing_handlers_answers
    {S : Type} (repo : Repository S) (s : S) (now : Time) (c : handlers.Context) :
  let page := fst (handlers.parsePaginationParams c) in
  let pageSize := snd (handlers.parsePaginationParams c) in
  interp repo (handlers.ListOrders (handlers.orderUseCasesImpl now) c) s
  = match repo _ (RepoList pageSize page) s with
    | (Err _, s1) =>
        ((400, handlers.ErrorBody
                 (handlers.mkErrorResponse "FAILED_TO_LIST_ORDERS" "Failed to list orders" [])),
         s1)
    | (Ok orders, s1) =>
        let (n, s2) := repo _ RepoCount s1 in
        ((200, handlers.ListBody
                 (dto.mkOrderListResponseDTO (map dto.OrderToResponseDTO orders)
                    (match n with Ok n => n | Err _ => Z.of_nat (length orders) end)
                    page pageSize)), s2)
    end /\
  (handlers.Param c "status" = ""%string ->
   forall h,
     handlers.GetOrdersByStatus h c
     = Ret (400, handlers.ErrorBody
                   (handlers.mkErrorResponse "INVALID_STATUS" "Status parameter is required"
                      []))) /\
  (handlers.Param c "status" <> ""%string ->
   ~ In (handlers.Param c "status") known_statuses ->
   interp repo (handlers.GetOrdersByStatus (handlers.orderUseCasesImpl now) c) s
   = ((400, handlers.ErrorBody
              (handlers.mkErrorResponse "INVALID_ORDER_STATUS" "Invalid order status" [])),
      s)).
Proof.
  intros page pageSize.
  destruct (parsePaginationParams_bounds c) as (Hp & Hs).
  fold page in Hp. fold pageSize in Hs.
  split; [| split].
  - unfold handlers.ListOrders.
    rewrite (surjective_pairing (handlers.parsePaginationParams c)).
    fold page pageSize. rewrite interp_andThen.
    cbn [handlers.orderUseCasesImpl handlers.uc_ListOrders].
    unfold ListOrders. rewrite (normalizePagination_fixed page pageSize Hp Hs).
    cbn [interp].
    destruct (repo _ (RepoList pageSize page) s) as [[orders|e] s1];
      cbn [listPage interp]; [| reflexivity].
    destruct (repo _ RepoCount s1) as [[n|e] s2]; cbn [interp handlers.sendList];
      now rewrite OrdersToResponseDTOs_map.
  - intros Hempty h. unfold handlers.GetOrdersByStatus. now rewrite Hempty.
  - intros Hne Hunknown. unfold handlers.GetOrdersByStatus.
    apply String.eqb_neq in Hne. rewrite Hne.
    rewrite (surjective_pairing (handlers.parsePaginationParams c)), interp_andThen.
    cbn [handlers.orderUseCasesImpl handlers.uc_GetOrdersByStatus].
    unfold GetOrdersByStatus. now rewrite (ValidateOrderStatus_unknown _ Hunknown).
Qed.

Example ListOrders_handler_of_context_7 :
  fst (interp Samples.memory_repo
         (handlers.ListOrders (handlers.orderUseCasesImpl 300) Requests.context_7)
         Samples.store)
  = (200, handlers.ListBody
            (dto.mkOrderListResponseDTO
               [dto.OrderToResponseDTO Samples.pending_stored] 3 2 10)).
Proof. reflexivity. Qed.
